(** * DuckStation GPU worker: command ring, worker control and software readout

    A shallow embedding of [src/core/gpu_thread.cpp] (the command FIFO shared
    by the CPU thread and the GPU thread, the wake counter, the worker loop,
    backend creation, device-loss recovery, frame presentation) and of the
    display readout of [src/core/gpu_sw.cpp].

    Machine integers are [Z] with the wrap-around written out.  The command
    FIFO is modelled at the granularity of command headers: a finite map from
    byte offsets to the header stored there. *)

From Stdlib Require Import ZArith QArith Lia Bool List Btauto.
From stdpp Require Import base option list gmap strings.

Local Open Scope Z_scope.

(** ** Fixed-width integers *)

Module Int.

Definition u8 (x : Z) : Z := x mod 2 ^ 8.
Definition u16 (x : Z) : Z := x mod 2 ^ 16.
Definition u32 (x : Z) : Z := x mod 2 ^ 32.
Definition u64 (x : Z) : Z := x mod 2 ^ 64.

(** Two's complement wrap-around of a signed 32-bit value. *)
Definition s32 (x : Z) : Z := (x + 2 ^ 31) mod 2 ^ 32 - 2 ^ 31.

(** [size_t] arithmetic; the emulator's supported hosts are 64-bit. *)
Definition size_t (x : Z) : Z := u64 x.

End Int.

(** Modelled from the spec: [Common::AlignUpPow2] of common/align.h, which is
    not part of the sources at hand; it rounds an unsigned 32-bit [value] up
    to the next multiple of the power of two [alignment]. *)
Definition AlignUpPow2 (value alignment : Z) : Z :=
  Z.land (Int.u32 (value + (alignment - 1))) (Int.u32 (Z.lnot (alignment - 1))).

(** Modelled from the spec: [Common::AlignDownPow2] of common/align.h. *)
Definition AlignDownPow2 (value alignment : Z) : Z :=
  Z.land value (Int.u32 (Z.lnot (alignment - 1))).

(** ** Command records *)

(** Modelled from the spec: the enumerators of [GPUBackendCommandType]
    (declared in gpu_types.h, which is absent).  Section 3 of the design
    lists the record family; the four control types come first, "type values
    > Shutdown route to the backend". *)
Inductive GPUBackendCommandType : Type :=
| Wraparound
| AsyncCall
| Reconfigure
| Shutdown
| ClearVRAM
| ClearDisplay
| UpdateDisplay
| ClearCache
| BufferSwapped
| UpdateResolutionScale
| ReadVRAM
| FillVRAM
| UpdateVRAM
| CopyVRAM
| SetDrawingArea
| UpdateCLUT
| DrawPolygon
| DrawPrecisePolygon
| DrawRectangle
| DrawLine.

(** Modelled from the spec: the numeric value of an enumerator, in
    declaration order (an [enum class ... : u8]). *)
Definition type_value (t : GPUBackendCommandType) : Z :=
  match t with
  | Wraparound => 0
  | AsyncCall => 1
  | Reconfigure => 2
  | Shutdown => 3
  | ClearVRAM => 4
  | ClearDisplay => 5
  | UpdateDisplay => 6
  | ClearCache => 7
  | BufferSwapped => 8
  | UpdateResolutionScale => 9
  | ReadVRAM => 10
  | FillVRAM => 11
  | UpdateVRAM => 12
  | CopyVRAM => 13
  | SetDrawingArea => 14
  | UpdateCLUT => 15
  | DrawPolygon => 16
  | DrawPrecisePolygon => 17
  | DrawRectangle => 18
  | DrawLine => 19
  end.

#[global] Instance GPUBackendCommandType_eq_dec : EqDecision GPUBackendCommandType.
Proof. solve_decision. Defined.

(** The header every slot of the FIFO starts with. *)
Record GPUThreadCommand : Type := mkCommand {
  cmd_type : GPUBackendCommandType;
  cmd_size : Z;
  cmd_params : Z
}.

#[global] Instance GPUThreadCommand_eq_dec : EqDecision GPUThreadCommand.
Proof. solve_decision. Defined.

(** [sizeof(GPUBackendCommandType)]: the enumeration's underlying type is
    [u8] (gpu_thread.h). *)
Definition sizeof_GPUBackendCommandType : Z := 1.

Inductive GPURenderer : Type :=
| HardwareD3D11
| HardwareD3D12
| HardwareMetal
| HardwareVulkan
| HardwareOpenGL
| Software.

#[global] Instance GPURenderer_eq_dec : EqDecision GPURenderer.
Proof. solve_decision. Defined.

(** ** The worker's shared state *)

Module GPUThread.

Definition COMMAND_QUEUE_SIZE : Z := 16 * 1024 * 1024.
Definition THRESHOLD_TO_WAKE_GPU : Z := 65536.
Definition MAX_SKIPPED_PRESENT_COUNT : Z := 50.

Definition THREAD_WAKE_COUNT_CPU_THREAD_IS_WAITING : Z := 0x40000000.
Definition THREAD_WAKE_COUNT_SLEEPING : Z := -1.

(** Which backend object [s_state.gpu_backend] holds. *)
Inductive Backend : Type :=
| HardwareBackend
| SoftwareBackend.

Inductive GPUVSyncMode : Type :=
| VSyncDisabled
| VSyncFIFO
| VSyncMailbox.

(** [WindowInfo] (util/window_info.h is absent).  The worker only stores
    and hands on such values, so they stay symbolic: the default-constructed
    one, or one that the environment names. *)
Inductive WindowInfo : Type :=
| WindowInfo_default
| WindowInfo_of (surface : Z).

(** [struct State]: the fields the modelled functions touch
    ([thread_spin_time] and [gpu_thread] are written at startup only).  A
    kernel semaphore is its count. *)
Record State : Type := mkState {
  (* Owned by CPU thread. *)
  command_fifo_write_ptr : Z;
  render_window_info : WindowInfo;
  requested_renderer : option GPURenderer;
  (* Hot variables between both threads. *)
  command_fifo_data : gmap Z GPUThreadCommand;
  thread_wake_count : Z;
  thread_wake_semaphore : Z;
  thread_is_done_semaphore : Z;
  (* Owned by GPU thread. *)
  gpu_backend : option Backend;
  command_fifo_read_ptr : Z;
  skipped_present_count : Z;
  run_idle_flag : bool;
  requested_vsync : GPUVSyncMode;
  requested_allow_present_throttle : bool;
  requested_fullscreen_ui : bool
}.

Definition set_command_fifo_write_ptr (v : Z) (s : State) : State :=
  mkState v (render_window_info s) (requested_renderer s) (command_fifo_data s)
    (thread_wake_count s)
    (thread_wake_semaphore s) (thread_is_done_semaphore s) (gpu_backend s)
    (command_fifo_read_ptr s) (skipped_present_count s) (run_idle_flag s)
    (requested_vsync s) (requested_allow_present_throttle s)
    (requested_fullscreen_ui s).

Definition set_render_window_info (v : WindowInfo) (s : State) : State :=
  mkState (command_fifo_write_ptr s) v
    (requested_renderer s) (command_fifo_data s)
    (thread_wake_count s) (thread_wake_semaphore s) (thread_is_done_semaphore s)
    (gpu_backend s) (command_fifo_read_ptr s) (skipped_present_count s)
    (run_idle_flag s) (requested_vsync s) (requested_allow_present_throttle s)
    (requested_fullscreen_ui s).

Definition set_requested_renderer (v : option GPURenderer) (s : State) : State :=
  mkState (command_fifo_write_ptr s) (render_window_info s)
    v (command_fifo_data s) (thread_wake_count s)
    (thread_wake_semaphore s) (thread_is_done_semaphore s) (gpu_backend s)
    (command_fifo_read_ptr s) (skipped_present_count s) (run_idle_flag s)
    (requested_vsync s) (requested_allow_present_throttle s)
    (requested_fullscreen_ui s).

Definition set_command_fifo_data (v : gmap Z GPUThreadCommand) (s : State) : State :=
  mkState (command_fifo_write_ptr s) (render_window_info s)
    (requested_renderer s) v (thread_wake_count s)
    (thread_wake_semaphore s) (thread_is_done_semaphore s) (gpu_backend s)
    (command_fifo_read_ptr s) (skipped_present_count s) (run_idle_flag s)
    (requested_vsync s) (requested_allow_present_throttle s)
    (requested_fullscreen_ui s).

Definition set_thread_wake_count (v : Z) (s : State) : State :=
  mkState (command_fifo_write_ptr s) (render_window_info s)
    (requested_renderer s) (command_fifo_data s) v
    (thread_wake_semaphore s) (thread_is_done_semaphore s) (gpu_backend s)
    (command_fifo_read_ptr s) (skipped_present_count s) (run_idle_flag s)
    (requested_vsync s) (requested_allow_present_throttle s)
    (requested_fullscreen_ui s).

Definition set_thread_wake_semaphore (v : Z) (s : State) : State :=
  mkState (command_fifo_write_ptr s) (render_window_info s)
    (requested_renderer s) (command_fifo_data s)
    (thread_wake_count s) v (thread_is_done_semaphore s) (gpu_backend s)
    (command_fifo_read_ptr s) (skipped_present_count s) (run_idle_flag s)
    (requested_vsync s) (requested_allow_present_throttle s)
    (requested_fullscreen_ui s).

Definition set_thread_is_done_semaphore (v : Z) (s : State) : State :=
  mkState (command_fifo_write_ptr s) (render_window_info s)
    (requested_renderer s) (command_fifo_data s)
    (thread_wake_count s) (thread_wake_semaphore s) v (gpu_backend s)
    (command_fifo_read_ptr s) (skipped_present_count s) (run_idle_flag s)
    (requested_vsync s) (requested_allow_present_throttle s)
    (requested_fullscreen_ui s).

Definition set_gpu_backend (v : option Backend) (s : State) : State :=
  mkState (command_fifo_write_ptr s) (render_window_info s)
    (requested_renderer s) (command_fifo_data s)
    (thread_wake_count s) (thread_wake_semaphore s) (thread_is_done_semaphore s) v
    (command_fifo_read_ptr s) (skipped_present_count s) (run_idle_flag s)
    (requested_vsync s) (requested_allow_present_throttle s)
    (requested_fullscreen_ui s).

Definition set_command_fifo_read_ptr (v : Z) (s : State) : State :=
  mkState (command_fifo_write_ptr s) (render_window_info s)
    (requested_renderer s) (command_fifo_data s)
    (thread_wake_count s) (thread_wake_semaphore s) (thread_is_done_semaphore s)
    (gpu_backend s) v (skipped_present_count s) (run_idle_flag s)
    (requested_vsync s) (requested_allow_present_throttle s)
    (requested_fullscreen_ui s).

Definition set_skipped_present_count (v : Z) (s : State) : State :=
  mkState (command_fifo_write_ptr s) (render_window_info s)
    (requested_renderer s) (command_fifo_data s)
    (thread_wake_count s) (thread_wake_semaphore s) (thread_is_done_semaphore s)
    (gpu_backend s) (command_fifo_read_ptr s) v (run_idle_flag s)
    (requested_vsync s) (requested_allow_present_throttle s)
    (requested_fullscreen_ui s).

Definition set_run_idle_flag (v : bool) (s : State) : State :=
  mkState (command_fifo_write_ptr s) (render_window_info s)
    (requested_renderer s) (command_fifo_data s)
    (thread_wake_count s) (thread_wake_semaphore s) (thread_is_done_semaphore s)
    (gpu_backend s) (command_fifo_read_ptr s) (skipped_present_count s) v
    (requested_vsync s) (requested_allow_present_throttle s)
    (requested_fullscreen_ui s).

Definition set_requested_vsync (v : GPUVSyncMode) (s : State) : State :=
  mkState (command_fifo_write_ptr s) (render_window_info s)
    (requested_renderer s) (command_fifo_data s)
    (thread_wake_count s) (thread_wake_semaphore s) (thread_is_done_semaphore s)
    (gpu_backend s) (command_fifo_read_ptr s) (skipped_present_count s)
    (run_idle_flag s) v (requested_allow_present_throttle s)
    (requested_fullscreen_ui s).

Definition set_requested_allow_present_throttle (v : bool) (s : State) : State :=
  mkState (command_fifo_write_ptr s) (render_window_info s)
    (requested_renderer s) (command_fifo_data s)
    (thread_wake_count s) (thread_wake_semaphore s) (thread_is_done_semaphore s)
    (gpu_backend s) (command_fifo_read_ptr s) (skipped_present_count s)
    (run_idle_flag s) (requested_vsync s) v (requested_fullscreen_ui s).

Definition set_requested_fullscreen_ui (v : bool) (s : State) : State :=
  mkState (command_fifo_write_ptr s) (render_window_info s)
    (requested_renderer s) (command_fifo_data s)
    (thread_wake_count s) (thread_wake_semaphore s) (thread_is_done_semaphore s)
    (gpu_backend s) (command_fifo_read_ptr s) (skipped_present_count s)
    (run_idle_flag s) (requested_vsync s) (requested_allow_present_throttle s) v.

(** The value-initialised [s_state]; the FIFO storage is allocated "for
    overwrite", so no slot holds a header yet. *)
Definition s_state_init : State :=
  mkState 0 WindowInfo_default None ∅ 0 0 0 None 0 0 false VSyncDisabled false false.

(** *** Wake counter *)

Definition GetThreadWakeCount (state : Z) : Z :=
  Z.land state (Z.lnot THREAD_WAKE_COUNT_CPU_THREAD_IS_WAITING).

(** [thread_wake_count.fetch_add(2)] followed by the conditional [Post]. *)
Definition WakeGPUThread (s : State) : State :=
  let old := thread_wake_count s in
  let s := set_thread_wake_count (Int.s32 (old + 2)) s in
  if old <? 0 then set_thread_wake_semaphore (thread_wake_semaphore s + 1) s
  else s.

(** *** Producer side of the FIFO *)

Definition GetPendingCommandSize (s : State) : Z :=
  let read_ptr := command_fifo_read_ptr s in
  let write_ptr := command_fifo_write_ptr s in
  if write_ptr >=? read_ptr then Int.u32 (write_ptr - read_ptr)
  else Int.u32 (COMMAND_QUEUE_SIZE - read_ptr + write_ptr).

(** [command_fifo_write_ptr.fetch_add(cmd->size)]; the debug-only assertion
    on the new write pointer is not part of release behaviour. *)
Definition publish (cmd : GPUThreadCommand) (s : State) : State :=
  set_command_fifo_write_ptr (Int.u32 (command_fifo_write_ptr s + cmd_size cmd)) s.

Definition PushCommand (cmd : GPUThreadCommand) (s : State) : State :=
  let s := publish cmd s in
  if GetPendingCommandSize s >=? THRESHOLD_TO_WAKE_GPU then WakeGPUThread s
  else s.

Definition PushCommandAndWakeThread (cmd : GPUThreadCommand) (s : State) : State :=
  WakeGPUThread (publish cmd s).

(** Writing the header fields of the slot that starts at offset [off]:
    [cmd->type = ...; cmd->size = ...;] leaves [params] as it was. *)
Definition store_type_size (off : Z) (t : GPUBackendCommandType) (sz : Z)
    (d : gmap Z GPUThreadCommand) : gmap Z GPUThreadCommand :=
  <[off := mkCommand t sz (default 0 (cmd_params <$> d !! off))]> d.

(** The dummy command of the wrap branch also clears [params.bits]. *)
Definition store_dummy (off : Z) (sz : Z)
    (d : gmap Z GPUThreadCommand) : gmap Z GPUThreadCommand :=
  <[off := mkCommand Wraparound sz 0]> d.

Section Allocate.

(** [sizeof(GPUBackendCommand)]: the struct is declared in gpu_types.h,
    which is absent, so its size is a parameter. *)
Variable sizeof_GPUBackendCommand : Z.

(** The consumer runs concurrently: every acquire load of
    [command_fifo_read_ptr] is modelled as the consumer first storing the
    next value of [loads] and the producer then reading it.  A run that
    is still spinning when [loads] is used up has no result. *)

(** The inner [while (available_size < size + sizeof(type))] loop. *)
Fixpoint wait_for_space (size write_ptr available_size : Z) (s : State)
    (loads : list Z) {struct loads} : option (State * list Z) :=
  if available_size <? Int.size_t (size + sizeof_GPUBackendCommandType) then
    match loads with
    | [] => None
    | r :: loads' =>
        let s := WakeGPUThread s in
        let s := set_command_fifo_read_ptr r s in
        let read_ptr := command_fifo_read_ptr s in
        let available_size :=
          if read_ptr >? write_ptr then Int.u32 (read_ptr - write_ptr)
          else Int.u32 (COMMAND_QUEUE_SIZE - write_ptr) in
        wait_for_space size write_ptr available_size s loads'
    end
  else Some (s, loads).

(** The outer [for (;;)] loop, entered with [size] already aligned.  The
    result is the offset of the reserved slot and the new state. *)
Fixpoint allocate_loop (command : GPUBackendCommandType) (size : Z) (s : State)
    (loads : list Z) {struct loads} : option (Z * State) :=
  match loads with
  | [] => None
  | r :: loads' =>
      let s := set_command_fifo_read_ptr r s in
      let read_ptr := command_fifo_read_ptr s in
      let write_ptr := command_fifo_write_ptr s in
      if read_ptr >? write_ptr then
        match wait_for_space size write_ptr (Int.u32 (read_ptr - write_ptr)) s loads' with
        | None => None
        | Some (s, _) =>
            Some (write_ptr,
                  set_command_fifo_data
                    (store_type_size write_ptr command size (command_fifo_data s)) s)
        end
      else
        let available_size := Int.u32 (COMMAND_QUEUE_SIZE - write_ptr) in
        if Int.size_t (size + sizeof_GPUBackendCommand) >? available_size then
          let s := set_command_fifo_data
                     (store_dummy write_ptr available_size (command_fifo_data s)) s in
          let s := set_command_fifo_write_ptr 0 s in
          allocate_loop command size s loads'
        else
          Some (write_ptr,
                set_command_fifo_data
                  (store_type_size write_ptr command size (command_fifo_data s)) s)
  end.

Definition AllocateCommand (command : GPUBackendCommandType) (size : Z) (s : State)
    (loads : list Z) : option (Z * State) :=
  let size := AlignUpPow2 size 4 in
  allocate_loop command size s loads.

End Allocate.

(** *** Consumer side: parking on the wake counter *)

(** One pass of the [for (;;)] body of [SleepGPUThread]: the
    compare-exchange loop is a single atomic update of the counter.
    [SleepParked] is the thread blocked in [thread_wake_semaphore.Wait()]. *)
Inductive SleepStep : Type :=
| SleepReturns (result : bool) (s : State)
| SleepParked (s : State).

Definition sleep_pass (allow_sleep : bool) (s : State) : SleepStep :=
  let old_state := thread_wake_count s in
  let new_state :=
    if GetThreadWakeCount old_state >? 0
    then Z.land old_state THREAD_WAKE_COUNT_CPU_THREAD_IS_WAITING
    else if allow_sleep then THREAD_WAKE_COUNT_SLEEPING else 0 in
  let s := set_thread_wake_count new_state s in
  if GetThreadWakeCount old_state >? 0 then SleepReturns true s
  else
    let s :=
      if negb (Z.land old_state THREAD_WAKE_COUNT_CPU_THREAD_IS_WAITING =? 0)
      then set_thread_is_done_semaphore (thread_is_done_semaphore s + 1) s
      else s in
    if allow_sleep then SleepParked s else SleepReturns false s.

(** [SleepGPUThread]: a parked thread resumes when the semaphore has been
    posted, and runs the loop body again.  No result while it stays parked
    (or when [fuel] passes do not suffice). *)
Fixpoint SleepGPUThread (fuel : nat) (allow_sleep : bool) (s : State)
    : option (bool * State) :=
  match fuel with
  | O => None
  | S fuel =>
      match sleep_pass allow_sleep s with
      | SleepReturns b s => Some (b, s)
      | SleepParked s =>
          if 0 <? thread_wake_semaphore s
          then SleepGPUThread fuel allow_sleep
                 (set_thread_wake_semaphore (thread_wake_semaphore s - 1) s)
          else None
      end
  end.

(** *** Consumer side: draining the FIFO *)

(** What the worker loop does with the slot at offset [off]. *)
Inductive Dispatch : Type :=
| HandleCommand (off : Z) (cmd : GPUThreadCommand)
| WraparoundSkipped (off : Z) (size : Z)
| AsyncCallInvoked (off : Z)
| ReconfigureOnThreadCalled (off : Z)
| ShutdownSeen (off : Z).

Inductive BatchEnd : Type :=
| BatchDone (s : State)          (* fell out of the while loop, read published *)
| ThreadExit (s : State)         (* Shutdown: the entry point returns *)
| NoHeader (read_ptr : Z)        (* the slot was never written *)
| UnreachableCase (read_ptr : Z) (* DefaultCaseIsUnreachable() *)
| OutOfFuel.

(** How one iteration of the inner loop ends: at the loop test again, with
    the worker's two local pointers, the shared state and the dispatch made,
    or with the end of the batch. *)
Inductive Iteration : Type :=
| Continues (read_ptr write_ptr : Z) (s : State) (d : Dispatch)
| Ends (r : BatchEnd) (ds : list Dispatch).

(** The body of the inner [while (read_ptr < write_ptr)] loop of
    [GPUThreadEntryPoint]: the slot at [read_ptr] is read and acted on.  At a
    [Wraparound] slot the write pointer is loaded again and the read
    pointer 0 is stored to the shared state at once, before the loop goes
    on. *)
Definition process_command (read_ptr write_ptr : Z) (s : State) : Iteration :=
  match command_fifo_data s !! read_ptr with
  | None => Ends (NoHeader read_ptr) []
  | Some cmd =>
      let off := read_ptr in
      let read_ptr := Int.u32 (read_ptr + cmd_size cmd) in
      if type_value (cmd_type cmd) >? type_value Shutdown then
        Continues read_ptr write_ptr s (HandleCommand off cmd)
      else
        match cmd_type cmd with
        | Wraparound =>
            let write_ptr := command_fifo_write_ptr s in
            let read_ptr := 0 in
            let s := set_command_fifo_read_ptr read_ptr s in
            Continues read_ptr write_ptr s (WraparoundSkipped off (cmd_size cmd))
        | AsyncCall => Continues read_ptr write_ptr s (AsyncCallInvoked off)
        | Reconfigure => Continues read_ptr write_ptr s (ReconfigureOnThreadCalled off)
        | Shutdown =>
            Ends (ThreadExit (set_command_fifo_read_ptr read_ptr s)) [ShutdownSeen off]
        | _ => Ends (UnreachableCase off) []
        end
  end.

(** The inner loop itself, with the dispatches it performs in order; the
    read pointer is stored once more when the loop is left. *)
Fixpoint process_commands (fuel : nat) (read_ptr write_ptr : Z) (s : State)
    : BatchEnd * list Dispatch :=
  match fuel with
  | O => (OutOfFuel, [])
  | S fuel =>
      if read_ptr <? write_ptr then
        match process_command read_ptr write_ptr s with
        | Continues read_ptr write_ptr s d =>
            let '(r, ds) := process_commands fuel read_ptr write_ptr s in
            (r, d :: ds)
        | Ends r ds => (r, ds)
        end
      else (BatchDone (set_command_fifo_read_ptr read_ptr s), [])
  end.

(** One iteration of the outer [for (;;)] of [GPUThreadEntryPoint] that
    finds the FIFO non-empty.  [None] when the pointers are equal (the
    thread sleeps or presents an idle frame instead). *)
Definition drain_batch (fuel : nat) (s : State) : option (BatchEnd * list Dispatch) :=
  let write_ptr := command_fifo_write_ptr s in
  let read_ptr := command_fifo_read_ptr s in
  if read_ptr =? write_ptr then None
  else
    let write_ptr := if write_ptr <? read_ptr then COMMAND_QUEUE_SIZE else write_ptr in
    Some (process_commands fuel read_ptr write_ptr s).

(** *** The GPU thread's view of the host: device, backend, UI *)

Inductive RenderAPI : Type :=
| API_None
| API_D3D11
| API_D3D12
| API_Vulkan
| API_OpenGL
| API_OpenGLES
| API_Metal.

#[global] Instance RenderAPI_eq_dec : EqDecision RenderAPI.
Proof. solve_decision. Defined.

Inductive PresentResult : Type :=
| PresentOK
| SkipPresent
| ExclusiveFullscreenLost
| DeviceLost.

(** What the modelled functions read from [g_gpu_device]. *)
Record GPUDevice : Type := mkDevice {
  GetRenderAPI : RenderAPI;
  HasMainSwapChain : bool;
  explicit_present : bool;
  timed_present : bool;
  IsGPUTimingEnabled : bool
}.

Definition SetGPUTimingEnabled (b : bool) (d : GPUDevice) : GPUDevice :=
  mkDevice (GetRenderAPI d) (HasMainSwapChain d) (explicit_present d) (timed_present d) b.

(** Calls that leave the worker, recorded oldest first. *)
Inductive Call : Type :=
| RenderUI (text_overlays software_cursors : bool)
| PresentDisplay
| BeginPresent
| RenderImGui
| FlushCommands
| SleepUntilPresentTime (present_time : Z)
| EndPresent (explicit : bool) (present_time : Z)
| AccumulateGPUTime
| SubmitPresent
| ImGuiEndFrame
| ImGuiNewFrame
| RestoreDeviceContext
| HostSetFullscreen (fullscreen : bool)
| DestroyBackend (b : Backend)
| DestroyDevice (api : RenderAPI)
| ReleaseRenderWindow
| CreateDeviceForAPI (api : RenderAPI) (fullscreen : bool)
| CreateBackend (b : Backend)
| BackendInitialize (b : Backend) (upload_vram : bool)
| BackendReadVRAM
| UpdateDebugWindowConfig
| AddIconOSDMessage (key : string)
| AddIconOSDWarning (key : string).

#[global] Instance Backend_eq_dec : EqDecision Backend.
Proof. solve_decision. Defined.

#[global] Instance Call_eq_dec : EqDecision Call.
Proof. solve_decision. Defined.

(** Where the creation of a device stops when it fails: [CreateDeviceForAPI]
    returned no object, [Host::AcquireRenderWindow] returned no window, or
    [GPUDevice::Create] returned [false]. *)
Inductive CreateFailure : Type :=
| NoDeviceObject
| NoRenderWindow
| CreateFailed.

#[global] Instance CreateFailure_eq_dec : EqDecision CreateFailure.
Proof. solve_decision. Defined.

(** Everything outside the worker that the modelled functions consult:
    declarations of headers that are absent, and the answers of the host,
    the driver and the clock. *)
Record Externals : Type := mkExternals {
  (* settings.h, util/gpu_device.h, common/timer.h *)
  GetRenderAPIForRenderer : GPURenderer -> RenderAPI;
  IsSameRenderAPI : RenderAPI -> RenderAPI -> bool;
  ConvertValueToSeconds : Z -> Q;
  (* answers of the environment *)
  GetCurrentValue : Z;
  device_create : RenderAPI -> bool -> option GPUDevice;
  ImGuiManager_Initialize : bool;
  FullscreenUI_Initialize : bool;
  Backend_Initialize : Backend -> bool -> bool * string;
  ShouldSkipPresentingFrame : bool;
  present_result : PresentResult;
  System_IsValid : bool;
  System_IsRunning : bool;
  (* when [device_create] gives no device: where it stopped, and
     [create_error.GetDescription()] *)
  create_failure : RenderAPI -> bool -> CreateFailure;
  create_error : RenderAPI -> bool -> string;
  (* [create_error.GetDescription()] when the UI layers do not come up *)
  ui_error : string;
  RenderAPIToString : RenderAPI -> string;
  (* [GetMainSwapChain()->GetWindowInfo()] *)
  GetWindowInfo : GPUDevice -> WindowInfo
}.

Record World : Type := mkWorld {
  s_state : State;
  g_gpu_device : option GPUDevice;
  g_settings_gpu_renderer : GPURenderer;
  g_gpu_settings_gpu_renderer : GPURenderer;
  g_settings_display_show_gpu_usage : bool;
  s_last_gpu_reset_time : Z;
  Host_IsFullscreen : bool;
  FullscreenUI_IsInitialized : bool;
  calls : list Call
}.

Definition set_s_state (v : State) (w : World) : World :=
  mkWorld v (g_gpu_device w) (g_settings_gpu_renderer w) (g_gpu_settings_gpu_renderer w)
    (g_settings_display_show_gpu_usage w) (s_last_gpu_reset_time w)
    (Host_IsFullscreen w) (FullscreenUI_IsInitialized w) (calls w).

Definition set_g_gpu_device (v : option GPUDevice) (w : World) : World :=
  mkWorld (s_state w) v (g_settings_gpu_renderer w) (g_gpu_settings_gpu_renderer w)
    (g_settings_display_show_gpu_usage w) (s_last_gpu_reset_time w)
    (Host_IsFullscreen w) (FullscreenUI_IsInitialized w) (calls w).

Definition set_g_settings_gpu_renderer (v : GPURenderer) (w : World) : World :=
  mkWorld (s_state w) (g_gpu_device w) v (g_gpu_settings_gpu_renderer w)
    (g_settings_display_show_gpu_usage w) (s_last_gpu_reset_time w)
    (Host_IsFullscreen w) (FullscreenUI_IsInitialized w) (calls w).

Definition set_g_gpu_settings_gpu_renderer (v : GPURenderer) (w : World) : World :=
  mkWorld (s_state w) (g_gpu_device w) (g_settings_gpu_renderer w) v
    (g_settings_display_show_gpu_usage w) (s_last_gpu_reset_time w)
    (Host_IsFullscreen w) (FullscreenUI_IsInitialized w) (calls w).

Definition set_g_settings_display_show_gpu_usage (v : bool) (w : World) : World :=
  mkWorld (s_state w) (g_gpu_device w) (g_settings_gpu_renderer w)
    (g_gpu_settings_gpu_renderer w) v (s_last_gpu_reset_time w)
    (Host_IsFullscreen w) (FullscreenUI_IsInitialized w) (calls w).

Definition set_s_last_gpu_reset_time (v : Z) (w : World) : World :=
  mkWorld (s_state w) (g_gpu_device w) (g_settings_gpu_renderer w)
    (g_gpu_settings_gpu_renderer w) (g_settings_display_show_gpu_usage w) v
    (Host_IsFullscreen w) (FullscreenUI_IsInitialized w) (calls w).

Definition set_Host_IsFullscreen (v : bool) (w : World) : World :=
  mkWorld (s_state w) (g_gpu_device w) (g_settings_gpu_renderer w)
    (g_gpu_settings_gpu_renderer w) (g_settings_display_show_gpu_usage w)
    (s_last_gpu_reset_time w) v (FullscreenUI_IsInitialized w) (calls w).

Definition set_FullscreenUI_IsInitialized (v : bool) (w : World) : World :=
  mkWorld (s_state w) (g_gpu_device w) (g_settings_gpu_renderer w)
    (g_gpu_settings_gpu_renderer w) (g_settings_display_show_gpu_usage w)
    (s_last_gpu_reset_time w) (Host_IsFullscreen w) v (calls w).

Definition set_calls (v : list Call) (w : World) : World :=
  mkWorld (s_state w) (g_gpu_device w) (g_settings_gpu_renderer w)
    (g_gpu_settings_gpu_renderer w) (g_settings_display_show_gpu_usage w)
    (s_last_gpu_reset_time w) (Host_IsFullscreen w) (FullscreenUI_IsInitialized w) v.

(** How a call on the GPU thread ends: it returns, it aborts the process
    through [Panic], or it dereferences an empty pointer or optional. *)
Inductive Outcome (A : Type) : Type :=
| Returns (a : A) (w : World)
| Panics (msg : string) (w : World)
| Undefined (what : string).
Arguments Returns {A} a w.
Arguments Panics {A} msg w.
Arguments Undefined {A} what.

Definition M (A : Type) : Type := World -> Outcome A.

Definition ret {A} (a : A) : M A := fun w => Returns a w.

Definition bind {A B} (c : M A) (k : A -> M B) : M B :=
  fun w =>
    match c w with
    | Returns a w' => k a w'
    | Panics msg w' => Panics msg w'
    | Undefined what => Undefined what
    end.

Declare Scope worker_scope.
Delimit Scope worker_scope with worker.
Notation "x <- c ;; k" := (bind c (fun x => k))
  (at level 62, c at next level, right associativity) : worker_scope.
Notation "c ;;; k" := (bind c (fun _ => k))
  (at level 62, right associativity) : worker_scope.
Local Open Scope worker_scope.

Definition get : M World := fun w => Returns w w.
Definition modify (f : World -> World) : M unit := fun w => Returns tt (f w).
Definition modify_state (f : State -> State) : M unit :=
  modify (fun w => set_s_state (f (s_state w)) w).
Definition call (c : Call) : M unit := modify (fun w => set_calls (calls w ++ [c]) w).
Definition Panic {A} (msg : string) : M A := fun w => Panics msg w.
Definition when (b : bool) (c : M unit) : M unit := if b then c else ret tt.

(** [g_gpu_device->...]: the pointer must hold a device. *)
Definition deref_device : M GPUDevice :=
  fun w =>
    match g_gpu_device w with
    | Some d => Returns d w
    | None => Undefined "g_gpu_device is null"
    end.

Definition DestroyGPUBackendOnThread : M unit :=
  w <- get ;;
  match gpu_backend (s_state w) with
  | None => ret tt
  | Some b =>
      call (DestroyBackend b) ;;;
      modify_state (set_gpu_backend None)
  end.

Definition DestroyDeviceOnThread : M unit :=
  w <- get ;;
  match g_gpu_device w with
  | None => ret tt
  | Some d =>
      let has_window := HasMainSwapChain d in
      modify (set_FullscreenUI_IsInitialized false) ;;;
      call (DestroyDevice (GetRenderAPI d)) ;;;
      modify (set_g_gpu_device None) ;;;
      when has_window (call ReleaseRenderWindow) ;;;
      modify_state (set_render_window_info WindowInfo_default)
  end.

(** The line feed of the format strings. *)
Definition LF : string := String (Ascii.ascii_of_nat 10) EmptyString.

(** The two messages [CreateDeviceOnThread] stores through [error] (the
    first as the untranslated format string gives it). *)
Definition create_error_message (e : Externals) (api : RenderAPI) (fullscreen : bool)
    : string :=
  "Failed to create render device:" +:+ LF +:+ LF +:+ create_error e api fullscreen
  +:+ LF +:+ LF
  +:+ "This may be due to your GPU not supporting the chosen renderer ("
  +:+ RenderAPIToString e api
  +:+ "), or because your graphics drivers need to be updated.".

Definition ui_error_message (e : Externals) : string :=
  "Failed to initialize ImGuiManager: " +:+ ui_error e.

(** [CreateDeviceOnThread].  The call [CreateDeviceForAPI api fullscreen]
    stands for the attempt: [GPUDevice::CreateDeviceForAPI], then
    [Host::AcquireRenderWindow], then [GPUDevice::Create], up to the first
    that fails; [device_create] is the device when all three succeed.  After
    a failure the device object, if there is one, is destroyed and the
    window, if it was acquired, is released.  Then the UI layers are brought
    up.  The second component of the result is what the function stores
    through [error]. *)
Definition CreateDeviceOnThread (e : Externals) (api : RenderAPI) (fullscreen : bool)
    : M (bool * option string) :=
  call (CreateDeviceForAPI api fullscreen) ;;;
  match device_create e api fullscreen with
  | None =>
      let failure := create_failure e api fullscreen in
      when (negb (bool_decide (failure = NoDeviceObject))) (call (DestroyDevice api)) ;;;
      modify (set_g_gpu_device None) ;;;
      when (bool_decide (failure = CreateFailed)) (call ReleaseRenderWindow) ;;;
      ret (false, Some (create_error_message e api fullscreen))
  | Some d =>
      modify (set_g_gpu_device (Some d)) ;;;
      w <- get ;;
      if negb (ImGuiManager_Initialize e)
         || (requested_fullscreen_ui (s_state w) && negb (FullscreenUI_Initialize e))
      then
        modify (set_FullscreenUI_IsInitialized false) ;;;
        call (DestroyDevice api) ;;;
        modify (set_g_gpu_device None) ;;;
        call ReleaseRenderWindow ;;;
        ret (false, Some (ui_error_message e))
      else
        when (requested_fullscreen_ui (s_state w))
             (modify (set_FullscreenUI_IsInitialized true)) ;;;
        modify_state
          (set_render_window_info
             (if HasMainSwapChain d then GetWindowInfo e d else WindowInfo_default)) ;;;
        ret (true, None)
  end.

Definition backend_of (is_hardware : bool) : Backend :=
  if is_hardware then HardwareBackend else SoftwareBackend.

(** [CreateGPUBackendOnThread]: the result and what is stored through
    [error] (the caller's pointer may be null, then nothing is kept). *)
Definition CreateGPUBackendOnThread (e : Externals) (renderer : GPURenderer)
    (upload_vram : bool) : M (bool * option string) :=
  let is_hardware := negb (bool_decide (renderer = Software)) in
  call (CreateBackend (backend_of is_hardware)) ;;;
  modify_state (set_gpu_backend (Some (backend_of is_hardware))) ;;;
  call (BackendInitialize (backend_of is_hardware) upload_vram) ;;;
  let '(okay, local_error) := Backend_Initialize e (backend_of is_hardware) upload_vram in
  r <- (if okay then ret (true, local_error)
        else if is_hardware then
          w <- get ;;
          match requested_renderer (s_state w) with
          | None => fun _ => Undefined "requested_renderer has no value"
          | Some _ =>
              call (AddIconOSDMessage "GPUBackendCreationFailed") ;;;
              modify_state (set_requested_renderer (Some Software)) ;;;
              call (CreateBackend SoftwareBackend) ;;;
              modify_state (set_gpu_backend (Some SoftwareBackend)) ;;;
              call (BackendInitialize SoftwareBackend upload_vram) ;;;
              let '(okay2, error2) := Backend_Initialize e SoftwareBackend upload_vram in
              ret (okay2, if okay2 then local_error else error2)
          end
        else ret (false, local_error)) ;;
  let '(okay, local_error) := r in
  if okay then
    d <- deref_device ;;
    w <- get ;;
    modify (set_g_gpu_device (Some (SetGPUTimingEnabled (g_settings_display_show_gpu_usage w) d))) ;;;
    call UpdateDebugWindowConfig ;;;
    ret (true, None)
  else ret (false, Some local_error).

Definition MIN_TIME_BETWEEN_RESETS : Q := 15 # 1.

Definition HandleGPUDeviceLost (e : Externals) : M unit :=
  w <- get ;;
  let current_time := GetCurrentValue e in
  if negb (s_last_gpu_reset_time w =? 0)
     && negb (Qle_bool MIN_TIME_BETWEEN_RESETS
                (ConvertValueToSeconds e (Int.u64 (current_time - s_last_gpu_reset_time w))))
  then Panic "Host GPU lost too many times, device is probably completely wedged."
  else
    modify (set_s_last_gpu_reset_time current_time) ;;;
    let is_fullscreen := Host_IsFullscreen w in
    DestroyGPUBackendOnThread ;;;
    DestroyDeviceOnThread ;;;
    w <- get ;;
    let requested := requested_renderer (s_state w) in
    created <- CreateDeviceOnThread e
                 (GetRenderAPIForRenderer e (default (g_gpu_settings_gpu_renderer w) requested))
                 is_fullscreen ;;
    recreated <- (if fst created then
                    match requested with
                    | Some renderer =>
                        r <- CreateGPUBackendOnThread e renderer true ;; ret (fst r)
                    | None => ret true
                    end
                  else ret false) ;;
    if recreated : bool then call (AddIconOSDWarning "HostGPUDeviceLost")
    else Panic "Failed to recreate GPU device after loss.".

Definition HandleExclusiveFullscreenLost : M unit :=
  call (HostSetFullscreen false) ;;;
  modify (set_Host_IsFullscreen false).

(** *** Reconfiguration *)

(** The payload of a [Reconfigure] command (the producer's copy of the
    request; [error_ptr] is whether the pointer is non-null). *)
Record GPUThreadReconfigureCommand : Type := mkReconfigure {
  renderer : option GPURenderer;
  fullscreen : option bool;
  start_fullscreen_ui : option bool;
  vsync_mode : GPUVSyncMode;
  allow_present_throttle : bool;
  force_recreate_device : bool;
  upload_vram : bool;
  error_ptr : bool
}.

(** What the worker wrote back into the command: [cmd->result] when it was
    assigned, and the error stored through [cmd->error_ptr]. *)
Record ReconfigureResult : Type := mkResult {
  result : option bool;
  error_stored : option string
}.

Definition keep_error (cmd : GPUThreadReconfigureCommand) (err : option string)
    : option string :=
  if error_ptr cmd then err else None.

Definition ReconfigureOnThread (e : Externals) (cmd : GPUThreadReconfigureCommand)
    : M ReconfigureResult :=
  (* Store state. *)
  modify_state (set_requested_vsync (vsync_mode cmd)) ;;;
  modify_state (set_requested_allow_present_throttle (allow_present_throttle cmd)) ;;;
  modify_state (fun s =>
    set_requested_fullscreen_ui
      (default (requested_fullscreen_ui s) (start_fullscreen_ui cmd)) s) ;;;
  w <- get ;;
  (* Are we shutting down everything? *)
  if negb (bool_decide (is_Some (renderer cmd)))
     && negb (requested_fullscreen_ui (s_state w))
  then
    DestroyGPUBackendOnThread ;;;
    DestroyDeviceOnThread ;;;
    ret (mkResult None None)
  else
    modify (fun w => set_g_gpu_settings_gpu_renderer (g_settings_gpu_renderer w) w) ;;;
    (* Readback old VRAM for hardware renderers. *)
    when (bool_decide (is_Some (gpu_backend (s_state w)))
          && bool_decide (is_Some (renderer cmd)) && upload_vram cmd)
         (call BackendReadVRAM) ;;;
    DestroyGPUBackendOnThread ;;;
    (* Device recreation? *)
    w <- get ;;
    let current_api := from_option GetRenderAPI API_None (g_gpu_device w) in
    let expected_api :=
      if bool_decide (renderer cmd = Some Software)
         && negb (bool_decide (current_api = API_None))
      then current_api
      else GetRenderAPIForRenderer e
             (default (g_gpu_settings_gpu_renderer w) (requested_renderer (s_state w))) in
    device_ok <-
      (if force_recreate_device cmd || negb (IsSameRenderAPI e current_api expected_api)
       then
         let fullscreen := default (Host_IsFullscreen w) (fullscreen cmd) in
         DestroyDeviceOnThread ;;;
         r <- CreateDeviceOnThread e expected_api fullscreen ;;
         if fst r then ret (true, None)
         else
           call (AddIconOSDMessage "DeviceSwitchFailed") ;;;
           call ReleaseRenderWindow ;;;
           if bool_decide (current_api = API_None) then ret (false, snd r)
           else
             r2 <- CreateDeviceOnThread e current_api fullscreen ;;
             if fst r2 then ret (true, None) else ret (false, snd r2)
       else ret (true, None)) ;;
    if negb (fst device_ok) then
      ret (mkResult (Some false) (keep_error cmd (snd device_ok)))
    else
      match renderer cmd with
      | Some r =>
          (* Do we want a renderer? *)
          b <- CreateGPUBackendOnThread e r (upload_vram cmd) ;;
          ret (mkResult (Some (fst b)) (keep_error cmd (snd b)))
      | None =>
          w <- get ;;
          if requested_fullscreen_ui (s_state w) then
            created <-
              (match g_gpu_device w with
               | Some _ => ret (true, None)
               | None => CreateDeviceOnThread e expected_api (default false (fullscreen cmd))
               end) ;;
            if negb (fst created) then
              ret (mkResult (Some false) (keep_error cmd (snd created)))
            else
              d <- deref_device ;;
              (* Don't need timing to run FSUI. *)
              modify (set_g_gpu_device (Some (SetGPUTimingEnabled false d))) ;;;
              w <- get ;;
              let ok := FullscreenUI_IsInitialized w || FullscreenUI_Initialize e in
              modify (set_FullscreenUI_IsInitialized ok) ;;;
              ret (mkResult (Some ok)
                     (if ok then None
                      else keep_error cmd (Some "Failed to initialize FullscreenUI.")))
          else
            (* Device is no longer needed. *)
            DestroyDeviceOnThread ;;;
            ret (mkResult None None)
      end.

(** *** Requests of the CPU thread that travel through the FIFO *)

(** What a CPU-thread entry point enqueues: an [AsyncCall] command carrying
    a closure ([RunOnThread]), or a [Reconfigure] command that the caller
    waits for ([Reconfigure] uses [PushCommandAndSync]). *)
Inductive Request : Type :=
| RunOnThread (func : M unit)
| ReconfigureRequest (cmd : GPUThreadReconfigureCommand).

(** [GPUThread::Reconfigure]: the command it fills in.  The vsync mode and
    the throttle flag are read from [System]. *)
Definition Reconfigure_command (vsync : GPUVSyncMode) (throttle : bool)
    (renderer : option GPURenderer) (upload_vram : bool) (fullscreen : option bool)
    (start_fullscreen_ui : option bool) (recreate_device : bool) (error : bool)
    : GPUThreadReconfigureCommand :=
  mkReconfigure renderer fullscreen start_fullscreen_ui vsync throttle recreate_device
    upload_vram error.

Definition StartFullscreenUI (e : Externals) (vsync : GPUVSyncMode) (throttle : bool)
    (fullscreen : bool) (error : bool) : Request :=
  (* Don't need to reconfigure if we already have a system. *)
  if System_IsValid e then
    RunOnThread (modify_state (set_requested_fullscreen_ui true))
  else
    ReconfigureRequest
      (Reconfigure_command vsync throttle None false (Some fullscreen) (Some true) false error).

Definition StopFullscreenUI (e : Externals) (vsync : GPUVSyncMode) (throttle : bool)
    : Request :=
  (* Don't need to reconfigure if we already have a system. *)
  if System_IsValid e then
    RunOnThread (modify_state (set_requested_fullscreen_ui true))
  else
    ReconfigureRequest
      (Reconfigure_command vsync throttle None false None (Some false) false false).

(** The worker loop's dispatch of the two control commands: the closure is
    invoked, the reconfigure request is run. *)
Definition execute (e : Externals) (r : Request) : M unit :=
  match r with
  | RunOnThread func => func
  | ReconfigureRequest cmd => ReconfigureOnThread e cmd ;;; ret tt
  end.

(** *** Presentation *)

Definition skip_present_of (e : Externals) (allow_skip_present : bool) (d : GPUDevice)
    (s : State) : bool :=
  negb (HasMainSwapChain d)
  || (allow_skip_present && ShouldSkipPresentingFrame e
      && (skipped_present_count s <? MAX_SKIPPED_PRESENT_COUNT)).

(** The part of [PresentFrame] that follows the present: what is done with
    its result [pres], then the new ImGui frame. *)
Definition PresentFrame_finish (e : Externals) (skip_present : bool) (present_time : Z)
    (d : GPUDevice) (pres : PresentResult) : M unit :=
  match pres with
  | PresentOK =>
      modify_state (set_skipped_present_count 0) ;;;
      call RenderImGui ;;;
      let scheduled_present := negb (present_time =? 0) in
      let explicit := scheduled_present && (explicit_present d && negb (timed_present d)) in
      let timed := scheduled_present && timed_present d in
      when (scheduled_present && negb explicit)
           (call FlushCommands ;;; call (SleepUntilPresentTime present_time)) ;;;
      call (EndPresent explicit (if timed then present_time else 0)) ;;;
      when (IsGPUTimingEnabled d) (call AccumulateGPUTime) ;;;
      when explicit (call (SleepUntilPresentTime present_time) ;;; call SubmitPresent)
  | _ =>
      modify_state (fun s =>
        set_skipped_present_count (Int.u32 (skipped_present_count s + 1)) s) ;;;
      match pres with
      | DeviceLost => HandleGPUDeviceLost e
      | ExclusiveFullscreenLost => HandleExclusiveFullscreenLost
      | _ => when (negb skip_present) (call FlushCommands)
      end ;;;
      (* Still need to kick ImGui or it gets cranky. *)
      call ImGuiEndFrame
  end ;;;
  call ImGuiNewFrame ;;;
  w <- get ;;
  when (bool_decide (is_Some (gpu_backend (s_state w)))) (call RestoreDeviceContext).

Definition PresentFrame (e : Externals) (allow_skip_present : bool) (present_time : Z)
    : M unit :=
  d <- deref_device ;;
  w <- get ;;
  let skip_present := skip_present_of e allow_skip_present d (s_state w) in
  let has_backend := bool_decide (is_Some (gpu_backend (s_state w))) in
  when (negb skip_present)
       (call (RenderUI (has_backend && System_IsValid e)
                       (has_backend && System_IsRunning e))) ;;;
  pres <- (if skip_present then ret SkipPresent
           else if has_backend then call PresentDisplay ;;; ret (present_result e)
           else call BeginPresent ;;; ret (present_result e)) ;;
  PresentFrame_finish e skip_present present_time d pres.

(** [n] consecutive calls of [PresentFrame], each with its own answers of
    the environment. *)
Fixpoint PresentFrames (es : list Externals) (allow_skip_present : bool)
    (present_time : Z) : M unit :=
  match es with
  | [] => ret tt
  | e :: es =>
      PresentFrame e allow_skip_present present_time ;;;
      PresentFrames es allow_skip_present present_time
  end.

End GPUThread.

(** ** The software backend's display readout *)

Module GPU_SW.

Definition VRAM_WIDTH : Z := 1024.
Definition VRAM_HEIGHT : Z := 512.

(** The output formats [CopyOut] dispatches on. *)
Inductive Format : Type :=
| RGBA5551
| RGB565
| RGBA8
| BGRA8.

(** [g_vram]: 1024x512 16-bit words.  A load outside the array has no
    value. *)
Definition VRAM : Type := Z -> Z.

Definition vram_load (g_vram : VRAM) (index : Z) : option Z :=
  if (0 <=? index) && (index <? VRAM_WIDTH * VRAM_HEIGHT)
  then Some (Int.u16 (g_vram index)) else None.

(** A byte of [g_vram] seen through [reinterpret_cast<const u8*>] on a
    little-endian host. *)
Definition vram_load_u8 (g_vram : VRAM) (byte_index : Z) : option Z :=
  word ← vram_load g_vram (byte_index / 2);
  Some (if Z.even byte_index then Z.land word 0xFF else Z.shiftr word 8).

Definition VRAM16ToOutput (f : Format) (value : Z) : Z :=
  match f with
  | RGBA5551 =>
      Int.u16 (Z.lor (Z.lor (Z.land value 0x3E0) (Z.land (Z.shiftr value 10) 0x1F))
                     (Z.shiftl (Z.land value 0x1F) 10))
  | RGB565 =>
      Int.u16 (Z.lor (Z.lor (Z.lor (Z.shiftl (Z.land value 0x3E0) 1)
                                   (Z.shiftl (Z.land value 0x20) 1))
                            (Z.land (Z.shiftr value 10) 0x1F))
                     (Z.shiftl (Z.land value 0x1F) 11))
  | RGBA8 =>
      let value32 := value in
      let r := Z.shiftl (Z.land value32 31) 3 in
      let g := Z.shiftl (Z.land (Z.shiftr value32 5) 31) 3 in
      let b := Z.shiftl (Z.land (Z.shiftr value32 10) 31) 3 in
      let a := if negb (Z.shiftr value 15 =? 0) then 255 else 0 in
      Z.lor (Z.lor (Z.lor r (Z.shiftl g 8)) (Z.shiftl b 16)) (Z.shiftl a 24)
  | BGRA8 =>
      let value32 := value in
      let r := Z.shiftl (Z.land value32 31) 3 in
      let g := Z.shiftl (Z.land (Z.shiftr value32 5) 31) 3 in
      let b := Z.shiftl (Z.land (Z.shiftr value32 10) 31) 3 in
      Z.lor (Z.lor (Z.lor b (Z.shiftl g 8)) (Z.shiftl r 16)) 0xFF000000
  end.

(** One 16-bit lane of the vector loops of [CopyOutRow16]; shifts stay
    inside the lane. *)
Definition CopyOutRow16_lane (f : Format) (value : Z) : Z :=
  match f with
  | RGBA5551 =>
      let a := Z.land value 0x3E0 in
      let b := Z.land (Z.shiftr value 10) 0x1F in
      let c := Int.u16 (Z.shiftl (Z.land value 0x1F) 10) in
      Z.lor (Z.lor a b) c
  | RGB565 =>
      let a := Int.u16 (Z.shiftl (Z.land value 0x3E0) 1) in
      let b := Int.u16 (Z.shiftl (Z.land value 0x20) 1) in
      let c := Z.land (Z.shiftr value 10) 0x1F in
      let d := Int.u16 (Z.shiftl (Z.land value 0x1F) 11) in
      Z.lor (Z.lor (Z.lor a b) c) d
  | _ => VRAM16ToOutput f value
  end.

(** [n] consecutive words starting at word index [src_ptr]. *)
Fixpoint load_words (g_vram : VRAM) (src_ptr : Z) (n : nat) : option (list Z) :=
  match n with
  | O => Some []
  | S n =>
      v ← vram_load g_vram src_ptr;
      rest ← load_words g_vram (src_ptr + 1) n;
      Some (v :: rest)
  end.

(** [CopyOutRow16]: the 16-bit formats convert eight words at a time up to
    the aligned width and the remainder one by one; the 32-bit formats
    convert one by one. *)
Definition CopyOutRow16 (f : Format) (g_vram : VRAM) (src_ptr width : Z)
    : option (list Z) :=
  let aligned_width :=
    match f with
    | RGBA5551 | RGB565 => AlignDownPow2 width 8
    | _ => 0
    end in
  head ← load_words g_vram src_ptr (Z.to_nat aligned_width);
  tail ← load_words g_vram (src_ptr + aligned_width) (Z.to_nat (width - aligned_width));
  Some (map (CopyOutRow16_lane f) head ++ map (VRAM16ToOutput f) tail).

(** The row loop of the fast path of [CopyOut15Bit]. *)
Fixpoint CopyOut15Bit_fast_rows (f : Format) (g_vram : VRAM) (src_ptr src_step width : Z)
    (rows : nat) : option (list (list Z)) :=
  match rows with
  | O => Some []
  | S rows =>
      row ← CopyOutRow16 f g_vram src_ptr width;
      rest ← CopyOut15Bit_fast_rows f g_vram (src_ptr + src_step) src_step width rows;
      Some (row :: rest)
  end.

(** The column loop [for (col = src_x; col < end_x; col++)] of the wrapping
    path. *)
Fixpoint CopyOut15Bit_wrap_cols (f : Format) (g_vram : VRAM) (src_row_ptr col : Z)
    (cols : nat) : option (list Z) :=
  match cols with
  | O => Some []
  | S cols =>
      v ← vram_load g_vram (src_row_ptr + col mod VRAM_WIDTH);
      rest ← CopyOut15Bit_wrap_cols f g_vram src_row_ptr (Int.u32 (col + 1)) cols;
      Some (VRAM16ToOutput f v :: rest)
  end.

Fixpoint CopyOut15Bit_wrap_rows (f : Format) (g_vram : VRAM) (src_x end_x src_y y_step : Z)
    (rows : nat) : option (list (list Z)) :=
  match rows with
  | O => Some []
  | S rows =>
      let src_row_ptr := (src_y mod VRAM_HEIGHT) * VRAM_WIDTH in
      row ← CopyOut15Bit_wrap_cols f g_vram src_row_ptr src_x (Z.to_nat (end_x - src_x));
      rest ← CopyOut15Bit_wrap_rows f g_vram src_x end_x (Int.u32 (src_y + y_step)) y_step rows;
      Some (row :: rest)
  end.

(** The two loop nests of [CopyOut15Bit]: the rows they write to the
    display texture, or nothing when a load leaves [g_vram].  The member
    function as a whole, which asks for the display texture first and
    returns false when there is none, is [DisplayUpload.CopyOut15Bit]. *)
Definition CopyOut15Bit (f : Format) (g_vram : VRAM) (src_x src_y width height line_skip : Z)
    : option (list (list Z)) :=
  (* Fast path when not wrapping around. *)
  if (Int.u32 (src_x + width) <=? VRAM_WIDTH) && (Int.u32 (src_y + height) <=? VRAM_HEIGHT)
  then
    let src_ptr := Int.u32 (src_y * VRAM_WIDTH + src_x) in
    let src_step := Int.u32 (Z.shiftl VRAM_WIDTH line_skip) in
    CopyOut15Bit_fast_rows f g_vram src_ptr src_step width (Z.to_nat height)
  else
    let end_x := Int.u32 (src_x + width) in
    let y_step := Int.u32 (Z.shiftl 1 line_skip) in
    CopyOut15Bit_wrap_rows f g_vram src_x end_x src_y y_step (Z.to_nat height).

(** The conversion of one packed sample (bytes [b0 b1 b2] in memory order)
    that the non-wrapping path of [CopyOut24Bit] performs; 32-bit outputs
    are the four stored bytes read back as a little-endian word. *)
Definition Convert24 (f : Format) (b0 b1 b2 : Z) : Z :=
  match f with
  | RGBA8 => Z.lor (Z.lor (Z.lor b0 (Z.shiftl b1 8)) (Z.shiftl b2 16)) (Z.shiftl 0xFF 24)
  | BGRA8 => Z.lor (Z.lor (Z.lor b2 (Z.shiftl b1 8)) (Z.shiftl b0 16)) (Z.shiftl 0xFF 24)
  | RGB565 =>
      Int.u16 (Z.lor (Z.lor (Z.shiftl (Z.shiftr b0 3) 11) (Z.shiftl (Z.shiftr b1 2) 5))
                     (Z.shiftr b2 3))
  | RGBA5551 =>
      Int.u16 (Z.lor (Z.lor (Z.shiftl (Z.shiftr b0 3) 10) (Z.shiftl (Z.shiftr b1 3) 5))
                     (Z.shiftr b2 3))
  end.

(** The column loop of the non-wrapping path; [src_row_ptr] is a byte
    index into [g_vram]. *)
Fixpoint CopyOut24Bit_fast_cols (f : Format) (g_vram : VRAM) (src_row_ptr : Z) (cols : nat)
    : option (list Z) :=
  match cols with
  | O => Some []
  | S cols =>
      b0 ← vram_load_u8 g_vram src_row_ptr;
      b1 ← vram_load_u8 g_vram (src_row_ptr + 1);
      b2 ← vram_load_u8 g_vram (src_row_ptr + 2);
      rest ← CopyOut24Bit_fast_cols f g_vram (src_row_ptr + 3) cols;
      Some (Convert24 f b0 b1 b2 :: rest)
  end.

Fixpoint CopyOut24Bit_fast_rows (f : Format) (g_vram : VRAM) (src_ptr src_stride width : Z)
    (rows : nat) : option (list (list Z)) :=
  match rows with
  | O => Some []
  | S rows =>
      row ← CopyOut24Bit_fast_cols f g_vram src_ptr (Z.to_nat width);
      rest ← CopyOut24Bit_fast_rows f g_vram (src_ptr + src_stride) src_stride width rows;
      Some (row :: rest)
  end.

(** One pixel of the wrapping path. *)
Definition CopyOut24Bit_wrap_pixel (f : Format) (g_vram : VRAM) (src_row_ptr src_x skip_x col : Z)
    : option Z :=
  let offset := Int.u32 (src_x + Int.u32 (Int.u32 (skip_x + col) * 3) / 2) in
  s0 ← vram_load g_vram (src_row_ptr + offset mod VRAM_WIDTH);
  s1 ← vram_load g_vram (src_row_ptr + Int.u32 (offset + 1) mod VRAM_WIDTH);
  let shift := Int.u8 (Z.land col 1) * 8 in
  let rgb := Z.shiftr (Z.lor (Z.shiftl s1 16) s0) shift in
  Some match f with
       | RGBA8 => Z.lor rgb 0xFF000000
       | BGRA8 =>
           Z.lor (Z.lor (Z.lor (Z.land rgb 0x00FF00) (Int.u32 (Z.shiftl (Z.land rgb 0xFF) 16)))
                        (Z.land (Z.shiftr rgb 16) 0xFF))
                 0xFF000000
       | RGB565 =>
           Int.u16 (Z.lor (Z.lor (Z.land (Z.shiftr rgb 3) 0x1F)
                                 (Z.land (Int.u32 (Z.shiftl (Z.shiftr rgb 10) 5)) 0x7E0))
                          (Z.land (Int.u32 (Z.shiftl (Z.shiftr rgb 19) 11)) 0x3E0000))
       | RGBA5551 =>
           Int.u16 (Z.lor (Z.lor (Z.land (Z.shiftr rgb 3) 0x1F)
                                 (Z.land (Int.u32 (Z.shiftl (Z.shiftr rgb 11) 5)) 0x3E0))
                          (Z.land (Int.u32 (Z.shiftl (Z.shiftr rgb 19) 10)) 0x1F0000))
       end.

Fixpoint CopyOut24Bit_wrap_cols (f : Format) (g_vram : VRAM) (src_row_ptr src_x skip_x col : Z)
    (cols : nat) : option (list Z) :=
  match cols with
  | O => Some []
  | S cols =>
      p ← CopyOut24Bit_wrap_pixel f g_vram src_row_ptr src_x skip_x col;
      rest ← CopyOut24Bit_wrap_cols f g_vram src_row_ptr src_x skip_x (Int.u32 (col + 1)) cols;
      Some (p :: rest)
  end.

Fixpoint CopyOut24Bit_wrap_rows (f : Format) (g_vram : VRAM) (src_x src_y skip_x width y_step : Z)
    (rows : nat) : option (list (list Z)) :=
  match rows with
  | O => Some []
  | S rows =>
      let src_row_ptr := (src_y mod VRAM_HEIGHT) * VRAM_WIDTH in
      row ← CopyOut24Bit_wrap_cols f g_vram src_row_ptr src_x skip_x 0 (Z.to_nat width);
      rest ← CopyOut24Bit_wrap_rows f g_vram src_x (Int.u32 (src_y + y_step)) skip_x width
               y_step rows;
      Some (row :: rest)
  end.

(** The two loop nests of [CopyOut24Bit], as those of [CopyOut15Bit]. *)
Definition CopyOut24Bit (f : Format) (g_vram : VRAM)
    (src_x src_y skip_x width height line_skip : Z) : option (list (list Z)) :=
  if (Int.u32 (src_x + width) <=? VRAM_WIDTH)
     && (Int.u32 (src_y + Int.u32 (Z.shiftl height line_skip)) <=? VRAM_HEIGHT)
  then
    let src_ptr := Int.u32 (src_y * VRAM_WIDTH + src_x) * 2 + Int.u32 (skip_x * 3) in
    let src_stride := Int.u32 (Z.shiftl VRAM_WIDTH line_skip) * 2 in
    CopyOut24Bit_fast_rows f g_vram src_ptr src_stride width (Z.to_nat height)
  else
    let y_step := Int.u32 (Z.shiftl 1 line_skip) in
    CopyOut24Bit_wrap_rows f g_vram src_x src_y skip_x width y_step (Z.to_nat height).

Definition CopyOut (m_16bit_display_format m_24bit_display_format : Format) (g_vram : VRAM)
    (src_x src_y skip_x width height line_skip : Z) (is_24bit : bool)
    : option (list (list Z)) :=
  if negb is_24bit
  then CopyOut15Bit m_16bit_display_format g_vram src_x src_y width height line_skip
  else CopyOut24Bit m_24bit_display_format g_vram src_x src_y skip_x width height line_skip.

(** The fields of [GPUBackendUpdateDisplayCommand] that select the
    readout. *)
Record GPUBackendUpdateDisplayCommand : Type := mkUpdateDisplay {
  display_disabled : bool;
  display_24bit : bool;
  interlaced_display_enabled : bool;
  interlaced_display_field : Z;
  interlaced_display_interleaved : bool;
  X : Z;
  display_vram_left : Z;
  display_vram_top : Z;
  display_vram_width : Z;
  display_vram_height : Z
}.

Inductive Display : Type :=
| DisplayCleared
| DisplayTexture (rows : list (list Z)) (view_width view_height : Z).

(** What [UpdateDisplay] reads out of VRAM, and the view it hands to
    [SetDisplayTexture], on a backend whose display texture is there.  The
    member function as a whole, with the texture that may be missing and
    the calls that follow the readout, is [DisplayUpload.UpdateDisplay]. *)
Definition UpdateDisplay (show_vram : bool) (m16 m24 : Format) (g_vram : VRAM)
    (cmd : GPUBackendUpdateDisplayCommand) : option Display :=
  if negb show_vram then
    if display_disabled cmd then Some DisplayCleared
    else
      let is_24bit := display_24bit cmd in
      let interlaced := interlaced_display_enabled cmd in
      let field := interlaced_display_field cmd in
      let vram_offset_x := if is_24bit then X cmd else display_vram_left cmd in
      let vram_offset_y :=
        Int.u32 (display_vram_top cmd
                 + (if interlaced && interlaced_display_interleaved cmd then field else 0)) in
      let skip_x := if is_24bit then Int.u32 (display_vram_left cmd - X cmd) else 0 in
      let read_width := display_vram_width cmd in
      let read_height :=
        if interlaced then display_vram_height cmd / 2 else display_vram_height cmd in
      let line_skip :=
        if interlaced then (if interlaced_display_interleaved cmd then 1 else 0) else 0 in
      rows ← CopyOut m16 m24 g_vram vram_offset_x vram_offset_y skip_x read_width read_height
               line_skip is_24bit;
      Some (DisplayTexture rows read_width read_height)
  else
    rows ← CopyOut m16 m24 g_vram 0 0 0 VRAM_WIDTH VRAM_HEIGHT 0 false;
    Some (DisplayTexture rows VRAM_WIDTH VRAM_HEIGHT).

(** The reference the 24-bit boundary behaviour is stated against: every
    pixel is the packed triple at byte offset
    [(src_x*2 + (skip_x+col)*3) mod (VRAM_WIDTH*2)] of its VRAM row,
    converted as by the non-wrapping path. *)
Definition row_byte (g_vram : VRAM) (src_row_ptr byte_offset : Z) : option Z :=
  vram_load_u8 g_vram (src_row_ptr * 2 + byte_offset mod (VRAM_WIDTH * 2)).

Definition naive_24bit_pixel (f : Format) (g_vram : VRAM) (src_row_ptr src_x skip_x col : Z)
    : option Z :=
  let byte_offset := src_x * 2 + (skip_x + col) * 3 in
  b0 ← row_byte g_vram src_row_ptr byte_offset;
  b1 ← row_byte g_vram src_row_ptr (byte_offset + 1);
  b2 ← row_byte g_vram src_row_ptr (byte_offset + 2);
  Some (Convert24 f b0 b1 b2).

Fixpoint naive_24bit_cols (f : Format) (g_vram : VRAM) (src_row_ptr src_x skip_x col : Z)
    (cols : nat) : option (list Z) :=
  match cols with
  | O => Some []
  | S cols =>
      p ← naive_24bit_pixel f g_vram src_row_ptr src_x skip_x col;
      rest ← naive_24bit_cols f g_vram src_row_ptr src_x skip_x (col + 1) cols;
      Some (p :: rest)
  end.

Fixpoint naive_24bit_rows (f : Format) (g_vram : VRAM) (src_x src_y skip_x width y_step : Z)
    (rows : nat) : option (list (list Z)) :=
  match rows with
  | O => Some []
  | S rows =>
      let src_row_ptr := (src_y mod VRAM_HEIGHT) * VRAM_WIDTH in
      row ← naive_24bit_cols f g_vram src_row_ptr src_x skip_x 0 (Z.to_nat width);
      rest ← naive_24bit_rows f g_vram src_x (src_y + y_step) skip_x width y_step rows;
      Some (row :: rest)
  end.

Definition naive_24bit (f : Format) (g_vram : VRAM)
    (src_x src_y skip_x width height line_skip : Z) : option (list (list Z)) :=
  naive_24bit_rows f g_vram src_x src_y skip_x width (Z.shiftl 1 line_skip) (Z.to_nat height).

End GPU_SW.


(** ** Concrete environments used to exercise the model *)

Module Scenario.

Import GPUThread.

(** A host whose clock counts nanoseconds and on which everything
    succeeds. *)
Definition api_for (r : GPURenderer) : RenderAPI :=
  match r with
  | HardwareD3D11 => API_D3D11
  | HardwareD3D12 => API_D3D12
  | HardwareMetal => API_Metal
  | HardwareVulkan => API_Vulkan
  | HardwareOpenGL => API_OpenGL
  | Software => API_Vulkan
  end.

Definition same_api (a b : RenderAPI) : bool :=
  bool_decide (a = b)
  || (bool_decide (a = API_OpenGL \/ a = API_OpenGLES)
      && bool_decide (b = API_OpenGL \/ b = API_OpenGLES)).

Definition device (api : RenderAPI) : GPUDevice := mkDevice api true false false false.

Definition api_name (api : RenderAPI) : string :=
  match api with
  | API_None => "None"
  | API_D3D11 => "Direct3D 11"
  | API_D3D12 => "Direct3D 12"
  | API_Vulkan => "Vulkan"
  | API_OpenGL => "OpenGL"
  | API_OpenGLES => "OpenGL ES"
  | API_Metal => "Metal"
  end.

Definition host (now : Z) (should_skip : bool) (pres : PresentResult) (valid : bool)
    (init : Backend -> bool -> bool * string) : Externals :=
  mkExternals api_for same_api (fun v => v # 1000000000) now
    (fun api _ => Some (device api)) true true init should_skip pres valid valid
    (fun _ _ => CreateFailed) (fun _ _ => "") "" api_name (fun _ => WindowInfo_of 1).

Definition init_ok (b : Backend) (upload_vram : bool) : bool * string := (true, "").

Definition init_hw_fails (b : Backend) (upload_vram : bool) : bool * string :=
  match b with
  | HardwareBackend => (false, "hardware backend failed")
  | SoftwareBackend => (true, "")
  end.

Definition init_all_fail (b : Backend) (upload_vram : bool) : bool * string :=
  match b with
  | HardwareBackend => (false, "hardware backend failed")
  | SoftwareBackend => (false, "software backend failed")
  end.

(** A running system: Vulkan device with a swap chain, hardware backend. *)
Definition running_state : State :=
  set_gpu_backend (Some HardwareBackend)
    (set_requested_renderer (Some HardwareVulkan) s_state_init).

Definition running : World :=
  mkWorld running_state (Some (device API_Vulkan)) HardwareVulkan HardwareVulkan false 0
    false false [].

(** An otherwise fresh worker state with the ring's pointers at [w] and
    [r]. *)
Definition ring_at (w r : Z) : State :=
  set_command_fifo_read_ptr r (set_command_fifo_write_ptr w s_state_init).

(** A VRAM image whose byte at address [k] is [k mod 256]: word [i] holds
    the bytes [2i] and [2i+1], low byte first. *)
Definition byte_ramp : GPU_SW.VRAM :=
  fun i => (2 * i) mod 256 + 256 * ((2 * i + 1) mod 256).

End Scenario.

(** ** Notions the properties are stated with *)

Module Notions.

Import GPUThread.

(** A worker computation only ever appends to the record of calls. *)
Definition appends {A : Type} (c : M A) : Prop :=
  forall w,
    match c w with
    | Returns _ w' | Panics _ w' => exists l, calls w' = calls w ++ l
    | Undefined _ => True
    end.

(** The calls [PresentFrame] makes on every path, skipped or not. *)
Definition housekeeping (c : Call) : bool :=
  match c with
  | ImGuiEndFrame | ImGuiNewFrame | RestoreDeviceContext => true
  | _ => false
  end.

(** The call that hands the frame to the swap chain. *)
Definition present_call (has_backend : bool) : Call :=
  if has_backend then PresentDisplay else BeginPresent.

Definition has_backend (w : World) : bool :=
  bool_decide (is_Some (gpu_backend (s_state w))).

(** The calls of a successful recovery from device loss: backend [b] and
    device [d] are torn down, then a device for the requested renderer [r]
    and the backend [b'] are brought up, and the warning is shown. *)
Definition recovery_calls (e : Externals) (w : World) (d : GPUDevice) (b b' : Backend)
    (r : GPURenderer) : list Call :=
  [DestroyBackend b; DestroyDevice (GetRenderAPI d)]
  ++ (if HasMainSwapChain d then [ReleaseRenderWindow] else [])
  ++ [CreateDeviceForAPI (GetRenderAPIForRenderer e r) (Host_IsFullscreen w);
      CreateBackend b'; BackendInitialize b' true; UpdateDebugWindowConfig;
      AddIconOSDWarning "HostGPUDeviceLost"].

(** The world after that recovery. *)
Definition recovered (e : Externals) (w : World) (d d' : GPUDevice) (b b' : Backend)
    (r : GPURenderer) : World :=
  mkWorld
    (set_render_window_info
       (if HasMainSwapChain d' then GetWindowInfo e d' else WindowInfo_default)
       (set_gpu_backend (Some b') (s_state w)))
    (Some (SetGPUTimingEnabled (g_settings_display_show_gpu_usage w) d'))
    (g_settings_gpu_renderer w) (g_gpu_settings_gpu_renderer w)
    (g_settings_display_show_gpu_usage w) (GetCurrentValue e) (Host_IsFullscreen w)
    (requested_fullscreen_ui (s_state w))
    (calls w ++ recovery_calls e w d b b' r).

(** The world in which the handler runs: the frame was rendered, the present
    call was made and the failed present was counted. *)
Definition after_failed_present (e : Externals) (w : World) : World :=
  set_s_state
    (set_skipped_present_count (Int.u32 (skipped_present_count (s_state w) + 1)) (s_state w))
    (set_calls
       (calls w ++ [RenderUI (has_backend w && System_IsValid e)
                             (has_backend w && System_IsRunning e);
                    present_call (has_backend w)]) w).

(** Running the worker's monad on a world whose fields are known. *)
Ltac worker_cbn :=
  cbn -[HandleGPUDeviceLost HandleExclusiveFullscreenLost CreateGPUBackendOnThread
        CreateDeviceOnThread DestroyGPUBackendOnThread DestroyDeviceOnThread
        PresentFrame_finish PresentFrame ReconfigureOnThread Qle_bool Int.u32 Int.u64].

Ltac worker_eval :=
  unfold deref_device, bind, get, when, call, modify_state, modify, ret, Panic; worker_cbn.

(** Two descriptions of the same world: the records of calls are compared
    up to the bracketing of [++]. *)
Ltac world_eq :=
  worker_cbn; rewrite <- ?app_assoc; worker_cbn; try reflexivity.

(** Unfolds the worker's monadic operations down to functions on worlds. *)
Ltac worker_unfold :=
  unfold execute, StopFullscreenUI, StartFullscreenUI, ReconfigureOnThread,
    Reconfigure_command, DestroyGPUBackendOnThread, DestroyDeviceOnThread,
    modify_state, modify, call, when, bind, ret, get in *.

End Notions.

(** ** The ring as the two threads use it *)

Module Ring.

Import GPUThread.

(** A slot of the FIFO: the offset it starts at and its header. *)
Definition Slot : Type := (Z * GPUThreadCommand)%type.

(** What the worker loop does with a slot, by its type. *)
Definition dispatch_of (sl : Slot) : Dispatch :=
  let '(off, cmd) := sl in
  match cmd_type cmd with
  | Wraparound => WraparoundSkipped off (cmd_size cmd)
  | AsyncCall => AsyncCallInvoked off
  | Reconfigure => ReconfigureOnThreadCalled off
  | Shutdown => ShutdownSeen off
  | _ => HandleCommand off cmd
  end.


(** Consecutive slots stored from offset [a] up to offset [b], none of them
    a [Wraparound] or a [Shutdown]. *)
Inductive linear (d : gmap Z GPUThreadCommand) : Z -> Z -> list Slot -> Prop :=
| linear_nil (a : Z) : linear d a a []
| linear_cons (a b : Z) (cmd : GPUThreadCommand) (l : list Slot) :
    d !! a = Some cmd ->
    0 < cmd_size cmd ->
    cmd_type cmd <> Wraparound ->
    cmd_type cmd <> Shutdown ->
    linear d (a + cmd_size cmd) b l ->
    linear d a b ((a, cmd) :: l).

(** The slots [pend] written and not yet consumed, as they lie in the ring
    between the read and the write pointer: in one piece, or as a tail that
    ends in a [Wraparound] slot reaching the capacity, followed by a head
    that starts at offset 0. *)
Definition ring_inv (s : State) (pend : list Slot) : Prop :=
  let R := command_fifo_read_ptr s in
  let W := command_fifo_write_ptr s in
  let d := command_fifo_data s in
  0 <= R < COMMAND_QUEUE_SIZE /\ 0 <= W < COMMAND_QUEUE_SIZE
  /\ ((R <= W /\ linear d R W pend)
      \/ (W < R
          /\ exists tail o p head,
               pend = tail ++ (o, mkCommand Wraparound (COMMAND_QUEUE_SIZE - o) p) :: head
               /\ linear d R o tail
               /\ o < COMMAND_QUEUE_SIZE
               /\ d !! o = Some (mkCommand Wraparound (COMMAND_QUEUE_SIZE - o) p)
               /\ linear d 0 W head)).

(** The state in which [AllocateCommand] returns the slot at the write
    offset: the consumer had published [r], and type and size are stored. *)
Definition placed (command : GPUBackendCommandType) (size r : Z) (s : State) : State :=
  let s := set_command_fifo_read_ptr r s in
  set_command_fifo_data
    (store_type_size (command_fifo_write_ptr s) command size (command_fifo_data s)) s.

(** The state after the wrap branch: the dummy slot covers the tail and the
    write pointer is back at 0. *)
Definition wrapped (r : Z) (s : State) : State :=
  let s := set_command_fifo_read_ptr r s in
  set_command_fifo_write_ptr 0
    (set_command_fifo_data
       (store_dummy (command_fifo_write_ptr s)
          (Int.u32 (COMMAND_QUEUE_SIZE - command_fifo_write_ptr s)) (command_fifo_data s)) s).

(** One operation of either thread. *)
Inductive Op : Type :=
| Produce (command : GPUBackendCommandType) (size : Z)
| Drain.

(** The producer never allocates the two types the ring itself relies on,
    and a command has a size. *)
Definition valid_op (o : Op) : Prop :=
  match o with
  | Produce command size =>
      command <> Wraparound /\ command <> Shutdown /\ 1 <= size <= COMMAND_QUEUE_SIZE
  | Drain => True
  end.

(** A run of the two threads: the state, every slot written so far (dummy
    slots included), every dispatch made so far, and whether the producer
    ever wrapped while the published read pointer was 0 (it then takes the
    full ring for an empty one). *)
Record Run : Type := mkRun {
  run_state : State;
  written : list Slot;
  dispatched : list Dispatch;
  overrun : bool
}.

Definition start : Run := mkRun s_state_init [] [] false.

Section Ops.

Variable sizeof_GPUBackendCommand : Z.

(** The producer allocates a command and publishes it while the consumer
    stands still (every load of the read pointer returns the same value).
    No result when the ring has no room: the producer would spin. *)
Definition produce (command : GPUBackendCommandType) (size : Z) (r : Run) : option Run :=
  let s := run_state r in
  let R := command_fifo_read_ptr s in
  match AllocateCommand sizeof_GPUBackendCommand command size s [R; R; R] with
  | None => None
  | Some (off, s1) =>
      match command_fifo_data s1 !! off with
      | None => None
      | Some cmd =>
          let wrapped := negb (off =? command_fifo_write_ptr s) in
          let dummy :=
            if wrapped then
              match command_fifo_data s1 !! command_fifo_write_ptr s with
              | Some c => [(command_fifo_write_ptr s, c)]
              | None => []
              end
            else [] in
          Some (mkRun (PushCommand cmd s1) (written r ++ dummy ++ [(off, cmd)])
                  (dispatched r) (overrun r || (wrapped && (R =? 0))))
      end
  end.

(** The consumer runs one iteration of its outer loop while the producer
    stands still. *)
Definition drain (r : Run) : option Run :=
  match drain_batch (S (S (length (written r)))) (run_state r) with
  | None => Some r
  | Some (BatchDone s, ds) =>
      Some (mkRun s (written r) (dispatched r ++ ds) (overrun r))
  | Some _ => None
  end.

Definition step (o : Op) (r : Run) : option Run :=
  match o with
  | Produce command size => produce command size r
  | Drain => drain r
  end.

Fixpoint run (ops : list Op) (r : Run) : option Run :=
  match ops with
  | [] => Some r
  | o :: ops =>
      match step o r with
      | None => None
      | Some r => run ops r
      end
  end.

End Ops.



(** What holds between operations of a run: the slots written so far are
    those already consumed, each dispatched once and in order, followed by
    those pending in the ring. *)
Definition run_inv (r : Run) : Prop :=
  exists consumed pend,
    written r = consumed ++ pend
    /\ dispatched r = map dispatch_of consumed
    /\ ring_inv (run_state r) pend.

(** Two 8 000 000 byte commands, each consumed at once, then a 1 000 000
    byte command that no longer fits in the tail. *)
Definition wrapping_run : list Op :=
  [Produce DrawPolygon 8000000; Drain; Produce DrawPolygon 8000000; Drain;
   Produce DrawPolygon 1000000; Drain].


End Ring.

(** ** Reasoning about worker computations *)

Module Triples.

Import GPUThread.

(** What holds of the result and the world when a computation returns. *)
Definition wp {A : Type} (c : M A) (Q : A -> World -> Prop) (w : World) : Prop :=
  match c w with
  | Returns a w' => Q a w'
  | Panics _ _ => True
  | Undefined _ => True
  end.

(** A computation leaves the observation [f] of the world as it was,
    however it ends. *)
Definition keeps {X A : Type} (f : World -> X) (c : M A) : Prop :=
  forall w,
    match c w with
    | Returns _ w' | Panics _ w' => f w' = f w
    | Undefined _ => True
    end.

(** What [ReconfigureOnThread] stores before anything else. *)
Definition request_of (w : World) : GPUVSyncMode * bool * bool :=
  (requested_vsync (s_state w), requested_allow_present_throttle (s_state w),
   requested_fullscreen_ui (s_state w)).

(** The calls in which the worker sleeps until a frame's present time. *)
Definition is_wait (c : Call) : bool :=
  match c with
  | SleepUntilPresentTime _ => true
  | _ => false
  end.

End Triples.

(** ** Symbolic runs of the worker *)

Module WorkerTactics.

Import GPUThread.

(** Running a worker computation along the path that the hypotheses used
    by [tac] select; whatever else the evaluation is stuck on is split into
    its cases. *)
Ltac worker_path tac :=
  repeat (cbn -[Qle_bool Int.u32 Int.u64];
          first
            [ progress tac
            | rewrite bool_decide_eq_false_2 by discriminate
            | rewrite bool_decide_eq_true_2 by reflexivity
            | match goal with
              | |- context [match ?x with _ => _ end] =>
                  lazymatch x with
                  | context [match _ with _ => _ end] => fail
                  | negb ?y => destruct y eqn:?
                  | _ => destruct x eqn:?
                  end
              end ]);
  cbn -[Qle_bool Int.u32 Int.u64].

(** The same with no hypotheses to follow. *)
Ltac worker_cases := worker_path idtac.

(** Setters and projections are evaluated innermost first, so a tower of
    setters collapses to one record. *)
Ltac world_norm :=
  cbv beta iota delta
    [set_s_state set_g_gpu_device set_g_settings_gpu_renderer
     set_g_gpu_settings_gpu_renderer set_g_settings_display_show_gpu_usage
     set_s_last_gpu_reset_time set_Host_IsFullscreen set_FullscreenUI_IsInitialized
     set_calls s_state g_gpu_device g_settings_gpu_renderer g_gpu_settings_gpu_renderer
     g_settings_display_show_gpu_usage s_last_gpu_reset_time Host_IsFullscreen
     FullscreenUI_IsInitialized calls
     set_command_fifo_write_ptr set_render_window_info set_requested_renderer
     set_command_fifo_data
     set_thread_wake_count set_thread_wake_semaphore set_thread_is_done_semaphore
     set_gpu_backend set_command_fifo_read_ptr set_skipped_present_count
     set_run_idle_flag set_requested_vsync set_requested_allow_present_throttle
     set_requested_fullscreen_ui
     command_fifo_write_ptr render_window_info requested_renderer command_fifo_data
     thread_wake_count
     thread_wake_semaphore thread_is_done_semaphore gpu_backend command_fifo_read_ptr
     skipped_present_count run_idle_flag requested_vsync requested_allow_present_throttle
     requested_fullscreen_ui].


End WorkerTactics.

(** ** The rest of the CPU thread's entry points, and the idle worker *)

Module GPUThreadEntry.

Import GPUThread.
Local Open Scope worker_scope.

(** How [SyncGPUThread] ends for the CPU thread: it returns at once, or it
    has set the waiting flag and blocks in
    [thread_is_done_semaphore.Wait()]. *)
Inductive SyncStep : Type :=
| SyncReturns (s : State)
| SyncWaits (s : State).

(** [SyncGPUThread(false)], as [Reconfigure] and [RequestShutdown] call it;
    the compare-exchange loop is a single atomic update of the counter. *)
Definition SyncGPUThread (s : State) : SyncStep :=
  let value := thread_wake_count s in
  if GetThreadWakeCount value <? 0 then SyncReturns s
  else SyncWaits
         (set_thread_wake_count (Z.lor value THREAD_WAKE_COUNT_CPU_THREAD_IS_WAITING) s).

Definition PushCommandAndSync (cmd : GPUThreadCommand) (s : State) : SyncStep :=
  SyncGPUThread (WakeGPUThread (publish cmd s)).

(** [GPUThread::Reconfigure]: the command is pushed with
    [PushCommandAndSync], so the caller gets [cmd->result] and the error
    back once the worker has run [ReconfigureOnThread] on it. *)
Definition GPUThread_Reconfigure (e : Externals) (vsync : GPUVSyncMode) (throttle : bool)
    (renderer : option GPURenderer) (upload_vram : bool) (fullscreen : option bool)
    (start_fullscreen_ui : option bool) (recreate_device : bool) (error : bool)
    : M ReconfigureResult :=
  ReconfigureOnThread e
    (Reconfigure_command vsync throttle renderer upload_vram fullscreen start_fullscreen_ui
       recreate_device error).

Definition GetRequestedRenderer (w : World) : option GPURenderer :=
  requested_renderer (s_state w).

Definition CreateGPUBackend (e : Externals) (vsync : GPUVSyncMode) (throttle : bool)
    (renderer : GPURenderer) (upload_vram fullscreen force_recreate_device error : bool)
    : M ReconfigureResult :=
  modify_state (set_requested_renderer (Some renderer)) ;;;
  GPUThread_Reconfigure e vsync throttle (Some renderer) upload_vram
    (if fullscreen then Some true else None) None force_recreate_device error.

Definition DestroyGPUBackend (e : Externals) (vsync : GPUVSyncMode) (throttle : bool)
    : M unit :=
  GPUThread_Reconfigure e vsync throttle None false None None false false ;;;
  modify_state (set_requested_renderer None).

(** The branch of the worker loop taken when the FIFO is empty, up to the
    point where the thread goes on to reload the pointers or blocks. *)
Inductive Idle : Type :=
| Woken                          (* sleep => wake, need to reload pointers *)
| IdleFrame (throttled : bool)   (* presented; was ThrottlePresentation called *)
| Parked.                        (* blocked in thread_wake_semaphore.Wait() *)

Definition GPUThreadEntryPoint_idle (e : Externals) (IsVSyncModeBlocking : bool) : M Idle :=
  w <- get ;;
  match sleep_pass (negb (run_idle_flag (s_state w))) (s_state w) with
  | SleepReturns true s => modify (set_s_state s) ;;; ret Woken
  | SleepParked s => modify (set_s_state s) ;;; ret Parked
  | SleepReturns false s =>
      modify (set_s_state s) ;;;
      PresentFrame e false 0 ;;;
      d <- deref_device ;;
      if HasMainSwapChain d then ret (IdleFrame (negb IsVSyncModeBlocking))
      else fun _ => Undefined "GetMainSwapChain() is null"
  end.

End GPUThreadEntry.

(** ** More concrete environments *)

Module Cases.

Import GPUThread.

(** A worker that has been started and holds neither device nor backend. *)
Definition stopped : World :=
  mkWorld s_state_init None HardwareVulkan HardwareVulkan false 0 false false [].

(** The host of [Scenario.host] on which no device of the API [missing] can
    be created. *)
Definition host_lacking (missing : RenderAPI) : Externals :=
  mkExternals Scenario.api_for Scenario.same_api (fun v => v # 1000000000) 1
    (fun api _ => if bool_decide (api = missing) then None else Some (Scenario.device api))
    true true Scenario.init_ok false PresentOK false false
    (fun _ _ => CreateFailed) (fun _ _ => "no suitable adapter") "" Scenario.api_name
    (fun _ => WindowInfo_of 1).

End Cases.

(** ** What travels through the ring *)

Module Traffic.

Import GPUThread Ring.

(** The commands a run asks for, each with the size it is stored with. *)
Definition requests (ops : list Op) : list (GPUBackendCommandType * Z) :=
  omap (fun o => match o with
                 | Produce command size => Some (command, AlignUpPow2 size 4)
                 | Drain => None
                 end) ops.

(** The commands among slots: every slot but the [Wraparound] ones, as
    type and size. *)
Definition commands (l : list Slot) : list (GPUBackendCommandType * Z) :=
  omap (fun sl : Slot =>
          if bool_decide (cmd_type (snd sl) = Wraparound) then None
          else Some (cmd_type (snd sl), cmd_size (snd sl))) l.

(** The bytes of the ring a slot of [size] bytes at offset [off] shares
    with no slot of [l]. *)
Definition apart (off size : Z) (sl : Slot) : Prop :=
  fst sl + cmd_size (snd sl) <= off \/ off + size <= fst sl.

Section Shutdown.

Variable sizeof_GPUBackendCommand : Z.
Variable sizeof_GPUThreadCommand : Z.

(** [RequestShutdown], first half: with anything pending the CPU thread
    wakes the worker and waits for it to run dry. *)
Definition RequestShutdown_sync (s : State) : GPUThreadEntry.SyncStep :=
  if GetPendingCommandSize s >? 0
  then GPUThreadEntry.SyncGPUThread (WakeGPUThread s)
  else GPUThreadEntry.SyncReturns s.

(** Second half: the [Shutdown] command is allocated and pushed.  The
    result is its offset and the state the worker wakes up to. *)
Definition RequestShutdown_push (s : State) (loads : list Z) : option (Z * State) :=
  match AllocateCommand sizeof_GPUBackendCommand Shutdown sizeof_GPUThreadCommand s loads with
  | None => None
  | Some (off, s) =>
      match command_fifo_data s !! off with
      | None => None
      | Some cmd => Some (off, PushCommandAndWakeThread cmd s)
      end
  end.

End Shutdown.

End Traffic.

(** ** The software backend's choice of display formats *)

Module DisplayFormat.

Import GPU_SW.

Definition formats_for_16bit : list Format := [RGB565; RGBA5551; RGBA8; BGRA8].
Definition formats_for_24bit : list Format := [RGBA8; BGRA8; RGB565; RGBA5551].

(** One of the two loops of [SetDisplayTextureFormat]: the member is set to
    the first format of the list the device supports, and left alone when
    it supports none. *)
Fixpoint first_supported (SupportsTextureFormat : Format -> bool) (formats : list Format)
    (member : Format) : Format :=
  match formats with
  | [] => member
  | format :: formats =>
      if SupportsTextureFormat format then format
      else first_supported SupportsTextureFormat formats member
  end.

(** The members [m_16bit_display_format] and [m_24bit_display_format]. *)
Record Members : Type := mkMembers {
  m_16bit_display_format : Format;
  m_24bit_display_format : Format
}.

(** Their default member initialisers in gpu_sw.h. *)
Definition constructed : Members := mkMembers RGB565 RGBA8.

Definition SetDisplayTextureFormat (SupportsTextureFormat : Format -> bool) (m : Members)
    : Members :=
  mkMembers
    (first_supported SupportsTextureFormat formats_for_16bit (m_16bit_display_format m))
    (first_supported SupportsTextureFormat formats_for_24bit (m_24bit_display_format m)).

(** The formats whose pixels are 16 bits wide. *)
Definition is_16bit (f : Format) : bool :=
  match f with
  | RGBA5551 | RGB565 => true
  | RGBA8 | BGRA8 => false
  end.

End DisplayFormat.

(** ** The software backend's readout as member functions

    [GetDisplayTexture], [CopyOut15Bit], [CopyOut24Bit], [CopyOut] and
    [UpdateDisplay] with the upload texture they share and the calls they
    make.  A computation has no result when a load leaves [g_vram]; the
    stores to the mapped texture or to [m_upload_buffer], whose size is
    declared in the absent gpu_types.h, are not modelled. *)

Module DisplayUpload.

Import GPU_SW DisplayFormat.

#[global] Instance Format_eq_dec : EqDecision Format.
Proof. solve_decision. Defined.

(** A [GPUTexture] as the readout uses it: its dimensions, its format and
    the rows of pixels it holds.  A texture that was just fetched holds no
    rows yet. *)
Record GPUTexture : Type := mkTexture {
  GetWidth : Z;
  GetHeight : Z;
  GetFormat : Format;
  texels : list (list Z)
}.

(** Calls that leave gpu_sw.cpp: to the device, to the texture and to the
    [GPUBackend] base class.  The depth buffer passed to [SetDisplayTexture]
    is always null and is left out. *)
Inductive Call : Type :=
| ClearDisplayTexture
| RecycleTexture (texture : option GPUTexture)
| FetchTexture (width height : Z) (format : Format)
| Texture_Map (width height : Z)
| Texture_Unmap
| Texture_Update (width height dst_stride : Z)
| SetDisplayTexture (texture : option GPUTexture) (view_x view_y view_width view_height : Z)
| ApplyChromaSmoothing
| Deinterlace (field line_skip : Z).

(** What those calls answer, and the two settings [UpdateDisplay] reads. *)
Record Host : Type := mkHost {
  FetchTexture_succeeds : Z -> Z -> Format -> bool;
  Map_succeeds : bool;
  ApplyChromaSmoothing_succeeds : bool;
  g_settings_debugging_show_vram : bool;
  g_settings_display_24bit_chroma_smoothing : bool
}.

(** The [GPU_SW] object: the two display formats, [m_upload_texture], and
    the calls made so far. *)
Record GPU_SW_State : Type := mkGPU_SW {
  members : Members;
  m_upload_texture : option GPUTexture;
  calls : list Call
}.

Definition call (c : Call) (m : GPU_SW_State) : GPU_SW_State :=
  mkGPU_SW (members m) (m_upload_texture m) (calls m ++ [c]).

Definition set_m_upload_texture (v : option GPUTexture) (m : GPU_SW_State) : GPU_SW_State :=
  mkGPU_SW (members m) v (calls m).

(** [m_upload_texture] is there and has the width, height and format asked
    for. *)
Definition texture_matches (texture : option GPUTexture) (width height : Z)
    (format : Format) : bool :=
  match texture with
  | None => false
  | Some t =>
      (GetWidth t =? width) && (GetHeight t =? height) && bool_decide (GetFormat t = format)
  end.

(** [GetDisplayTexture]: the upload texture is kept when it matches;
    otherwise the display is cleared, the old texture is recycled and a new
    one is fetched, which can fail.  The result is [m_upload_texture.get()]. *)
Definition GetDisplayTexture (h : Host) (width height : Z) (format : Format)
    (m : GPU_SW_State) : option GPUTexture * GPU_SW_State :=
  if negb (texture_matches (m_upload_texture m) width height format) then
    let m := call ClearDisplayTexture m in
    let m := call (RecycleTexture (m_upload_texture m)) m in
    let m := call (FetchTexture width height format) m in
    let m := set_m_upload_texture
               (if FetchTexture_succeeds h width height format
                then Some (mkTexture width height format [])
                else None) m in
    (m_upload_texture m, m)
  else (m_upload_texture m, m).

(** [sizeof(OutputPixelType)]: [u32] for the two 32-bit formats, [u16]
    otherwise. *)
Definition sizeof_OutputPixelType (display_format : Format) : Z :=
  match display_format with
  | RGBA8 | BGRA8 => 4
  | RGBA5551 | RGB565 => 2
  end.

(** The end of both readouts: the rows are in the texture, written through
    the mapping, or into [m_upload_buffer] and uploaded from there. *)
Definition unmap_or_update (h : Host) (texture : GPUTexture) (rows : list (list Z))
    (width height dst_stride : Z) (m : GPU_SW_State) : GPU_SW_State :=
  let m := if Map_succeeds h then call Texture_Unmap m
           else call (Texture_Update width height dst_stride) m in
  set_m_upload_texture
    (Some (mkTexture (GetWidth texture) (GetHeight texture) (GetFormat texture) rows)) m.

(** [CopyOut15Bit] as the member function: it asks for the display texture
    first and returns false without reading VRAM when there is none; the
    two loop nests are [GPU_SW.CopyOut15Bit].  No result when a load leaves
    [g_vram]. *)
Definition CopyOut15Bit (h : Host) (display_format : Format) (g_vram : VRAM)
    (src_x src_y width height line_skip : Z) (m : GPU_SW_State)
    : option (bool * GPU_SW_State) :=
  let '(texture, m) := GetDisplayTexture h width height display_format m in
  match texture with
  | None => Some (false, m)
  | Some texture =>
      let dst_stride := Int.u32 (width * sizeof_OutputPixelType display_format) in
      let m := call (Texture_Map width height) m in
      rows ← GPU_SW.CopyOut15Bit display_format g_vram src_x src_y width height line_skip;
      Some (true, unmap_or_update h texture rows width height dst_stride m)
  end.

(** [CopyOut24Bit] likewise; its rows are padded to a multiple of four
    bytes. *)
Definition CopyOut24Bit (h : Host) (display_format : Format) (g_vram : VRAM)
    (src_x src_y skip_x width height line_skip : Z) (m : GPU_SW_State)
    : option (bool * GPU_SW_State) :=
  let '(texture, m) := GetDisplayTexture h width height display_format m in
  match texture with
  | None => Some (false, m)
  | Some texture =>
      let dst_stride :=
        AlignUpPow2 (Int.u32 (width * sizeof_OutputPixelType display_format)) 4 in
      let m := call (Texture_Map width height) m in
      rows ← GPU_SW.CopyOut24Bit display_format g_vram src_x src_y skip_x width height
               line_skip;
      Some (true, unmap_or_update h texture rows width height dst_stride m)
  end.

Definition CopyOut (h : Host) (g_vram : VRAM)
    (src_x src_y skip_x width height line_skip : Z) (is_24bit : bool) (m : GPU_SW_State)
    : option (bool * GPU_SW_State) :=
  if negb is_24bit
  then CopyOut15Bit h (m_16bit_display_format (members m)) g_vram src_x src_y width height
         line_skip m
  else CopyOut24Bit h (m_24bit_display_format (members m)) g_vram src_x src_y skip_x width
         height line_skip m.

(** [UpdateDisplay]: nothing is displayed when the readout returns false;
    otherwise the upload texture is handed to [SetDisplayTexture], and an
    interlaced display is deinterlaced afterwards. *)
Definition UpdateDisplay (h : Host) (g_vram : VRAM) (cmd : GPUBackendUpdateDisplayCommand)
    (m : GPU_SW_State) : option GPU_SW_State :=
  if negb (g_settings_debugging_show_vram h) then
    if display_disabled cmd then Some (call ClearDisplayTexture m)
    else
      let is_24bit := display_24bit cmd in
      let interlaced := interlaced_display_enabled cmd in
      let field := interlaced_display_field cmd in
      let vram_offset_x := if is_24bit then X cmd else display_vram_left cmd in
      let vram_offset_y :=
        Int.u32 (display_vram_top cmd
                 + (if interlaced && interlaced_display_interleaved cmd then field else 0)) in
      let skip_x := if is_24bit then Int.u32 (display_vram_left cmd - X cmd) else 0 in
      let read_width := display_vram_width cmd in
      let read_height :=
        if interlaced then display_vram_height cmd / 2 else display_vram_height cmd in
      if interlaced_display_enabled cmd then
        let line_skip := if interlaced_display_interleaved cmd then 1 else 0 in
        '(copied, m) ← CopyOut h g_vram vram_offset_x vram_offset_y skip_x read_width
                         read_height line_skip is_24bit m;
        if copied : bool then
          let m := call (SetDisplayTexture (m_upload_texture m) 0 0 read_width read_height)
                     m in
          if is_24bit && g_settings_display_24bit_chroma_smoothing h then
            let m := call ApplyChromaSmoothing m in
            if ApplyChromaSmoothing_succeeds h then Some (call (Deinterlace field 0) m)
            else Some m
          else Some (call (Deinterlace field 0) m)
        else Some m
      else
        '(copied, m) ← CopyOut h g_vram vram_offset_x vram_offset_y skip_x read_width
                         read_height 0 is_24bit m;
        if copied : bool then
          let m := call (SetDisplayTexture (m_upload_texture m) 0 0 read_width read_height)
                     m in
          if is_24bit && g_settings_display_24bit_chroma_smoothing h
          then Some (call ApplyChromaSmoothing m)
          else Some m
        else Some m
  else
    '(copied, m) ← CopyOut h g_vram 0 0 0 VRAM_WIDTH VRAM_HEIGHT 0 false m;
    if copied : bool then
      Some (call (SetDisplayTexture (m_upload_texture m) 0 0 VRAM_WIDTH VRAM_HEIGHT) m)
    else Some m.

(** A device that hands out every texture and maps it, on a backend as
    constructed. *)
Definition generous : Host := mkHost (fun _ _ _ => true) true true false false.

Definition fresh : GPU_SW_State := mkGPU_SW constructed None [].

End DisplayUpload.

(** * Properties *)

Section WakeCounter.

Import GPUThread.

Lemma s32_small (x : Z) : - 2 ^ 31 <= x < 2 ^ 31 -> Int.s32 x = x.
Proof.
  intros H. unfold Int.s32.
  rewrite Z.mod_small by lia. lia.
Qed.

Lemma WakeGPUThread_count (s : State) :
  thread_wake_count (WakeGPUThread s) = Int.s32 (thread_wake_count s + 2).
Proof.
  unfold WakeGPUThread. destruct (thread_wake_count s <? 0); reflexivity.
Qed.

Lemma WakeGPUThread_semaphore (s : State) :
  thread_wake_semaphore (WakeGPUThread s)
  = if thread_wake_count s <? 0 then thread_wake_semaphore s + 1 else thread_wake_semaphore s.
Proof.
  unfold WakeGPUThread. destruct (thread_wake_count s <? 0); reflexivity.
Qed.

Lemma WakeGPUThread_pointers (s : State) :
  command_fifo_write_ptr (WakeGPUThread s) = command_fifo_write_ptr s
  /\ command_fifo_read_ptr (WakeGPUThread s) = command_fifo_read_ptr s
  /\ command_fifo_data (WakeGPUThread s) = command_fifo_data s.
Proof.
  unfold WakeGPUThread. destruct (thread_wake_count s <? 0); repeat split.
Qed.

(** C7: the producer's wake adds exactly 2 to the (wrapping, signed 32-bit)
    wake counter, and posts the wake semaphore exactly when the value read
    by the fetch-add was negative; a consumer parked at -1 is left with the
    positive work count 1. *)
Theorem WakeGPUThread_adds_two_and_posts_iff_negative (s : State) :
  let s' := WakeGPUThread s in
  thread_wake_count s' = Int.s32 (thread_wake_count s + 2)
  /\ (thread_wake_semaphore s' = thread_wake_semaphore s + 1 <-> thread_wake_count s < 0)
  /\ (thread_wake_semaphore s' = thread_wake_semaphore s <-> 0 <= thread_wake_count s)
  /\ thread_is_done_semaphore s' = thread_is_done_semaphore s
  /\ (thread_wake_count s = THREAD_WAKE_COUNT_SLEEPING ->
      thread_wake_count s' = 1 /\ 0 < GetThreadWakeCount (thread_wake_count s')).
Proof.
  cbv zeta. rewrite WakeGPUThread_count, WakeGPUThread_semaphore.
  split; [reflexivity|].
  destruct (Z.ltb_spec (thread_wake_count s) 0) as [Hneg|Hpos].
  - repeat split; intros; try lia.
    + unfold WakeGPUThread. apply Z.ltb_lt in Hneg. rewrite Hneg. reflexivity.
    + rewrite H. reflexivity.
    + rewrite H. reflexivity.
  - repeat split; intros; try lia.
    + unfold WakeGPUThread. apply Z.ltb_ge in Hpos. rewrite Hpos. reflexivity.
    + rewrite H. reflexivity.
    + rewrite H. reflexivity.
Qed.

(** A consumer that parks is stored as -1; the wake that follows posts the
    semaphore, and the resumed consumer finds work and returns [true]. *)
Lemma wake_after_park (s s1 : State) :
  sleep_pass true s = SleepParked s1 ->
  thread_wake_semaphore s1 = 0 ->
  thread_wake_count s1 = THREAD_WAKE_COUNT_SLEEPING
  /\ SleepGPUThread 2 true s = None
  /\ thread_wake_semaphore (WakeGPUThread s1) = 1
  /\ exists s2, SleepGPUThread 2 true (WakeGPUThread s1) = Some (true, s2)
                /\ thread_wake_count s2 = 0.
Proof.
  intros Hp Hsem.
  assert (Hc : thread_wake_count s1 = THREAD_WAKE_COUNT_SLEEPING).
  { unfold sleep_pass in Hp.
    destruct (GetThreadWakeCount (thread_wake_count s) >? 0); [discriminate|].
    cbn in Hp. destruct (negb _) in Hp; injection Hp as <-; reflexivity. }
  assert (Hcount : thread_wake_count (WakeGPUThread s1) = 1).
  { rewrite WakeGPUThread_count, Hc. reflexivity. }
  assert (Hs : thread_wake_semaphore (WakeGPUThread s1) = 1).
  { rewrite WakeGPUThread_semaphore, Hc, Hsem. reflexivity. }
  split; [exact Hc|]. split.
  { cbn [SleepGPUThread]. rewrite Hp, Hsem. reflexivity. }
  split; [exact Hs|].
  eexists. split.
  - cbn [SleepGPUThread]. unfold sleep_pass. rewrite Hcount. cbn. reflexivity.
  - reflexivity.
Qed.

Lemma wake_after_park_witness :
  thread_wake_count (set_thread_wake_count THREAD_WAKE_COUNT_SLEEPING s_state_init)
  = THREAD_WAKE_COUNT_SLEEPING
  /\ SleepGPUThread 2 true s_state_init = None
  /\ thread_wake_semaphore
       (WakeGPUThread (set_thread_wake_count THREAD_WAKE_COUNT_SLEEPING s_state_init)) = 1
  /\ exists s2,
       SleepGPUThread 2 true
         (WakeGPUThread (set_thread_wake_count THREAD_WAKE_COUNT_SLEEPING s_state_init))
       = Some (true, s2)
       /\ thread_wake_count s2 = 0.
Proof.
  apply (wake_after_park s_state_init
           (set_thread_wake_count THREAD_WAKE_COUNT_SLEEPING s_state_init));
    reflexivity.
Defined.

End WakeCounter.

Section Publish.

Import GPUThread.

Lemma publish_fields (cmd : GPUThreadCommand) (s : State) :
  command_fifo_write_ptr (publish cmd s) = Int.u32 (command_fifo_write_ptr s + cmd_size cmd)
  /\ command_fifo_read_ptr (publish cmd s) = command_fifo_read_ptr s
  /\ thread_wake_count (publish cmd s) = thread_wake_count s
  /\ thread_wake_semaphore (publish cmd s) = thread_wake_semaphore s
  /\ command_fifo_data (publish cmd s) = command_fifo_data s.
Proof. repeat split. Qed.

(** Inside the ring, the pending size is the distance from read to write
    around the ring. *)
Lemma GetPendingCommandSize_distance (s : State) :
  0 <= command_fifo_read_ptr s < COMMAND_QUEUE_SIZE ->
  0 <= command_fifo_write_ptr s < COMMAND_QUEUE_SIZE ->
  GetPendingCommandSize s
  = (command_fifo_write_ptr s - command_fifo_read_ptr s) mod COMMAND_QUEUE_SIZE.
Proof.
  unfold GetPendingCommandSize, COMMAND_QUEUE_SIZE, Int.u32. intros Hr Hw.
  destruct (Z.geb_spec (command_fifo_write_ptr s) (command_fifo_read_ptr s)).
  - rewrite !Z.mod_small; lia.
  - rewrite (Z.mod_small (_ - _ + _)) by lia.
    apply Z.mod_unique with (q := -1); lia.
Qed.

Lemma s32_add2_ne (x : Z) : Int.s32 (x + 2) <> x.
Proof.
  unfold Int.s32. intros Heq.
  pose proof (Z.div_mod (x + 2 + 2 ^ 31) (2 ^ 32) ltac:(lia)) as Hdm.
  pose proof (Z.mod_pos_bound (x + 2 + 2 ^ 31) (2 ^ 32) ltac:(lia)) as Hb.
  lia.
Qed.

(** C8: [PushCommand] advances the write pointer by the slot's size
    (wrapping as a 32-bit fetch-add does) and wakes the consumer exactly when
    the pending byte count measured after the publish is at least 65536;
    below that it only publishes. *)
Theorem PushCommand_wakes_iff_threshold_reached (cmd : GPUThreadCommand) (s : State) :
  let s' := PushCommand cmd s in
  let pending := GetPendingCommandSize (publish cmd s) in
  THRESHOLD_TO_WAKE_GPU = 65536
  /\ command_fifo_write_ptr s' = Int.u32 (command_fifo_write_ptr s + cmd_size cmd)
  /\ (65536 <= pending <-> s' = WakeGPUThread (publish cmd s))
  /\ (pending < 65536 <-> s' = publish cmd s)
  /\ (65536 <= pending <-> thread_wake_count s' = Int.s32 (thread_wake_count s + 2))
  /\ (pending < 65536 <->
      thread_wake_count s' = thread_wake_count s
      /\ thread_wake_semaphore s' = thread_wake_semaphore s)
  /\ (0 <= command_fifo_read_ptr s < COMMAND_QUEUE_SIZE ->
      0 <= Int.u32 (command_fifo_write_ptr s + cmd_size cmd) < COMMAND_QUEUE_SIZE ->
      pending = (Int.u32 (command_fifo_write_ptr s + cmd_size cmd) - command_fifo_read_ptr s)
                mod COMMAND_QUEUE_SIZE).
Proof.
  cbv zeta.
  assert (Hc : forall t, thread_wake_count (WakeGPUThread t) <> thread_wake_count t).
  { intros t. rewrite WakeGPUThread_count. apply s32_add2_ne. }
  assert (Hne : forall t, WakeGPUThread t <> t).
  { intros t Heq. apply (Hc t). rewrite Heq. reflexivity. }
  unfold PushCommand, THRESHOLD_TO_WAKE_GPU.
  destruct (Z.geb_spec (GetPendingCommandSize (publish cmd s)) 65536) as [Hge|Hlt].
  - split; [reflexivity|]. split.
    { destruct (WakeGPUThread_pointers (publish cmd s)) as [-> _]. reflexivity. }
    split; [tauto|]. split.
    { split; [lia|]. intros Heq. exfalso. exact (Hne _ Heq). }
    split.
    { split; [|lia]. intros _. rewrite WakeGPUThread_count. reflexivity. }
    split.
    { split; [lia|]. intros [Heq _]. exfalso. exact (Hc (publish cmd s) Heq). }
    intros Hr Hw. exact (GetPendingCommandSize_distance (publish cmd s) Hr Hw).
  - split; [reflexivity|]. split; [reflexivity|]. split.
    { split; [lia|]. intros Heq. exfalso. symmetry in Heq. exact (Hne _ Heq). }
    split; [tauto|]. split.
    { split; [lia|]. intros Heq. exfalso.
      apply (Hc (publish cmd s)). rewrite WakeGPUThread_count. symmetry. exact Heq. }
    split.
    { split; [|lia]. intros _. split; reflexivity. }
    intros Hr Hw. exact (GetPendingCommandSize_distance (publish cmd s) Hr Hw).
Qed.

End Publish.

Section FullscreenUI.

Import GPUThread Notions.

(** C10, the path taken while a system is valid: the closure that
    [StopFullscreenUI] enqueues stores [true] into the worker's
    requested-fullscreen-ui flag, whatever the flag was before. *)
Theorem StopFullscreenUI_valid_system_requests_ui (e : Externals) (vsync : GPUVSyncMode)
    (throttle : bool) (w : World) :
  System_IsValid e = true ->
  exists w',
    execute e (StopFullscreenUI e vsync throttle) w = Returns tt w'
    /\ requested_fullscreen_ui (s_state w') = true
    /\ StopFullscreenUI e vsync throttle = StartFullscreenUI e vsync throttle true false.
Proof.
  intros Hvalid. worker_unfold. rewrite Hvalid. cbn.
  eexists. split; [reflexivity|]. split; reflexivity.
Qed.

Lemma StopFullscreenUI_valid_system_requests_ui_witness :
  exists w',
    execute (Scenario.host 1 false PresentOK true Scenario.init_ok)
      (StopFullscreenUI (Scenario.host 1 false PresentOK true Scenario.init_ok)
         VSyncDisabled false)
      Scenario.running = Returns tt w'
    /\ requested_fullscreen_ui (s_state w') = true
    /\ StopFullscreenUI (Scenario.host 1 false PresentOK true Scenario.init_ok)
         VSyncDisabled false
       = StartFullscreenUI (Scenario.host 1 false PresentOK true Scenario.init_ok)
           VSyncDisabled false true false.
Proof.
  apply (StopFullscreenUI_valid_system_requests_ui
           (Scenario.host 1 false PresentOK true Scenario.init_ok)
           VSyncDisabled false Scenario.running).
  reflexivity.
Defined.

(** The sibling path (no valid system): the reconfigure request clears the
    flag, and tears the backend and the device down. *)
Lemma StopFullscreenUI_without_system_clears_flag (e : Externals) (vsync : GPUVSyncMode)
    (throttle : bool) (w : World) :
  System_IsValid e = false ->
  exists w',
    execute e (StopFullscreenUI e vsync throttle) w = Returns tt w'
    /\ requested_fullscreen_ui (s_state w') = false
    /\ gpu_backend (s_state w') = None
    /\ g_gpu_device w' = None.
Proof.
  intros Hvalid. worker_unfold. rewrite Hvalid. cbn.
  destruct (gpu_backend (s_state w)) as [b|] eqn:Hb; cbn;
    destruct (g_gpu_device w) as [d|] eqn:Hd; cbn;
    try (destruct (HasMainSwapChain d); cbn);
    eexists; (split; [reflexivity|]); cbn; repeat split; assumption.
Qed.

Lemma StopFullscreenUI_without_system_clears_flag_witness :
  exists w',
    execute (Scenario.host 1 false PresentOK false Scenario.init_ok)
      (StopFullscreenUI (Scenario.host 1 false PresentOK false Scenario.init_ok)
         VSyncDisabled false)
      Scenario.running
    = Returns tt w'
    /\ requested_fullscreen_ui (s_state w') = false
    /\ gpu_backend (s_state w') = None
    /\ g_gpu_device w' = None.
Proof.
  apply (StopFullscreenUI_without_system_clears_flag
           (Scenario.host 1 false PresentOK false Scenario.init_ok) VSyncDisabled false
           Scenario.running).
  reflexivity.
Defined.

End FullscreenUI.

(** ** Calls are only ever appended *)

Section Appends.

Import GPUThread Notions.
Local Open Scope worker_scope.

Lemma appends_ret {A} (a : A) : appends (ret a).
Proof. intros w. exists []. cbn. rewrite app_nil_r. reflexivity. Qed.

Lemma appends_Panic {A} (msg : string) : appends (@Panic A msg).
Proof. intros w. exists []. cbn. rewrite app_nil_r. reflexivity. Qed.

Lemma appends_get : appends get.
Proof. intros w. exists []. cbn. rewrite app_nil_r. reflexivity. Qed.

Lemma appends_call (c : Call) : appends (call c).
Proof. intros w. exists [c]. reflexivity. Qed.

Lemma appends_modify (f : World -> World) :
  (forall w, calls (f w) = calls w) -> appends (modify f).
Proof. intros Hf w. exists []. cbn. rewrite Hf, app_nil_r. reflexivity. Qed.

Lemma appends_modify_state (f : State -> State) : appends (modify_state f).
Proof. apply appends_modify. reflexivity. Qed.

Lemma appends_deref_device : appends deref_device.
Proof.
  intros w. unfold deref_device. destruct (g_gpu_device w); [|exact I].
  exists []. rewrite app_nil_r. reflexivity.
Qed.

Lemma appends_bind {A B} (c : M A) (k : A -> M B) :
  appends c -> (forall a, appends (k a)) -> appends (bind c k).
Proof.
  intros Hc Hk w. unfold bind. specialize (Hc w).
  destruct (c w) as [a w1|msg w1|what]; [|exact Hc|exact I].
  specialize (Hk a w1). destruct Hc as [l1 Hl1].
  destruct (k a w1) as [b w2|msg w2|what]; [| |exact I];
    destruct Hk as [l2 Hl2]; exists (l1 ++ l2);
    rewrite Hl2, Hl1, app_assoc; reflexivity.
Qed.

Lemma appends_when (b : bool) (c : M unit) : appends c -> appends (when b c).
Proof. intros Hc. destruct b; [exact Hc|apply appends_ret]. Qed.

Ltac appends_step :=
  first
    [ apply appends_ret
    | apply appends_Panic
    | apply appends_get
    | apply appends_call
    | apply appends_modify_state
    | apply appends_modify; reflexivity
    | apply appends_deref_device
    | apply appends_when
    | apply appends_bind; [|intros]
    | match goal with
      | |- appends (if ?b then _ else _) => destruct b
      | |- appends (match ?x with _ => _ end) => destruct x
      | |- appends (let '(_, _) := ?x in _) => destruct x
      | |- appends (fun _ => Undefined _) => intros ?; exact I
      end ].

Lemma appends_DestroyGPUBackendOnThread : appends DestroyGPUBackendOnThread.
Proof. unfold DestroyGPUBackendOnThread. repeat appends_step. Qed.

Lemma appends_DestroyDeviceOnThread : appends DestroyDeviceOnThread.
Proof. unfold DestroyDeviceOnThread. repeat appends_step. Qed.

Lemma appends_CreateDeviceOnThread (e : Externals) (api : RenderAPI) (fs : bool) :
  appends (CreateDeviceOnThread e api fs).
Proof. unfold CreateDeviceOnThread. repeat appends_step. Qed.

Lemma appends_CreateGPUBackendOnThread (e : Externals) (r : GPURenderer) (upload : bool) :
  appends (CreateGPUBackendOnThread e r upload).
Proof. unfold CreateGPUBackendOnThread. repeat appends_step. Qed.

Lemma appends_HandleGPUDeviceLost (e : Externals) : appends (HandleGPUDeviceLost e).
Proof.
  unfold HandleGPUDeviceLost.
  repeat first
    [ apply appends_DestroyGPUBackendOnThread
    | apply appends_DestroyDeviceOnThread
    | apply appends_CreateDeviceOnThread
    | apply appends_CreateGPUBackendOnThread
    | appends_step ].
Qed.

End Appends.

(** ** Frame presentation *)

Section Present.

Import GPUThread Notions.
Local Open Scope worker_scope.

Lemma skip_present_of_iff (e : Externals) (allow : bool) (d : GPUDevice) (s : State) :
  skip_present_of e allow d s = true
  <-> HasMainSwapChain d = false
      \/ (allow = true /\ ShouldSkipPresentingFrame e = true
          /\ skipped_present_count s < MAX_SKIPPED_PRESENT_COUNT).
Proof.
  unfold skip_present_of.
  rewrite orb_true_iff, !andb_true_iff, negb_true_iff, Z.ltb_lt. tauto.
Qed.

(** A skipped frame: nothing is rendered or presented, the counter goes up
    by one and ImGui is kept advancing. *)
Lemma PresentFrame_skipped (e : Externals) (allow : bool) (t : Z) (w : World) (d : GPUDevice) :
  g_gpu_device w = Some d ->
  skip_present_of e allow d (s_state w) = true ->
  PresentFrame e allow t w
  = Returns tt
      (set_calls (calls w ++ ImGuiEndFrame :: ImGuiNewFrame
                    :: (if has_backend w then [RestoreDeviceContext] else []))
         (set_s_state
            (set_skipped_present_count
               (Int.u32 (skipped_present_count (s_state w) + 1)) (s_state w)) w)).
Proof.
  intros Hd Hskip. unfold has_backend.
  destruct w as [s dev r1 r2 u last fs ui cs]. cbn in Hd, Hskip. subst dev.
  unfold PresentFrame, PresentFrame_finish. worker_eval. rewrite Hskip. worker_cbn.
  destruct (bool_decide (is_Some (gpu_backend s))) eqn:Hb; cbn; rewrite ?Hb; cbn; world_eq.
Qed.

(** A frame that is not skipped and whose present succeeds: the UI is
    rendered, the frame is presented and the counter is reset. *)
Lemma PresentFrame_presented_ok (e : Externals) (allow : bool) (t : Z) (w : World)
    (d : GPUDevice) :
  g_gpu_device w = Some d ->
  skip_present_of e allow d (s_state w) = false ->
  present_result e = PresentOK ->
  exists w' rest,
    PresentFrame e allow t w = Returns tt w'
    /\ skipped_present_count (s_state w') = 0
    /\ calls w' = calls w
                  ++ RenderUI (has_backend w && System_IsValid e)
                              (has_backend w && System_IsRunning e)
                  :: present_call (has_backend w) :: RenderImGui :: rest.
Proof.
  intros Hd Hskip Hok. unfold has_backend, present_call.
  destruct w as [s dev r1 r2 u last fs ui cs]. cbn in Hd, Hskip. subst dev.
  unfold PresentFrame. worker_eval. rewrite Hskip. worker_cbn.
  destruct (bool_decide (is_Some (gpu_backend s))) eqn:Hb; worker_cbn; rewrite Hok;
    unfold PresentFrame_finish; worker_eval;
    destruct (negb (t =? 0)), (explicit_present d), (timed_present d),
      (IsGPUTimingEnabled d); worker_cbn; rewrite ?Hb; worker_cbn;
    eexists; eexists; (split; [reflexivity|]); (split; [reflexivity|]);
    world_eq.
Qed.

Lemma appends_PresentFrame_finish (e : Externals) (skip : bool) (t : Z) (d : GPUDevice)
    (pres : PresentResult) :
  appends (PresentFrame_finish e skip t d pres).
Proof.
  unfold PresentFrame_finish, HandleExclusiveFullscreenLost.
  destruct pres;
    repeat first
      [ apply appends_HandleGPUDeviceLost
      | apply appends_ret | apply appends_get | apply appends_call
      | apply appends_modify_state | apply appends_modify; reflexivity
      | apply appends_when | apply appends_bind; [|intros] ].
Qed.

(** Whatever the present returns, a frame that is not skipped renders the UI
    and issues the present call. *)
Lemma PresentFrame_not_skipped (e : Externals) (allow : bool) (t : Z) (w : World)
    (d : GPUDevice) :
  g_gpu_device w = Some d ->
  skip_present_of e allow d (s_state w) = false ->
  match PresentFrame e allow t w with
  | Returns _ w' | Panics _ w' =>
      exists rest,
        calls w' = calls w
                   ++ RenderUI (has_backend w && System_IsValid e)
                               (has_backend w && System_IsRunning e)
                   :: present_call (has_backend w) :: rest
  | Undefined _ => True
  end.
Proof.
  intros Hd Hskip. unfold has_backend, present_call.
  destruct w as [s dev r1 r2 u last fs ui cs]. cbn in Hd, Hskip. subst dev.
  unfold PresentFrame.
  unfold deref_device, bind, get, when, call, modify_state, modify, ret.
  cbn -[PresentFrame_finish]. rewrite Hskip. cbn -[PresentFrame_finish].
  destruct (bool_decide (is_Some (gpu_backend s))) eqn:Hb; cbn -[PresentFrame_finish];
    match goal with
    | |- match PresentFrame_finish ?e ?sk ?t ?d ?p ?w0 with _ => _ end =>
        pose proof (appends_PresentFrame_finish e sk t d p w0) as Happ;
        destruct (PresentFrame_finish e sk t d p w0); [| |exact I];
        destruct Happ as [l Hl]; exists l; cbn in Hl; rewrite Hl;
        rewrite <- !app_assoc; reflexivity
    end.
Qed.

Lemma PresentFrames_all_skipped (es : list Externals) (t : Z) (w : World) (d : GPUDevice) :
  g_gpu_device w = Some d ->
  Forall (fun e => ShouldSkipPresentingFrame e = true) es ->
  0 <= skipped_present_count (s_state w) ->
  skipped_present_count (s_state w) + Z.of_nat (length es) <= MAX_SKIPPED_PRESENT_COUNT ->
  exists w' added,
    PresentFrames es true t w = Returns tt w'
    /\ skipped_present_count (s_state w')
       = skipped_present_count (s_state w) + Z.of_nat (length es)
    /\ g_gpu_device w' = Some d
    /\ has_backend w' = has_backend w
    /\ calls w' = calls w ++ added
    /\ forallb housekeeping added = true.
Proof.
  revert w. induction es as [|e es IH]; intros w Hd Hall Hlo Hhi.
  - exists w, []. cbn. rewrite app_nil_r, Z.add_0_r. repeat split; assumption.
  - inversion Hall as [|? ? He Hes]; subst.
    cbn [length] in Hhi. unfold MAX_SKIPPED_PRESENT_COUNT in *.
    assert (Hskip : skip_present_of e true d (s_state w) = true).
    { apply skip_present_of_iff. right. unfold MAX_SKIPPED_PRESENT_COUNT.
      repeat split; [assumption|lia]. }
    pose proof (PresentFrame_skipped e true t w d Hd Hskip) as Hstep.
    set (w1 := set_calls _ _) in Hstep.
    assert (Hcount : skipped_present_count (s_state w1)
                     = skipped_present_count (s_state w) + 1).
    { subst w1. cbn. unfold Int.u32. apply Z.mod_small. lia. }
    destruct (IH w1) as (w' & added & Hrun & Hc & Hdev & Hback & Hcalls & Hhk).
    + subst w1. exact Hd.
    + assumption.
    + lia.
    + lia.
    + exists w', (ImGuiEndFrame :: ImGuiNewFrame
                  :: (if has_backend w then [RestoreDeviceContext] else []) ++ added).
      split.
      { cbn [PresentFrames]. unfold bind at 1. rewrite Hstep. exact Hrun. }
      split; [rewrite Hc, Hcount; cbn [length]; lia|].
      split; [exact Hdev|].
      split; [rewrite Hback; subst w1; reflexivity|].
      split.
      { rewrite Hcalls. subst w1. cbn. rewrite <- app_assoc. reflexivity. }
      cbn. destruct (has_backend w); cbn; exact Hhk.
Qed.

(** C4, as the code has it: a frame is skipped exactly when the device has
    no main swap chain, or skipping is allowed, the swap chain asks for it
    and fewer than 50 frames went unpresented in a row; a skipped frame
    renders and presents nothing; a successful present resets the counter;
    and with a swap chain and the counter at 0, of 51 calls with
    [allow_skip_present] and the swap chain always asking to skip, the first
    50 are skipped and the 51st is rendered and presented. *)
Theorem PresentFrame_skips_at_most_50_in_a_row :
  MAX_SKIPPED_PRESENT_COUNT = 50
  /\ (forall e allow d s,
        skip_present_of e allow d s = true
        <-> HasMainSwapChain d = false
            \/ (allow = true /\ ShouldSkipPresentingFrame e = true
                /\ skipped_present_count s < 50))
  /\ (forall e allow t w d,
        g_gpu_device w = Some d ->
        skip_present_of e allow d (s_state w) = true ->
        exists w' added,
          PresentFrame e allow t w = Returns tt w'
          /\ calls w' = calls w ++ added /\ forallb housekeeping added = true)
  /\ (forall e allow t w d,
        g_gpu_device w = Some d ->
        skip_present_of e allow d (s_state w) = false ->
        present_result e = PresentOK ->
        exists w' rest,
          PresentFrame e allow t w = Returns tt w'
          /\ skipped_present_count (s_state w') = 0
          /\ calls w' = calls w
                        ++ RenderUI (has_backend w && System_IsValid e)
                                    (has_backend w && System_IsRunning e)
                        :: present_call (has_backend w) :: RenderImGui :: rest)
  /\ (forall es e51 t w d,
        g_gpu_device w = Some d ->
        HasMainSwapChain d = true ->
        skipped_present_count (s_state w) = 0 ->
        length es = 50%nat ->
        Forall (fun e => ShouldSkipPresentingFrame e = true) es ->
        ShouldSkipPresentingFrame e51 = true ->
        exists w50 added,
          PresentFrames es true t w = Returns tt w50
          /\ calls w50 = calls w ++ added /\ forallb housekeeping added = true
          /\ skipped_present_count (s_state w50) = 50
          /\ skip_present_of e51 true d (s_state w50) = false
          /\ match PresentFrame e51 true t w50 with
             | Returns _ w51 | Panics _ w51 =>
                 exists rest,
                   calls w51 = calls w50
                               ++ RenderUI (has_backend w50 && System_IsValid e51)
                                           (has_backend w50 && System_IsRunning e51)
                               :: present_call (has_backend w50) :: rest
             | Undefined _ => True
             end).
Proof.
  split; [reflexivity|]. split; [exact skip_present_of_iff|]. split.
  { intros e allow t w d Hd Hskip.
    rewrite (PresentFrame_skipped e allow t w d Hd Hskip).
    eexists. eexists. split; [reflexivity|]. split; [reflexivity|].
    destruct (has_backend w); reflexivity. }
  split; [exact PresentFrame_presented_ok|].
  intros es e51 t w d Hd Hsc H0 Hlen Hall H51.
  destruct (PresentFrames_all_skipped es t w d Hd Hall) as
    (w50 & added & Hrun & Hc & Hdev & Hback & Hcalls & Hhk).
  { lia. }
  { rewrite H0, Hlen. unfold MAX_SKIPPED_PRESENT_COUNT. lia. }
  rewrite H0, Hlen in Hc. cbn in Hc.
  assert (Hns : skip_present_of e51 true d (s_state w50) = false).
  { unfold skip_present_of. rewrite Hsc, H51, Hc. reflexivity. }
  exists w50, added. repeat (split; [assumption|]).
  exact (PresentFrame_not_skipped e51 true t w50 d Hdev Hns).
Qed.

(** C4 as stated fails when the device has no main swap chain: the frame is
    skipped although the swap chain signals nothing. *)
Lemma PresentFrame_skips_without_swap_chain :
  ShouldSkipPresentingFrame (Scenario.host 1 false PresentOK true Scenario.init_ok) = false
  /\ skipped_present_count (s_state Scenario.running) = 0
  /\ exists w',
       PresentFrame (Scenario.host 1 false PresentOK true Scenario.init_ok) false 0
         (set_g_gpu_device (Some (mkDevice API_Vulkan false false false false))
            Scenario.running)
       = Returns tt w'
       /\ calls w' = [ImGuiEndFrame; ImGuiNewFrame; RestoreDeviceContext]
       /\ skipped_present_count (s_state w') = 1.
Proof.
  split; [reflexivity|]. split; [reflexivity|].
  eexists. split; [vm_compute; reflexivity|]. split; reflexivity.
Qed.

End Present.

(** ** Backend creation and device loss *)

Section Recovery.

Import GPUThread Notions.
Local Open Scope worker_scope.

Lemma Qle_bool_false_of_lt (x y : Q) : (y < x)%Q -> Qle_bool x y = false.
Proof.
  intros Hlt. destruct (Qle_bool x y) eqn:Hle; [|reflexivity].
  apply Qle_bool_iff in Hle. exfalso. exact (Qlt_not_le _ _ Hlt Hle).
Qed.

Lemma Qle_bool_true_of_le (x y : Q) : (x <= y)%Q -> Qle_bool x y = true.
Proof. intros Hle. apply Qle_bool_iff. exact Hle. Qed.

(** C6: when a hardware renderer is asked for and its backend fails to
    initialise, [CreateGPUBackendOnThread] shows the OSD message, records
    Software as the requested renderer, creates and initialises the software
    backend, and returns what that initialisation returned: [false], with
    the error handed back, exactly when the software backend fails too. *)
Theorem CreateGPUBackendOnThread_falls_back_to_software (e : Externals)
    (renderer r0 : GPURenderer) (upload : bool) (w : World) (d : GPUDevice) :
  renderer <> Software ->
  requested_renderer (s_state w) = Some r0 ->
  g_gpu_device w = Some d ->
  fst (Backend_Initialize e HardwareBackend upload) = false ->
  let sw := Backend_Initialize e SoftwareBackend upload in
  exists w',
    CreateGPUBackendOnThread e renderer upload w
    = Returns (fst sw, if fst sw then None else Some (snd sw)) w'
    /\ gpu_backend (s_state w') = Some SoftwareBackend
    /\ requested_renderer (s_state w') = Some Software
    /\ calls w'
       = calls w
         ++ [CreateBackend HardwareBackend; BackendInitialize HardwareBackend upload;
             AddIconOSDMessage "GPUBackendCreationFailed";
             CreateBackend SoftwareBackend; BackendInitialize SoftwareBackend upload]
         ++ (if fst sw then [UpdateDebugWindowConfig] else []).
Proof.
  intros Hhw Hreq Hd Hfail. cbv zeta.
  destruct w as [s dev r1 r2 u last fs ui cs]. cbn in Hreq, Hd. subst dev.
  unfold CreateGPUBackendOnThread.
  rewrite (bool_decide_eq_false_2 _ Hhw). cbn [negb backend_of].
  destruct (Backend_Initialize e HardwareBackend upload) as [ok1 err1].
  cbn in Hfail. subst ok1.
  worker_eval. rewrite Hreq. cbn.
  destruct (Backend_Initialize e SoftwareBackend upload) as [ok2 err2].
  destruct ok2; cbn; eexists; (split; [reflexivity|]); cbn;
    (split; [reflexivity|]); (split; [reflexivity|]); world_eq.
Qed.

Lemma CreateGPUBackendOnThread_falls_back_to_software_witness :
  let e := Scenario.host 1 false PresentOK true Scenario.init_hw_fails in
  let sw := Backend_Initialize e SoftwareBackend true in
  exists w',
    CreateGPUBackendOnThread e HardwareVulkan true Scenario.running
    = Returns (fst sw, if fst sw then None else Some (snd sw)) w'
    /\ gpu_backend (s_state w') = Some SoftwareBackend
    /\ requested_renderer (s_state w') = Some Software
    /\ calls w'
       = calls Scenario.running
         ++ [CreateBackend HardwareBackend; BackendInitialize HardwareBackend true;
             AddIconOSDMessage "GPUBackendCreationFailed";
             CreateBackend SoftwareBackend; BackendInitialize SoftwareBackend true]
         ++ (if fst sw then [UpdateDebugWindowConfig] else []).
Proof.
  apply (CreateGPUBackendOnThread_falls_back_to_software
           (Scenario.host 1 false PresentOK true Scenario.init_hw_fails)
           HardwareVulkan HardwareVulkan true Scenario.running
           (Scenario.device API_Vulkan)).
  - discriminate.
  - reflexivity.
  - reflexivity.
  - reflexivity.
Defined.

(** Without a failure there is no fallback: the requested backend stays. *)
Lemma CreateGPUBackendOnThread_first_choice (e : Externals) (renderer : GPURenderer)
    (upload : bool) (w : World) (d : GPUDevice) :
  g_gpu_device w = Some d ->
  let b := backend_of (negb (bool_decide (renderer = Software))) in
  fst (Backend_Initialize e b upload) = true ->
  CreateGPUBackendOnThread e renderer upload w
  = Returns (true, None)
      (set_calls (calls w ++ [CreateBackend b; BackendInitialize b upload;
                              UpdateDebugWindowConfig])
         (set_g_gpu_device
            (Some (SetGPUTimingEnabled (g_settings_display_show_gpu_usage w) d))
            (set_s_state (set_gpu_backend (Some b) (s_state w)) w))).
Proof.
  intros Hd b Hok.
  destruct w as [s dev r1 r2 u last fs ui cs]. cbn in Hd. subst dev.
  unfold CreateGPUBackendOnThread. fold b.
  destruct (Backend_Initialize e b upload) as [ok1 err1]. cbn in Hok. subst ok1.
  worker_eval. world_eq.
Qed.

(** A software backend that fails to initialise has nothing to fall back
    to. *)
Lemma CreateGPUBackendOnThread_software_fails (e : Externals) (upload : bool) (w : World) :
  fst (Backend_Initialize e SoftwareBackend upload) = false ->
  exists w',
    CreateGPUBackendOnThread e Software upload w
    = Returns (false, Some (snd (Backend_Initialize e SoftwareBackend upload))) w'
    /\ calls w' = calls w ++ [CreateBackend SoftwareBackend;
                              BackendInitialize SoftwareBackend upload].
Proof.
  intros Hfail.
  unfold CreateGPUBackendOnThread. cbn [bool_decide decide_rel negb backend_of].
  rewrite bool_decide_eq_true_2 by reflexivity. cbn [negb backend_of].
  destruct (Backend_Initialize e SoftwareBackend upload) as [ok1 err1].
  cbn in Hfail. subst ok1.
  worker_eval. eexists. split; [reflexivity|]. world_eq.
Qed.

(** The handler refuses a loss that follows the previous recovery too
    closely. *)
Lemma HandleGPUDeviceLost_too_soon (e : Externals) (w : World) :
  s_last_gpu_reset_time w <> 0 ->
  (ConvertValueToSeconds e (Int.u64 (GetCurrentValue e - s_last_gpu_reset_time w)) < 15)%Q ->
  HandleGPUDeviceLost e w
  = Panics "Host GPU lost too many times, device is probably completely wedged." w.
Proof.
  intros Hlast Hsoon. unfold HandleGPUDeviceLost. worker_eval.
  apply Z.eqb_neq in Hlast. rewrite Hlast. cbn.
  unfold MIN_TIME_BETWEEN_RESETS. rewrite (Qle_bool_false_of_lt _ _ Hsoon). reflexivity.
Qed.

(** The first loss, or one that comes after the minimum interval: backend
    and device are destroyed and re-created from what was requested, with
    the fullscreen state the host had, and the warning is shown. *)
Lemma HandleGPUDeviceLost_recovers (e : Externals) (w : World) (d d' : GPUDevice)
    (b : Backend) (r : GPURenderer) :
  s_last_gpu_reset_time w = 0
  \/ (15 <= ConvertValueToSeconds e (Int.u64 (GetCurrentValue e - s_last_gpu_reset_time w)))%Q ->
  g_gpu_device w = Some d ->
  gpu_backend (s_state w) = Some b ->
  requested_renderer (s_state w) = Some r ->
  device_create e (GetRenderAPIForRenderer e r) (Host_IsFullscreen w) = Some d' ->
  ImGuiManager_Initialize e = true ->
  (requested_fullscreen_ui (s_state w) = true -> FullscreenUI_Initialize e = true) ->
  let b' := backend_of (negb (bool_decide (r = Software))) in
  fst (Backend_Initialize e b' true) = true ->
  HandleGPUDeviceLost e w = Returns tt (recovered e w d d' b b' r).
Proof.
  intros Hwin Hd Hb Hreq Hcreate Himgui Hfsui b' Hinit.
  destruct w as [s dev r1 r2 u last fs ui cs]. cbn in *. subst dev.
  assert (Hgate : negb (last =? 0)
                  && negb (Qle_bool MIN_TIME_BETWEEN_RESETS
                             (ConvertValueToSeconds e (Int.u64 (GetCurrentValue e - last))))
                  = false).
  { destruct Hwin as [->|Hle]; [reflexivity|].
    unfold MIN_TIME_BETWEEN_RESETS. rewrite (Qle_bool_true_of_le _ _ Hle).
    apply andb_false_r. }
  unfold HandleGPUDeviceLost. unfold bind at 1. unfold get at 1. cbn beta iota.
  cbn [s_last_gpu_reset_time]. rewrite Hgate.
  unfold DestroyGPUBackendOnThread, DestroyDeviceOnThread, CreateDeviceOnThread.
  unfold deref_device, bind, get, when, call, modify_state, modify, ret, Panic.
  cbn -[CreateGPUBackendOnThread]. rewrite Hb. cbn -[CreateGPUBackendOnThread].
  assert (Hfs : negb (ImGuiManager_Initialize e)
                || requested_fullscreen_ui s && negb (FullscreenUI_Initialize e) = false).
  { rewrite Himgui. cbn. destruct (requested_fullscreen_ui s); [|reflexivity].
    rewrite Hfsui by reflexivity. reflexivity. }
  unfold recovered, recovery_calls.
  destruct (HasMainSwapChain d); cbn -[CreateGPUBackendOnThread]; rewrite Hreq;
    cbn -[CreateGPUBackendOnThread]; rewrite Hcreate; cbn -[CreateGPUBackendOnThread];
    rewrite Hfs; cbn -[CreateGPUBackendOnThread];
    destruct (requested_fullscreen_ui s) eqn:Hui; cbn -[CreateGPUBackendOnThread].
  all: match goal with
       | |- context [CreateGPUBackendOnThread ?e0 ?r0 true ?w0] =>
           rewrite (CreateGPUBackendOnThread_first_choice e0 r0 true w0 d' eq_refl Hinit)
       end.
  all: cbn; unfold set_gpu_backend; cbn; rewrite ?Hui; world_eq.
Qed.

(** A present that is not skipped and reports [DeviceLost] counts the
    failure and hands over to the handler. *)
Lemma PresentFrame_device_lost (e : Externals) (allow : bool) (t : Z) (w : World)
    (d : GPUDevice) :
  g_gpu_device w = Some d ->
  skip_present_of e allow d (s_state w) = false ->
  present_result e = DeviceLost ->
  PresentFrame e allow t w
  = match HandleGPUDeviceLost e (after_failed_present e w) with
    | Returns _ w' =>
        Returns tt
          (set_calls (calls w' ++ ImGuiEndFrame :: ImGuiNewFrame
                        :: (if has_backend w' then [RestoreDeviceContext] else [])) w')
    | Panics msg w' => Panics msg w'
    | Undefined what => Undefined what
    end.
Proof.
  intros Hd Hskip Hres. unfold after_failed_present, has_backend, present_call.
  destruct w as [s dev r1 r2 u last fs ui cs]. cbn in Hd, Hskip. subst dev.
  unfold PresentFrame, PresentFrame_finish.
  unfold deref_device, bind, get, when, call, modify_state, modify, ret.
  cbn -[HandleGPUDeviceLost]. rewrite Hskip. cbn -[HandleGPUDeviceLost].
  destruct (bool_decide (is_Some (gpu_backend s))) eqn:Hb; cbn -[HandleGPUDeviceLost];
    rewrite Hres; cbn -[HandleGPUDeviceLost];
    match goal with
    | |- context [HandleGPUDeviceLost e ?w0] =>
        match goal with
        | |- _ = match HandleGPUDeviceLost e ?w1 with _ => _ end =>
            replace w1 with w0 by (unfold set_s_state, set_calls; cbn;
                                   rewrite <- ?app_assoc; reflexivity)
        end;
        destruct (HandleGPUDeviceLost e w0) as [[] w'|msg w'|what]; cbn; try reflexivity;
        destruct (bool_decide (is_Some (gpu_backend (s_state w')))); cbn; world_eq
    end.
Qed.

(** C5: the first [DeviceLost] a present reports makes the worker destroy
    the backend and the device, re-create the device for the requested
    renderer with the fullscreen state the host is in and the backend with
    the VRAM uploaded, and show the warning; a second [DeviceLost] less than
    15 seconds after that recovery aborts the process with its diagnostic.
    Stated for a re-creation that succeeds and a clock that does not read 0
    at the first loss (0 is how the handler remembers that it never ran). *)
Theorem device_loss_recovers_once_per_15_seconds
    (e1 e2 : Externals) (allow allow2 : bool) (t t2 : Z) (w : World) (d d' : GPUDevice)
    (b : Backend) (r : GPURenderer) :
  (* a present of a running system reports the first loss *)
  g_gpu_device w = Some d ->
  gpu_backend (s_state w) = Some b ->
  requested_renderer (s_state w) = Some r ->
  skip_present_of e1 allow d (s_state w) = false ->
  present_result e1 = DeviceLost ->
  s_last_gpu_reset_time w = 0 ->
  GetCurrentValue e1 <> 0 ->
  (* re-creating the device and the backend succeeds *)
  device_create e1 (GetRenderAPIForRenderer e1 r) (Host_IsFullscreen w) = Some d' ->
  ImGuiManager_Initialize e1 = true ->
  (requested_fullscreen_ui (s_state w) = true -> FullscreenUI_Initialize e1 = true) ->
  let b' := backend_of (negb (bool_decide (r = Software))) in
  fst (Backend_Initialize e1 b' true) = true ->
  (* the next present that is not skipped reports a loss again *)
  present_result e2 = DeviceLost ->
  let w1 := recovered e1 (after_failed_present e1 w) d d' b b' r in
  let w1' := set_calls (calls w1 ++ [ImGuiEndFrame; ImGuiNewFrame; RestoreDeviceContext]) w1 in
  skip_present_of e2 allow2 (SetGPUTimingEnabled (g_settings_display_show_gpu_usage w) d')
    (s_state w1') = false ->
  let elapsed := ConvertValueToSeconds e2 (Int.u64 (GetCurrentValue e2 - GetCurrentValue e1)) in
  PresentFrame e1 allow t w = Returns tt w1'
  /\ calls w1'
     = calls w
       ++ [RenderUI (System_IsValid e1) (System_IsRunning e1); PresentDisplay]
       ++ [DestroyBackend b; DestroyDevice (GetRenderAPI d); ReleaseRenderWindow;
           CreateDeviceForAPI (GetRenderAPIForRenderer e1 r) (Host_IsFullscreen w);
           CreateBackend b'; BackendInitialize b' true; UpdateDebugWindowConfig;
           AddIconOSDWarning "HostGPUDeviceLost"]
       ++ [ImGuiEndFrame; ImGuiNewFrame; RestoreDeviceContext]
  /\ gpu_backend (s_state w1') = Some b'
  /\ g_gpu_device w1'
     = Some (SetGPUTimingEnabled (g_settings_display_show_gpu_usage w) d')
  /\ ((elapsed < 15)%Q ->
      PresentFrame e2 allow2 t2 w1'
      = Panics "Host GPU lost too many times, device is probably completely wedged."
          (after_failed_present e2 w1')).
Proof.
  intros Hd Hb Hreq Hskip Hres Hlast Hclock Hcreate Himgui Hfsui b' Hinit Hres2 w1 w1'
    Hskip2 elapsed.
  assert (Hsc : HasMainSwapChain d = true).
  { unfold skip_present_of in Hskip. apply orb_false_elim in Hskip as [Hsc _].
    apply negb_false_iff in Hsc. exact Hsc. }
  assert (Hhb : has_backend w = true).
  { unfold has_backend. rewrite Hb. reflexivity. }
  assert (Hfirst : PresentFrame e1 allow t w = Returns tt w1').
  { rewrite (PresentFrame_device_lost e1 allow t w d Hd Hskip Hres).
    rewrite (HandleGPUDeviceLost_recovers e1 (after_failed_present e1 w) d d' b r);
      try assumption; try (left; exact Hlast); reflexivity. }
  split; [exact Hfirst|].
  split.
  { subst w1' w1. unfold recovered, recovery_calls, after_failed_present, present_call.
    cbn. rewrite Hhb, Hsc. cbn. rewrite <- !app_assoc. reflexivity. }
  split; [reflexivity|]. split; [reflexivity|].
  intros Hsoon.
  rewrite (PresentFrame_device_lost e2 allow2 t2 w1' _ eq_refl Hskip2 Hres2).
  rewrite HandleGPUDeviceLost_too_soon; [reflexivity| |exact Hsoon].
  exact Hclock.
Qed.

Lemma device_loss_recovers_once_per_15_seconds_witness :
  let e1 := Scenario.host 1000000000 false DeviceLost true Scenario.init_ok in
  let e2 := Scenario.host 6000000000 false DeviceLost true Scenario.init_ok in
  exists w1,
    PresentFrame e1 true 0 Scenario.running = Returns tt w1
    /\ calls w1
       = [RenderUI true true; PresentDisplay;
          DestroyBackend HardwareBackend; DestroyDevice API_Vulkan; ReleaseRenderWindow;
          CreateDeviceForAPI API_Vulkan false;
          CreateBackend HardwareBackend; BackendInitialize HardwareBackend true;
          UpdateDebugWindowConfig; AddIconOSDWarning "HostGPUDeviceLost";
          ImGuiEndFrame; ImGuiNewFrame; RestoreDeviceContext]
    /\ PresentFrame e2 true 0 w1
       = Panics "Host GPU lost too many times, device is probably completely wedged."
           (after_failed_present e2 w1).
Proof.
  cbv zeta.
  destruct (device_loss_recovers_once_per_15_seconds
              (Scenario.host 1000000000 false DeviceLost true Scenario.init_ok)
              (Scenario.host 6000000000 false DeviceLost true Scenario.init_ok)
              true true 0 0 Scenario.running
              (Scenario.device API_Vulkan) (Scenario.device API_Vulkan)
              HardwareBackend HardwareVulkan)
    as (Hfirst & Hcalls & _ & _ & Hsecond);
    try reflexivity; try discriminate.
  eexists. split; [exact Hfirst|]. split; [exact Hcalls|].
  apply Hsecond. reflexivity.
Defined.

End Recovery.

(** ** Display readout of the software backend *)

Section Readout15.

Import GPU_SW.

Lemma vram_load_out_of_bounds (g_vram : VRAM) (i : Z) :
  VRAM_WIDTH * VRAM_HEIGHT <= i -> vram_load g_vram i = None.
Proof.
  intros Hi. unfold vram_load.
  destruct (Z.ltb_spec i (VRAM_WIDTH * VRAM_HEIGHT)); [lia|].
  rewrite andb_false_r. reflexivity.
Qed.

Lemma load_words_out_of_bounds (g_vram : VRAM) (p : Z) (n : nat) :
  VRAM_WIDTH * VRAM_HEIGHT <= p -> (0 < n)%nat -> load_words g_vram p n = None.
Proof.
  intros Hp Hn. destruct n as [|n]; [lia|].
  cbn [load_words]. rewrite vram_load_out_of_bounds by exact Hp. reflexivity.
Qed.

Lemma AlignDownPow2_nonneg (value alignment : Z) :
  0 <= value -> 0 <= AlignDownPow2 value alignment.
Proof. intros Hv. unfold AlignDownPow2. apply Z.land_nonneg. left. exact Hv. Qed.

(** A row that starts past the end of [g_vram] cannot be read. *)
Lemma CopyOutRow16_out_of_bounds (f : Format) (g_vram : VRAM) (src_ptr width : Z) :
  VRAM_WIDTH * VRAM_HEIGHT <= src_ptr -> 0 < width ->
  CopyOutRow16 f g_vram src_ptr width = None.
Proof.
  intros Hp Hw. unfold CopyOutRow16.
  set (aligned_width := match f with
                        | RGBA5551 | RGB565 => AlignDownPow2 width 8
                        | _ => 0
                        end).
  assert (Ha : 0 <= aligned_width).
  { subst aligned_width. destruct f; try lia; apply AlignDownPow2_nonneg; lia. }
  destruct (Z.eq_dec aligned_width 0) as [Hz|Hnz].
  - rewrite Hz. cbn [Z.to_nat load_words]. cbn [mbind option_bind].
    rewrite Z.add_0_r, Z.sub_0_r.
    rewrite load_words_out_of_bounds; [reflexivity|exact Hp|lia].
  - rewrite (load_words_out_of_bounds g_vram src_ptr (Z.to_nat aligned_width));
      [reflexivity|exact Hp|lia].
Qed.

(** The row loop of the fast path fails as soon as one of its rows does. *)
Lemma CopyOut15Bit_fast_rows_None (f : Format) (g_vram : VRAM) (src_step width : Z)
    (k rows : nat) (src_ptr : Z) :
  (k < rows)%nat ->
  CopyOutRow16 f g_vram (src_ptr + Z.of_nat k * src_step) width = None ->
  CopyOut15Bit_fast_rows f g_vram src_ptr src_step width rows = None.
Proof.
  revert rows src_ptr. induction k as [|k IH]; intros rows src_ptr Hk Hrow.
  - destruct rows as [|rows]; [lia|]. cbn [CopyOut15Bit_fast_rows].
    replace (src_ptr + Z.of_nat 0 * src_step) with src_ptr in Hrow by lia.
    rewrite Hrow. reflexivity.
  - destruct rows as [|rows]; [lia|]. cbn [CopyOut15Bit_fast_rows].
    destruct (CopyOutRow16 f g_vram src_ptr width) as [row|]; [|reflexivity].
    cbn [mbind option_bind].
    rewrite (IH rows (src_ptr + src_step)); [reflexivity|lia|].
    replace (src_ptr + src_step + Z.of_nat k * src_step)
      with (src_ptr + Z.of_nat (S k) * src_step) by lia.
    exact Hrow.
Qed.

(** The fast-path guard does not account for the doubled row step of an
    interleaved readout: when the last row [src_y + 2*(height-1)] lies
    outside the 512 rows, the fast path reads past the end of [g_vram]. *)
Lemma CopyOut15Bit_interleaved_out_of_bounds (f : Format) (g_vram : VRAM)
    (src_x src_y width height : Z) :
  0 <= src_x -> 0 < width -> src_x + width <= VRAM_WIDTH ->
  0 <= src_y -> 0 < height -> src_y + height <= VRAM_HEIGHT ->
  VRAM_HEIGHT <= src_y + 2 * (height - 1) ->
  CopyOut15Bit f g_vram src_x src_y width height 1 = None.
Proof.
  unfold VRAM_WIDTH, VRAM_HEIGHT. intros Hx Hw Hxw Hy Hh Hyh Hlast.
  unfold CopyOut15Bit, Int.u32, VRAM_WIDTH, VRAM_HEIGHT.
  rewrite (Z.mod_small (src_x + width)) by lia.
  rewrite (Z.mod_small (src_y + height)) by lia.
  destruct (Z.leb_spec (src_x + width) 1024); [|lia].
  destruct (Z.leb_spec (src_y + height) 512); [|lia].
  cbn [andb]. rewrite (Z.mod_small (src_y * 1024 + src_x)) by lia.
  change (Z.shiftl 1024 1 mod 2 ^ 32) with 2048.
  apply (CopyOut15Bit_fast_rows_None f g_vram 2048 width (Z.to_nat (height - 1))).
  - lia.
  - apply CopyOutRow16_out_of_bounds; [|exact Hw].
    unfold VRAM_WIDTH, VRAM_HEIGHT. rewrite Z2Nat.id by lia. lia.
Qed.

(** C9 fails on the code: a 320x240 interleaved field read from row 256
    passes the fast-path guard (0+320 <= 1024, 256+240 <= 512), and its rows
    128..239 lie at VRAM rows 512..734, outside the array. *)
Theorem CopyOut15Bit_interleaved_field_reads_past_vram (f : Format) (g_vram : VRAM) :
  (Int.u32 (0 + 320) <=? VRAM_WIDTH) && (Int.u32 (256 + 240) <=? VRAM_HEIGHT) = true
  /\ CopyOut15Bit f g_vram 0 256 320 240 1 = None
  /\ UpdateDisplay false f f g_vram
       (mkUpdateDisplay false false true 0 true 0 0 256 320 480) = None.
Proof.
  assert (H : CopyOut15Bit f g_vram 0 256 320 240 1 = None).
  { apply CopyOut15Bit_interleaved_out_of_bounds; unfold VRAM_WIDTH, VRAM_HEIGHT; lia. }
  split; [reflexivity|]. split; [exact H|].
  unfold UpdateDisplay, CopyOut. cbn [negb display_disabled display_24bit
    interlaced_display_enabled interlaced_display_field interlaced_display_interleaved
    X display_vram_left display_vram_top display_vram_width display_vram_height andb].
  change (Int.u32 (256 + 0)) with 256. change (480 / 2) with 240.
  rewrite H. reflexivity.
Qed.

(** ** Reads that do stay inside the array *)

Lemma vram_load_in_bounds (g_vram : VRAM) (i : Z) :
  0 <= i < VRAM_WIDTH * VRAM_HEIGHT -> is_Some (vram_load g_vram i).
Proof.
  intros Hi. unfold vram_load.
  destruct (Z.leb_spec 0 i); [|lia].
  destruct (Z.ltb_spec i (VRAM_WIDTH * VRAM_HEIGHT)); [|lia].
  cbn [andb]. eexists. reflexivity.
Qed.

Lemma load_words_in_bounds (g_vram : VRAM) (n : nat) (p : Z) :
  0 <= p -> p + Z.of_nat n <= VRAM_WIDTH * VRAM_HEIGHT ->
  is_Some (load_words g_vram p n).
Proof.
  revert p. induction n as [|n IH]; intros p Hp Hn.
  - eexists. reflexivity.
  - cbn [load_words].
    destruct (vram_load_in_bounds g_vram p) as [v ->]; [lia|].
    destruct (IH (p + 1)) as [rest ->]; [lia|lia|].
    eexists. reflexivity.
Qed.

Lemma land_le (a b : Z) : 0 <= a -> Z.land a b <= a.
Proof.
  intros Ha.
  assert (Hsum : Z.ldiff a b + Z.land a b = a).
  { rewrite Z.add_nocarry_lxor, Z.lxor_lor.
    - apply Z.lor_ldiff_and.
    - rewrite (Z.land_comm a b), Z.land_assoc, Z.land_ldiff. apply Z.land_0_l.
    - rewrite (Z.land_comm a b), Z.land_assoc, Z.land_ldiff. apply Z.land_0_l. }
  assert (Hd : 0 <= Z.ldiff a b) by (apply Z.ldiff_nonneg; left; exact Ha).
  lia.
Qed.

Lemma AlignDownPow2_le (value alignment : Z) :
  0 <= value -> AlignDownPow2 value alignment <= value.
Proof. intros Hv. apply land_le. exact Hv. Qed.

(** A row of [width] words that ends inside [g_vram] is read in full. *)
Lemma CopyOutRow16_in_bounds (f : Format) (g_vram : VRAM) (src_ptr width : Z) :
  0 <= src_ptr -> 0 <= width -> src_ptr + width <= VRAM_WIDTH * VRAM_HEIGHT ->
  is_Some (CopyOutRow16 f g_vram src_ptr width).
Proof.
  intros Hp Hw Hend. unfold CopyOutRow16.
  set (aligned_width := match f with
                        | RGBA5551 | RGB565 => AlignDownPow2 width 8
                        | _ => 0
                        end).
  assert (Ha : 0 <= aligned_width <= width).
  { subst aligned_width.
    destruct f; try lia; split;
      (apply AlignDownPow2_nonneg || apply AlignDownPow2_le); lia. }
  destruct (load_words_in_bounds g_vram (Z.to_nat aligned_width) src_ptr) as [head ->];
    [lia|lia|].
  destruct (load_words_in_bounds g_vram (Z.to_nat (width - aligned_width))
              (src_ptr + aligned_width)) as [tail ->]; [lia|lia|].
  eexists. reflexivity.
Qed.

Lemma CopyOut15Bit_fast_rows_in_bounds (f : Format) (g_vram : VRAM) (src_step width : Z)
    (rows : nat) (src_ptr : Z) :
  0 <= src_ptr -> 0 <= src_step -> 0 <= width ->
  (rows = O
   \/ src_ptr + (Z.of_nat rows - 1) * src_step + width <= VRAM_WIDTH * VRAM_HEIGHT) ->
  is_Some (CopyOut15Bit_fast_rows f g_vram src_ptr src_step width rows).
Proof.
  intros Hp Hs Hw. revert src_ptr Hp. induction rows as [|rows IH]; intros src_ptr Hp Hlast.
  - eexists. reflexivity.
  - destruct Hlast as [Hlast|Hlast]; [discriminate|].
    cbn [CopyOut15Bit_fast_rows].
    destruct (CopyOutRow16_in_bounds f g_vram src_ptr width) as [row ->]; [lia|lia|nia|].
    destruct (IH (src_ptr + src_step)) as [rest ->]; [lia| |eexists; reflexivity].
    destruct rows as [|rows]; [left; reflexivity|right]. nia.
Qed.

(** What the fast path needs to stay inside [g_vram]: the last row it reads,
    [src_y + (height - 1) * 2^line_skip], is one of the 512.  For a
    progressive readout ([line_skip = 0]) that is what its guard tests. *)
Theorem CopyOut15Bit_fast_path_in_bounds (f : Format) (g_vram : VRAM)
    (src_x src_y width height line_skip : Z) :
  0 <= src_x -> 0 <= src_y -> 0 <= width -> 0 <= height -> 0 <= line_skip <= 1 ->
  src_x + width <= VRAM_WIDTH -> src_y + height <= VRAM_HEIGHT ->
  src_y + (height - 1) * 2 ^ line_skip < VRAM_HEIGHT ->
  is_Some (CopyOut15Bit f g_vram src_x src_y width height line_skip).
Proof.
  unfold VRAM_WIDTH, VRAM_HEIGHT. intros Hx Hy Hw Hh Hskip Hxw Hyh Hlast.
  unfold CopyOut15Bit, Int.u32, VRAM_WIDTH, VRAM_HEIGHT.
  rewrite (Z.mod_small (src_x + width)) by lia.
  rewrite (Z.mod_small (src_y + height)) by lia.
  destruct (Z.leb_spec (src_x + width) 1024); [|lia].
  destruct (Z.leb_spec (src_y + height) 512); [|lia].
  cbn [andb]. rewrite (Z.mod_small (src_y * 1024 + src_x)) by lia.
  assert (Hstep : Z.shiftl 1024 line_skip mod 2 ^ 32 = 1024 * 2 ^ line_skip).
  { assert (Hl : line_skip = 0 \/ line_skip = 1) by lia.
    destruct Hl as [-> | ->]; reflexivity. }
  rewrite Hstep.
  assert (Hpow : 1 <= 2 ^ line_skip <= 2).
  { assert (Hl : line_skip = 0 \/ line_skip = 1) by lia.
    destruct Hl as [-> | ->]; cbn; lia. }
  apply CopyOut15Bit_fast_rows_in_bounds; [lia|lia|lia|].
  destruct (Z.eq_dec height 0) as [->|Hnz]; [left; reflexivity|right].
  unfold VRAM_WIDTH, VRAM_HEIGHT. rewrite Z2Nat.id by lia. nia.
Qed.

Lemma CopyOut15Bit_fast_path_in_bounds_witness :
  is_Some (CopyOut15Bit RGBA8 Scenario.byte_ramp 0 256 320 128 1).
Proof.
  apply CopyOut15Bit_fast_path_in_bounds; unfold VRAM_WIDTH, VRAM_HEIGHT; lia.
Defined.

Lemma CopyOut15Bit_wrap_cols_in_bounds (f : Format) (g_vram : VRAM) (src_y : Z)
    (cols : nat) (col : Z) :
  is_Some (CopyOut15Bit_wrap_cols f g_vram ((src_y mod VRAM_HEIGHT) * VRAM_WIDTH) col cols).
Proof.
  revert col. induction cols as [|cols IH]; intros col.
  - eexists. reflexivity.
  - cbn [CopyOut15Bit_wrap_cols].
    destruct (vram_load_in_bounds g_vram (src_y mod VRAM_HEIGHT * VRAM_WIDTH + col mod VRAM_WIDTH))
      as [v ->].
    { unfold VRAM_WIDTH, VRAM_HEIGHT.
      pose proof (Z.mod_pos_bound src_y 512). pose proof (Z.mod_pos_bound col 1024). lia. }
    destruct (IH (Int.u32 (col + 1))) as [rest ->]. eexists. reflexivity.
Qed.

(** The wrapping path reduces every row and column modulo the array's
    dimensions, so all of its reads are inside [g_vram]. *)
Lemma CopyOut15Bit_wrap_rows_in_bounds (f : Format) (g_vram : VRAM) (src_x end_x y_step : Z)
    (rows : nat) (src_y : Z) :
  is_Some (CopyOut15Bit_wrap_rows f g_vram src_x end_x src_y y_step rows).
Proof.
  revert src_y. induction rows as [|rows IH]; intros src_y.
  - eexists. reflexivity.
  - cbn [CopyOut15Bit_wrap_rows].
    destruct (CopyOut15Bit_wrap_cols_in_bounds f g_vram src_y (Z.to_nat (end_x - src_x)) src_x)
      as [row ->].
    destruct (IH (Int.u32 (src_y + y_step))) as [rest ->]. eexists. reflexivity.
Qed.

End Readout15.

Section Readout24.

Import GPU_SW.

(** ** Where the wrapping path agrees with the reference

    Bit-level facts about two adjacent 16-bit words, then the pixel, the row
    and the whole readout. *)

Lemma testbit_shiftl (a n m : Z) :
  Z.testbit (Z.shiftl a n) m = (0 <=? m) && Z.testbit a (m - n).
Proof.
  destruct (Z.leb_spec 0 m) as [Hm|Hm];
    [exact (Z.shiftl_spec a n m Hm)|exact (Z.testbit_neg_r _ m Hm)].
Qed.

Lemma testbit_shiftr (a n m : Z) :
  Z.testbit (Z.shiftr a n) m = (0 <=? m) && Z.testbit a (m + n).
Proof.
  destruct (Z.leb_spec 0 m) as [Hm|Hm];
    [exact (Z.shiftr_spec a n m Hm)|exact (Z.testbit_neg_r _ m Hm)].
Qed.

(** Bit [i] of a byte mask placed at bit 0. *)
Lemma testbit_0xFF (i : Z) : Z.testbit 0xFF i = (0 <=? i) && (i <? 8).
Proof.
  change 0xFF with (Z.ones 8).
  destruct (Z.leb_spec 0 i) as [Hi|Hi]; [|exact (Z.testbit_neg_r _ i Hi)].
  destruct (Z.ltb_spec i 8) as [Hlt|Hge]; cbn [andb].
  - apply Z.ones_spec_low. lia.
  - apply Z.ones_spec_high. lia.
Qed.

(** A [u32] keeps the low 32 bits, a value below [2^16] has none above
    bit 15. *)
Lemma testbit_u32 (a i : Z) : Z.testbit (Int.u32 a) i = (i <? 32) && Z.testbit a i.
Proof.
  unfold Int.u32. destruct (Z.ltb_spec i 32) as [Hlt|Hge]; cbn [andb].
  - apply Z.mod_pow2_bits_low. exact Hlt.
  - apply Z.mod_pow2_bits_high. lia.
Qed.

Lemma testbit_u16_high (s i : Z) :
  0 <= s < 2 ^ 16 -> 16 <= i -> Z.testbit s i = false.
Proof.
  intros Hs Hi. rewrite <- (Z.mod_small s (2 ^ 16)) by exact Hs.
  apply Z.mod_pow2_bits_high. lia.
Qed.

(** Bit [i] of both sides, with every mask written as a shifted [0xFF]. *)
Ltac bits_spec :=
  change 0xFF000000 with (Z.shiftl 0xFF 24);
  change 0x00FF00 with (Z.shiftl 0xFF 8);
  repeat first
    [ rewrite Z.lor_spec
    | rewrite Z.land_spec
    | rewrite testbit_shiftl
    | rewrite testbit_shiftr
    | rewrite testbit_u32
    | rewrite testbit_0xFF ].

(** Inside one byte of the output every comparison of the index with a
    multiple of 8 is decided. *)
Ltac bits_compare :=
  repeat match goal with
         | |- context [?a <? ?b] =>
             first [ rewrite (proj2 (Z.ltb_lt a b)) by lia
                   | rewrite (proj2 (Z.ltb_ge a b)) by lia ]
         | |- context [?a <=? ?b] =>
             first [ rewrite (proj2 (Z.leb_le a b)) by lia
                   | rewrite (proj2 (Z.leb_gt a b)) by lia ]
         end.

Ltac bits_index :=
  repeat match goal with
         | |- context [Z.testbit ?s ?k] =>
             first [ rewrite (Z.testbit_neg_r s k) by lia
                   | match goal with
                     | H : 0 <= s < 2 ^ 16 |- _ => rewrite (testbit_u16_high s k H) by lia
                     end
                   | progress (ring_simplify k) ]
         end.

Ltac bits_bytes i :=
  destruct (Z_lt_le_dec i 8);
    [|destruct (Z_lt_le_dec i 16);
       [|destruct (Z_lt_le_dec i 24);
          [|destruct (Z_lt_le_dec i 32)]]].

Ltac bits :=
  apply Z.bits_inj'; intros i Hi; bits_spec; bits_bytes i;
  bits_compare; cbn [negb andb orb]; bits_index; try btauto.

Lemma rgba8_even (s0 s1 : Z) :
  0 <= s0 < 2 ^ 16 -> 0 <= s1 < 2 ^ 16 ->
  Z.lor (Z.shiftr (Z.lor (Z.shiftl s1 16) s0) 0) 0xFF000000
  = Convert24 RGBA8 (Z.land s0 0xFF) (Z.shiftr s0 8) (Z.land s1 0xFF).
Proof.
  intros H0 H1. unfold Convert24. bits.
Qed.

Lemma rgba8_odd (s0 s1 : Z) :
  0 <= s0 < 2 ^ 16 -> 0 <= s1 < 2 ^ 16 ->
  Z.lor (Z.shiftr (Z.lor (Z.shiftl s1 16) s0) 8) 0xFF000000
  = Convert24 RGBA8 (Z.shiftr s0 8) (Z.land s1 0xFF) (Z.shiftr s1 8).
Proof. intros H0 H1. unfold Convert24. bits. Qed.

Lemma bgra8_even (s0 s1 : Z) :
  0 <= s0 < 2 ^ 16 -> 0 <= s1 < 2 ^ 16 ->
  let rgb := Z.shiftr (Z.lor (Z.shiftl s1 16) s0) 0 in
  Z.lor (Z.lor (Z.lor (Z.land rgb 0x00FF00) (Int.u32 (Z.shiftl (Z.land rgb 0xFF) 16)))
               (Z.land (Z.shiftr rgb 16) 0xFF))
        0xFF000000
  = Convert24 BGRA8 (Z.land s0 0xFF) (Z.shiftr s0 8) (Z.land s1 0xFF).
Proof. intros H0 H1 rgb. subst rgb. unfold Convert24. bits. Qed.

Lemma bgra8_odd (s0 s1 : Z) :
  0 <= s0 < 2 ^ 16 -> 0 <= s1 < 2 ^ 16 ->
  let rgb := Z.shiftr (Z.lor (Z.shiftl s1 16) s0) 8 in
  Z.lor (Z.lor (Z.lor (Z.land rgb 0x00FF00) (Int.u32 (Z.shiftl (Z.land rgb 0xFF) 16)))
               (Z.land (Z.shiftr rgb 16) 0xFF))
        0xFF000000
  = Convert24 BGRA8 (Z.shiftr s0 8) (Z.land s1 0xFF) (Z.shiftr s1 8).
Proof. intros H0 H1 rgb. subst rgb. unfold Convert24. bits. Qed.

Lemma vram_load_u16 (g_vram : VRAM) (index s : Z) :
  vram_load g_vram index = Some s -> 0 <= s < 2 ^ 16.
Proof.
  unfold vram_load. destruct (_ && _); [|discriminate].
  intros [= <-]. unfold Int.u16. apply Z.mod_pos_bound. lia.
Qed.

Lemma row_byte_even (g_vram : VRAM) (src_row_ptr k : Z) :
  row_byte g_vram src_row_ptr (2 * k)
  = s ← vram_load g_vram (src_row_ptr + k mod VRAM_WIDTH); Some (Z.land s 0xFF).
Proof.
  unfold row_byte, vram_load_u8, VRAM_WIDTH.
  replace ((2 * k) mod (1024 * 2)) with (2 * (k mod 1024))
    by (change (1024 * 2) with (2 * 1024); rewrite Z.mul_mod_distr_l by lia; reflexivity).
  replace (src_row_ptr * 2 + 2 * (k mod 1024)) with (2 * (src_row_ptr + k mod 1024)) by lia.
  rewrite Z.even_mul. cbn [Z.even orb].
  replace (2 * (src_row_ptr + k mod 1024) / 2) with (src_row_ptr + k mod 1024)
    by (rewrite Z.mul_comm, Z.div_mul by lia; reflexivity).
  reflexivity.
Qed.

Lemma row_byte_odd (g_vram : VRAM) (src_row_ptr k : Z) :
  row_byte g_vram src_row_ptr (2 * k + 1)
  = s ← vram_load g_vram (src_row_ptr + k mod VRAM_WIDTH); Some (Z.shiftr s 8).
Proof.
  unfold row_byte, vram_load_u8, VRAM_WIDTH.
  replace ((2 * k + 1) mod (1024 * 2)) with (2 * (k mod 1024) + 1).
  2:{ apply Z.mod_unique with (q := k / 1024).
      - left. pose proof (Z.mod_pos_bound k 1024). lia.
      - pose proof (Z.div_mod k 1024). lia. }
  replace (src_row_ptr * 2 + (2 * (k mod 1024) + 1))
    with (1 + 2 * (src_row_ptr + k mod 1024)) by lia.
  rewrite Z.even_add_mul_2. cbn [Z.even].
  replace ((1 + 2 * (src_row_ptr + k mod 1024)) / 2) with (src_row_ptr + k mod 1024).
  2:{ apply Z.div_unique with (r := 1); lia. }
  reflexivity.
Qed.

Lemma CopyOut24Bit_wrap_pixel_32bit (f : Format) (g_vram : VRAM)
    (src_row_ptr src_x skip_x col : Z) :
  f = RGBA8 \/ f = BGRA8 ->
  Z.even skip_x = true ->
  0 <= src_x -> 0 <= skip_x -> 0 <= col ->
  src_x + (skip_x + col) * 3 + 1 < 2 ^ 32 ->
  CopyOut24Bit_wrap_pixel f g_vram src_row_ptr src_x skip_x col
  = naive_24bit_pixel f g_vram src_row_ptr src_x skip_x col.
Proof.
  intros Hf Hskip Hx Hs Hc Hb.
  unfold CopyOut24Bit_wrap_pixel, naive_24bit_pixel.
  assert (Hland : Z.land col 1 = col mod 2) by (apply (Z.land_ones col 1); lia).
  rewrite Hland.
  destruct (Z.even col) eqn:Hcol.
  - assert (Hn : Z.even (skip_x + col) = true) by (rewrite Z.even_add, Hskip, Hcol; reflexivity).
    apply Z.even_spec in Hn. destruct Hn as [m Hm].
    assert (Hc0 : col mod 2 = 0) by (rewrite Zmod_even, Hcol; reflexivity).
    rewrite Hc0, Hm.
    replace (Int.u32 (2 * m)) with (2 * m) by (unfold Int.u32; rewrite Z.mod_small; lia).
    replace (Int.u32 (2 * m * 3)) with (2 * (3 * m)) by (unfold Int.u32; rewrite Z.mod_small; lia).
    replace (2 * (3 * m) / 2) with (3 * m) by (apply Z.div_unique with (r := 0); lia).
    set (offset := src_x + 3 * m).
    replace (Int.u32 offset) with offset by (unfold Int.u32; rewrite Z.mod_small; lia).
    replace (Int.u32 (offset + 1)) with (offset + 1) by (unfold Int.u32; rewrite Z.mod_small; lia).
    replace (src_x * 2 + 2 * m * 3) with (2 * offset) by lia.
    replace (2 * offset + 2) with (2 * (offset + 1)) by lia.
    rewrite !row_byte_even, row_byte_odd.
    destruct (vram_load g_vram (src_row_ptr + offset mod VRAM_WIDTH)) as [s0|] eqn:H0;
      [|reflexivity].
    destruct (vram_load g_vram (src_row_ptr + (offset + 1) mod VRAM_WIDTH)) as [s1|] eqn:H1;
      [|reflexivity].
    apply vram_load_u16 in H0, H1. cbn [mbind option_bind].
    change (Int.u8 0 * 8) with 0.
    destruct Hf as [-> | ->]; f_equal.
    + apply rgba8_even; assumption.
    + apply bgra8_even; assumption.
  - assert (Hn : Z.odd (skip_x + col) = true).
    { rewrite Z.odd_add, <- !Z.negb_even, Hskip, Hcol. reflexivity. }
    apply Z.odd_spec in Hn. destruct Hn as [m Hm].
    assert (Hc1 : col mod 2 = 1) by (rewrite Zmod_even, Hcol; reflexivity).
    rewrite Hc1, Hm.
    replace (Int.u32 (2 * m + 1)) with (2 * m + 1) by (unfold Int.u32; rewrite Z.mod_small; lia).
    replace (Int.u32 ((2 * m + 1) * 3)) with (1 + (3 * m + 1) * 2)
      by (unfold Int.u32; rewrite Z.mod_small; lia).
    replace ((1 + (3 * m + 1) * 2) / 2) with (3 * m + 1)
      by (apply Z.div_unique with (r := 1); lia).
    set (offset := src_x + (3 * m + 1)).
    replace (Int.u32 offset) with offset by (unfold Int.u32; rewrite Z.mod_small; lia).
    replace (Int.u32 (offset + 1)) with (offset + 1) by (unfold Int.u32; rewrite Z.mod_small; lia).
    replace (src_x * 2 + (2 * m + 1) * 3) with (2 * offset + 1) by lia.
    replace (2 * offset + 1 + 1) with (2 * (offset + 1)) by lia.
    replace (2 * offset + 1 + 2) with (2 * (offset + 1) + 1) by lia.
    rewrite row_byte_even, !row_byte_odd.
    destruct (vram_load g_vram (src_row_ptr + offset mod VRAM_WIDTH)) as [s0|] eqn:H0;
      [|reflexivity].
    destruct (vram_load g_vram (src_row_ptr + (offset + 1) mod VRAM_WIDTH)) as [s1|] eqn:H1;
      [|reflexivity].
    apply vram_load_u16 in H0, H1. cbn [mbind option_bind].
    change (Int.u8 1 * 8) with 8.
    destruct Hf as [-> | ->]; f_equal.
    + apply rgba8_odd; assumption.
    + apply bgra8_odd; assumption.
Qed.

Lemma CopyOut24Bit_wrap_cols_32bit (f : Format) (g_vram : VRAM)
    (src_row_ptr src_x skip_x : Z) (cols : nat) :
  f = RGBA8 \/ f = BGRA8 ->
  Z.even skip_x = true ->
  0 <= src_x -> 0 <= skip_x ->
  forall col,
    0 <= col ->
    src_x + (skip_x + col + Z.of_nat cols) * 3 < 2 ^ 32 ->
    CopyOut24Bit_wrap_cols f g_vram src_row_ptr src_x skip_x col cols
    = naive_24bit_cols f g_vram src_row_ptr src_x skip_x col cols.
Proof.
  intros Hf Hskip Hx Hs. induction cols as [|cols IH]; intros col Hc Hb.
  - reflexivity.
  - cbn [CopyOut24Bit_wrap_cols naive_24bit_cols].
    rewrite CopyOut24Bit_wrap_pixel_32bit by (assumption || lia).
    replace (Int.u32 (col + 1)) with (col + 1) by (unfold Int.u32; rewrite Z.mod_small; lia).
    rewrite IH by lia. reflexivity.
Qed.

Lemma u32_mod_VRAM_HEIGHT (a : Z) : Int.u32 a mod VRAM_HEIGHT = a mod VRAM_HEIGHT.
Proof.
  unfold Int.u32, VRAM_HEIGHT.
  apply Z.mod_mod_divide. exists 8388608. reflexivity.
Qed.

Lemma CopyOut24Bit_wrap_rows_32bit (f : Format) (g_vram : VRAM)
    (src_x skip_x width : Z) (rows : nat) :
  f = RGBA8 \/ f = BGRA8 ->
  Z.even skip_x = true ->
  0 <= src_x -> 0 <= skip_x -> 0 <= width ->
  src_x + (skip_x + width) * 3 < 2 ^ 32 ->
  forall src_y src_y' y_step y_step',
    src_y mod VRAM_HEIGHT = src_y' mod VRAM_HEIGHT ->
    y_step mod VRAM_HEIGHT = y_step' mod VRAM_HEIGHT ->
    CopyOut24Bit_wrap_rows f g_vram src_x src_y skip_x width y_step rows
    = naive_24bit_rows f g_vram src_x src_y' skip_x width y_step' rows.
Proof.
  intros Hf Hskip Hx Hs Hw Hb. induction rows as [|rows IH]; intros y y' st st' Hy Hst.
  - reflexivity.
  - cbn [CopyOut24Bit_wrap_rows naive_24bit_rows].
    rewrite Hy.
    rewrite CopyOut24Bit_wrap_cols_32bit by (assumption || lia).
    rewrite (IH (Int.u32 (y + st)) (y' + st') st st'); [reflexivity| |exact Hst].
    rewrite u32_mod_VRAM_HEIGHT.
    rewrite (Z.add_mod y), (Z.add_mod y') by (unfold VRAM_HEIGHT; lia).
    rewrite Hy, Hst. reflexivity.
Qed.

(** Where the wrapping path of [CopyOut24Bit] is right: for the two 32-bit
    formats and an even [skip_x] it produces the reference readout, every
    pixel the packed triple at its byte offset modulo the row. *)
Theorem CopyOut24Bit_wrapping_path_32bit_even_skip (f : Format) (g_vram : VRAM)
    (src_x src_y skip_x width height line_skip : Z) :
  f = RGBA8 \/ f = BGRA8 ->
  Z.even skip_x = true ->
  0 <= src_x -> 0 <= skip_x -> 0 <= width ->
  src_x + (skip_x + width) * 3 < 2 ^ 32 ->
  (Int.u32 (src_x + width) <=? VRAM_WIDTH)
  && (Int.u32 (src_y + Int.u32 (Z.shiftl height line_skip)) <=? VRAM_HEIGHT) = false ->
  CopyOut24Bit f g_vram src_x src_y skip_x width height line_skip
  = naive_24bit f g_vram src_x src_y skip_x width height line_skip.
Proof.
  intros Hf Hskip Hx Hs Hw Hb Hwrap.
  unfold CopyOut24Bit, naive_24bit. rewrite Hwrap.
  apply CopyOut24Bit_wrap_rows_32bit; try assumption.
  - reflexivity.
  - apply u32_mod_VRAM_HEIGHT.
Qed.

Lemma CopyOut24Bit_wrapping_path_32bit_even_skip_witness :
  CopyOut24Bit RGBA8 Scenario.byte_ramp 1023 511 2 2 2 0
  = naive_24bit RGBA8 Scenario.byte_ramp 1023 511 2 2 2 0.
Proof.
  apply CopyOut24Bit_wrapping_path_32bit_even_skip;
    [left; reflexivity|reflexivity|lia|lia|lia|lia|reflexivity].
Defined.

(** C3 fails on the code.  Reading two pixels at [src_x = 1023] takes the
    wrapping path.  For the 16-bit outputs its masks [0x3E0000] and
    [0x1F0000] select bits that the 16-bit store drops, and red lands in the
    low bits where the non-wrapping path puts blue; with an odd [skip_x] the
    shift follows the parity of [col] although the sample starts at an odd
    byte when [skip_x + col] is odd.  The reference reads the bytes of the
    ramp in order. *)
Theorem CopyOut24Bit_wrapping_path_differs_from_reference :
  (* RGB565, skip_x = 0 *)
  CopyOut24Bit RGB565 Scenario.byte_ramp 1023 0 0 2 1 0 = Some [[0x07FF; 0]]
  /\ naive_24bit RGB565 Scenario.byte_ramp 1023 0 0 2 1 0 = Some [[0xFFE0; 0]]
  (* RGBA5551, skip_x = 0 *)
  /\ CopyOut24Bit RGBA5551 Scenario.byte_ramp 1023 0 0 2 1 0 = Some [[0x03FF; 0]]
  /\ naive_24bit RGBA5551 Scenario.byte_ramp 1023 0 0 2 1 0 = Some [[0x7FE0; 0]]
  (* RGBA8, skip_x = 1 *)
  /\ CopyOut24Bit RGBA8 Scenario.byte_ramp 1023 0 1 2 1 0 = Some [[0xFF020100; 0xFF070605]]
  /\ naive_24bit RGBA8 Scenario.byte_ramp 1023 0 1 2 1 0 = Some [[0xFF030201; 0xFF060504]]
  (* BGRA8, skip_x = 1 *)
  /\ CopyOut24Bit BGRA8 Scenario.byte_ramp 1023 0 1 2 1 0 = Some [[0xFF000102; 0xFF050607]]
  /\ naive_24bit BGRA8 Scenario.byte_ramp 1023 0 1 2 1 0 = Some [[0xFF010203; 0xFF040506]]
  (* the 32-bit outputs agree with the reference when skip_x is even *)
  /\ CopyOut24Bit RGBA8 Scenario.byte_ramp 1023 0 0 2 1 0
     = naive_24bit RGBA8 Scenario.byte_ramp 1023 0 0 2 1 0
  /\ CopyOut24Bit BGRA8 Scenario.byte_ramp 1023 0 0 2 1 0
     = naive_24bit BGRA8 Scenario.byte_ramp 1023 0 0 2 1 0.
Proof.
  repeat split; vm_compute; reflexivity.
Qed.

End Readout24.

(** ** The command ring *)

Section RingProducer.

Import GPUThread Ring.

Variable hdr : Z.
Hypothesis hdr_pos : 0 < hdr.
Hypothesis hdr_small : hdr < 2 ^ 32.

Lemma u32_small (x : Z) : 0 <= x < 2 ^ 32 -> Int.u32 x = x.
Proof. intros H. unfold Int.u32. apply Z.mod_small. exact H. Qed.

Lemma size_t_small (x : Z) : 0 <= x < 2 ^ 64 -> Int.size_t x = x.
Proof. intros H. unfold Int.size_t, Int.u64. apply Z.mod_small. exact H. Qed.

(** Rounding up to a multiple of 4. *)
Lemma AlignUpPow2_4 (size : Z) :
  0 <= size <= 2 ^ 32 - 4 ->
  AlignUpPow2 size 4 = size + 3 - (size + 3) mod 4.
Proof.
  intros Hs. unfold AlignUpPow2.
  change (4 - 1) with 3. rewrite u32_small by lia.
  change (Int.u32 (Z.lnot 3)) with (Z.land (Z.lnot (Z.ones 2)) (Z.ones 32)).
  rewrite Z.land_assoc, (Z.land_comm (size + 3)), <- Z.land_assoc.
  rewrite (Z.land_ones (size + 3) 32) by lia.
  rewrite (Z.mod_small (size + 3)) by lia.
  rewrite Z.land_comm, <- Z.ldiff_land, Z.ldiff_ones_r by lia.
  rewrite Z.shiftr_div_pow2, Z.shiftl_mul_pow2 by lia.
  change (2 ^ 2) with 4.
  pose proof (Z.div_mod (size + 3) 4 ltac:(lia)). lia.
Qed.


Lemma AlignUpPow2_4_bounds (size : Z) :
  0 <= size <= 2 ^ 32 - 4 ->
  size <= AlignUpPow2 size 4 <= size + 3 /\ AlignUpPow2 size 4 mod 4 = 0.
Proof.
  intros Hs. rewrite AlignUpPow2_4 by exact Hs.
  pose proof (Z.mod_pos_bound (size + 3) 4 ltac:(lia)).
  split; [lia|].
  pose proof (Z.div_mod (size + 3) 4 ltac:(lia)) as Hdm.
  replace (size + 3 - (size + 3) mod 4) with ((size + 3) / 4 * 4) by lia.
  apply Z.mod_mul. lia.
Qed.

(** The three ways one turn of the allocation loop goes when the consumer's
    read pointer is seen at [r]. *)
Lemma allocate_loop_fits (command : GPUBackendCommandType) (size : Z) (s : State)
    (r : Z) (rest : list Z) :
  r <= command_fifo_write_ptr s ->
  0 <= command_fifo_write_ptr s <= COMMAND_QUEUE_SIZE ->
  0 <= size ->
  size + hdr <= COMMAND_QUEUE_SIZE - command_fifo_write_ptr s ->
  allocate_loop hdr command size s (r :: rest)
  = Some (command_fifo_write_ptr s, placed command size r s).
Proof.
  unfold COMMAND_QUEUE_SIZE. intros Hr Hw Hs Hfit.
  cbn [allocate_loop]. cbn [command_fifo_read_ptr command_fifo_write_ptr
    set_command_fifo_read_ptr].
  destruct (Z.gtb_spec r (command_fifo_write_ptr s)); [lia|].
  unfold COMMAND_QUEUE_SIZE.
  rewrite u32_small, size_t_small by lia.
  destruct (Z.gtb_spec (size + hdr) (16 * 1024 * 1024 - command_fifo_write_ptr s)); [lia|].
  reflexivity.
Qed.

Lemma allocate_loop_wraps (command : GPUBackendCommandType) (size : Z) (s : State)
    (r : Z) (rest : list Z) :
  r <= command_fifo_write_ptr s ->
  0 <= command_fifo_write_ptr s <= COMMAND_QUEUE_SIZE ->
  0 <= size < 2 ^ 32 ->
  COMMAND_QUEUE_SIZE - command_fifo_write_ptr s < size + hdr ->
  allocate_loop hdr command size s (r :: rest)
  = allocate_loop hdr command size (wrapped r s) rest.
Proof.
  unfold COMMAND_QUEUE_SIZE. intros Hr Hw Hs Hfit.
  cbn [allocate_loop]. cbn [command_fifo_read_ptr command_fifo_write_ptr
    set_command_fifo_read_ptr].
  destruct (Z.gtb_spec r (command_fifo_write_ptr s)); [lia|].
  unfold COMMAND_QUEUE_SIZE.
  rewrite u32_small, size_t_small by lia.
  destruct (Z.gtb_spec (size + hdr) (16 * 1024 * 1024 - command_fifo_write_ptr s)); [|lia].
  unfold wrapped, COMMAND_QUEUE_SIZE. cbn.
  rewrite u32_small by lia. reflexivity.
Qed.

Lemma allocate_loop_behind (command : GPUBackendCommandType) (size : Z) (s : State)
    (r : Z) (rest : list Z) :
  command_fifo_write_ptr s < r < 2 ^ 32 ->
  0 <= command_fifo_write_ptr s ->
  0 <= size < 2 ^ 32 ->
  size + 1 <= r - command_fifo_write_ptr s ->
  allocate_loop hdr command size s (r :: rest)
  = Some (command_fifo_write_ptr s, placed command size r s).
Proof.
  intros Hr Hw Hs Hroom.
  cbn [allocate_loop]. cbn [command_fifo_read_ptr command_fifo_write_ptr
    set_command_fifo_read_ptr].
  destruct (Z.gtb_spec r (command_fifo_write_ptr s)); [|lia].
  rewrite u32_small by lia.
  destruct rest as [|r2 rest]; cbn [wait_for_space];
    unfold sizeof_GPUBackendCommandType; rewrite size_t_small by lia;
    (destruct (Z.ltb_spec (r - command_fifo_write_ptr s) (size + 1)); [lia|]);
    reflexivity.
Qed.

(** Once the write pointer is at 0 the slot can only be handed out at
    offset 0. *)
Lemma wait_for_space_write_ptr (size write_ptr avail : Z) (s s' : State)
    (loads loads' : list Z) :
  wait_for_space size write_ptr avail s loads = Some (s', loads') ->
  command_fifo_write_ptr s' = command_fifo_write_ptr s.
Proof.
  revert avail s. induction loads as [|r loads IH]; intros avail s; cbn [wait_for_space].
  - destruct (avail <? _); [discriminate|]. intros [= <- _]. reflexivity.
  - destruct (avail <? _).
    + intros H. apply IH in H. rewrite H. cbn.
      destruct (WakeGPUThread_pointers s) as [-> _]. reflexivity.
    + intros [= <- _]. reflexivity.
Qed.


End RingProducer.

Section RingBoundary.

Import GPUThread Ring.





End RingBoundary.

Section RingConsumer.

Import GPUThread Ring.


(** The consumer's step on a [Wraparound] slot: the write pointer is loaded
    again, the read pointer becomes 0 and is published at once, and the slot
    is not handed to the backend. *)
Lemma process_commands_wraparound (fuel : nat) (read_ptr write_ptr : Z) (s : State)
    (cmd : GPUThreadCommand) :
  read_ptr < write_ptr ->
  command_fifo_data s !! read_ptr = Some cmd ->
  cmd_type cmd = Wraparound ->
  process_commands (S fuel) read_ptr write_ptr s
  = (fst (process_commands fuel 0 (command_fifo_write_ptr s)
            (set_command_fifo_read_ptr 0 s)),
     WraparoundSkipped read_ptr (cmd_size cmd)
     :: snd (process_commands fuel 0 (command_fifo_write_ptr s)
               (set_command_fifo_read_ptr 0 s))).
Proof.
  intros Hlt Hcmd Ht. cbn [process_commands]; unfold process_command.
  destruct (Z.ltb_spec read_ptr write_ptr); [|lia].
  rewrite Hcmd, Ht. cbn.
  destruct (process_commands fuel 0 _ _). reflexivity.
Qed.

Lemma linear_le (d : gmap Z GPUThreadCommand) (a b : Z) (l : list Slot) :
  linear d a b l -> a <= b.
Proof. induction 1; lia. Qed.

Lemma linear_empty (d : gmap Z GPUThreadCommand) (a : Z) (l : list Slot) :
  linear d a a l -> l = [].
Proof.
  inversion 1 as [|? ? ? ? ? ? ? ? Hrest]; subst; [reflexivity|].
  apply linear_le in Hrest. lia.
Qed.

(** Writing a header outside a stretch of slots leaves the stretch as it
    was. *)
Lemma linear_frame (d : gmap Z GPUThreadCommand) (a b : Z) (l : list Slot) (k : Z)
    (c : GPUThreadCommand) :
  linear d a b l -> k < a \/ b <= k -> linear (<[k := c]> d) a b l.
Proof.
  induction 1 as [a|a b cmd l Hcmd Hsz Hw Hs Hrest IH]; intros Hk.
  - constructor.
  - pose proof (linear_le _ _ _ _ Hrest).
    constructor; try assumption.
    + rewrite lookup_insert_ne by lia. exact Hcmd.
    + apply IH. lia.
Qed.

Lemma linear_snoc (d : gmap Z GPUThreadCommand) (a b : Z) (l : list Slot)
    (cmd : GPUThreadCommand) :
  linear d a b l ->
  d !! b = Some cmd -> 0 < cmd_size cmd ->
  cmd_type cmd <> Wraparound -> cmd_type cmd <> Shutdown ->
  linear d a (b + cmd_size cmd) (l ++ [(b, cmd)]).
Proof.
  induction 1 as [a|a b c l Hc Hsz Hw Hs Hrest IH]; intros Hcmd Hpos Hnw Hns.
  - cbn. constructor; try assumption. constructor.
  - cbn. constructor; try assumption. apply IH; assumption.
Qed.

(** The worker walks a stretch of slots in order, dispatching each once. *)
Lemma process_commands_linear (s : State) (b write_ptr : Z) (l : list Slot) (a : Z)
    (fuel : nat) :
  linear (command_fifo_data s) a b l ->
  0 <= a -> b <= write_ptr -> write_ptr < 2 ^ 32 ->
  process_commands (length l + fuel) a write_ptr s
  = (fst (process_commands fuel b write_ptr s),
     map dispatch_of l ++ snd (process_commands fuel b write_ptr s)).
Proof.
  induction 1 as [a|a b cmd l Hcmd Hsz Hw Hs Hrest IH]; intros Ha Hb Hwp.
  - cbn. destruct (process_commands fuel a write_ptr s). reflexivity.
  - pose proof (linear_le _ _ _ _ Hrest) as Hle.
    cbn [length Nat.add process_commands]; unfold process_command.
    destruct (Z.ltb_spec a write_ptr); [|lia].
    rewrite Hcmd. unfold Int.u32. rewrite Z.mod_small by lia.
    cbn [map app dispatch_of].
    destruct (type_value (cmd_type cmd) >? type_value Shutdown) eqn:Hgt;
      destruct (cmd_type cmd) eqn:Ht; cbn in Hgt; try discriminate; try congruence;
      rewrite IH by lia; reflexivity.
Qed.

End RingConsumer.

Section RingRun.

Import GPUThread Ring.

Lemma process_commands_done (fuel : nat) (w : Z) (s : State) :
  process_commands (S fuel) w w s = (BatchDone (set_command_fifo_read_ptr w s), []).
Proof. cbn [process_commands]; unfold process_command. rewrite Z.ltb_irrefl. reflexivity. Qed.

(** One batch of the consumer empties a well-formed ring, dispatching every
    pending slot once and in order. *)
Lemma drain_batch_ring (s : State) (pend : list Slot) (n : nat) :
  ring_inv s pend ->
  (length pend <= n)%nat ->
  (pend = [] /\ drain_batch (S (S n)) s = None
   /\ command_fifo_read_ptr s = command_fifo_write_ptr s)
  \/ (exists s',
        drain_batch (S (S n)) s = Some (BatchDone s', map dispatch_of pend)
        /\ ring_inv s' []
        /\ command_fifo_read_ptr s' = command_fifo_write_ptr s').
Proof.
  unfold ring_inv, COMMAND_QUEUE_SIZE. cbv zeta.
  intros (HR & HW & [[Hle Hlin]|[Hlt (tail & o & p & head & -> & Htail & Ho & Hdummy & Hhead)]])
    Hn.
  - destruct (Z.eq_dec (command_fifo_read_ptr s) (command_fifo_write_ptr s)) as [Heq|Hne].
    + left. rewrite Heq in Hlin. apply linear_empty in Hlin. subst pend.
      repeat split; [|exact Heq].
      unfold drain_batch. rewrite Heq, Z.eqb_refl. reflexivity.
    + right. exists (set_command_fifo_read_ptr (command_fifo_write_ptr s) s).
      split.
      * unfold drain_batch.
        destruct (Z.eqb_spec (command_fifo_read_ptr s) (command_fifo_write_ptr s)); [lia|].
        destruct (Z.ltb_spec (command_fifo_write_ptr s) (command_fifo_read_ptr s)); [lia|].
        replace (S (S n)) with (length pend + S (S (n - length pend)))%nat by lia.
        rewrite (process_commands_linear s (command_fifo_write_ptr s)) by (assumption || lia).
        rewrite process_commands_done. cbn. rewrite app_nil_r. reflexivity.
      * cbn. unfold COMMAND_QUEUE_SIZE. repeat split; try lia.
        left. split; [lia|constructor].
  - right. rewrite length_app in Hn. cbn [length] in Hn.
    pose proof (linear_le _ _ _ _ Htail) as Hto.
    pose proof (linear_le _ _ _ _ Hhead) as Hhw.
    exists (set_command_fifo_read_ptr (command_fifo_write_ptr s)
              (set_command_fifo_read_ptr 0 s)).
    split.
    + unfold drain_batch.
      destruct (Z.eqb_spec (command_fifo_read_ptr s) (command_fifo_write_ptr s)); [lia|].
      destruct (Z.ltb_spec (command_fifo_write_ptr s) (command_fifo_read_ptr s)); [|lia].
      replace (S (S n))
        with (length tail + S (length head + S (n - length tail - length head)))%nat by lia.
      rewrite (process_commands_linear s o) by (unfold COMMAND_QUEUE_SIZE; assumption || lia).
      assert (Hoc : o < COMMAND_QUEUE_SIZE) by (unfold COMMAND_QUEUE_SIZE; lia).
      rewrite (process_commands_wraparound _ o COMMAND_QUEUE_SIZE s _ Hoc Hdummy eq_refl).
      rewrite (process_commands_linear (set_command_fifo_read_ptr 0 s)
                 (command_fifo_write_ptr s)) by (cbn; assumption || lia).
      rewrite process_commands_done. cbn.
      rewrite map_app. cbn. rewrite app_nil_r. reflexivity.
    + cbn. unfold COMMAND_QUEUE_SIZE. repeat split; try lia.
      left. split; [lia|constructor].
Qed.

(** While the consumer stands still, a producer short of room keeps
    spinning. *)
Lemma wait_for_space_blocked (size write_ptr avail r : Z) (loads : list Z) (s : State) :
  Forall (eq r) loads ->
  0 <= size < 2 ^ 32 ->
  avail < size + 1 ->
  (if r >? write_ptr then Int.u32 (r - write_ptr)
   else Int.u32 (COMMAND_QUEUE_SIZE - write_ptr)) = avail ->
  wait_for_space size write_ptr avail s loads = None.
Proof.
  intros Hall Hs Hlt Hav. revert s.
  induction Hall as [|x loads <- Hall IH]; intros s; cbn [wait_for_space];
    unfold sizeof_GPUBackendCommandType; rewrite size_t_small by lia;
    (destruct (Z.ltb_spec avail (size + 1)); [|lia]).
  - reflexivity.
  - cbn [command_fifo_read_ptr set_command_fifo_read_ptr]. rewrite Hav. apply IH.
Qed.

Lemma allocate_loop_blocked (hdr : Z) (command : GPUBackendCommandType) (size : Z)
    (s : State) (r : Z) (rest : list Z) :
  command_fifo_write_ptr s < r < 2 ^ 32 ->
  0 <= command_fifo_write_ptr s ->
  0 <= size < 2 ^ 32 ->
  r - command_fifo_write_ptr s < size + 1 ->
  Forall (eq r) rest ->
  allocate_loop hdr command size s (r :: rest) = None.
Proof.
  intros Hr Hw Hs Hroom Hall.
  cbn [allocate_loop]. cbn [command_fifo_read_ptr command_fifo_write_ptr
    set_command_fifo_read_ptr].
  destruct (Z.gtb_spec r (command_fifo_write_ptr s)); [|lia].
  rewrite wait_for_space_blocked with (r := r); [reflexivity|exact Hall|exact Hs| |].
  - rewrite u32_small by lia. lia.
  - destruct (Z.gtb_spec r (command_fifo_write_ptr s)); [reflexivity|lia].
Qed.




Lemma PushCommand_ring (cmd : GPUThreadCommand) (s : State) :
  command_fifo_write_ptr (PushCommand cmd s)
  = Int.u32 (command_fifo_write_ptr s + cmd_size cmd)
  /\ command_fifo_read_ptr (PushCommand cmd s) = command_fifo_read_ptr s
  /\ command_fifo_data (PushCommand cmd s) = command_fifo_data s.
Proof.
  unfold PushCommand. destruct (_ >=? _).
  - destruct (WakeGPUThread_pointers (publish cmd s)) as (-> & -> & ->). repeat split.
  - repeat split.
Qed.

(** How an allocation ends when the consumer stands still at the published
    read pointer: at the write offset when the command and a header fit the
    tail, at offset 0 behind a [Wraparound] slot, or at the write offset
    when the write pointer is behind the read pointer with room to spare. *)
Lemma AllocateCommand_ring (hdr : Z) (s : State) (pend : list Slot)
    (command : GPUBackendCommandType) (size off : Z) (s1 : State) :
  0 < hdr < 2 ^ 32 ->
  ring_inv s pend ->
  1 <= size <= COMMAND_QUEUE_SIZE ->
  let R := command_fifo_read_ptr s in
  let W := command_fifo_write_ptr s in
  let asize := AlignUpPow2 size 4 in
  AllocateCommand hdr command size s [R; R; R] = Some (off, s1) ->
  (R <= W /\ asize + hdr <= COMMAND_QUEUE_SIZE - W
   /\ off = W /\ s1 = placed command asize R s)
  \/ (R <= W /\ COMMAND_QUEUE_SIZE - W < asize + hdr /\ 0 < W /\ off = 0
      /\ ((0 < R /\ asize + 1 <= R) \/ (R = 0 /\ asize + hdr <= COMMAND_QUEUE_SIZE))
      /\ s1 = placed command asize R (wrapped R s))
  \/ (W < R /\ asize + 1 <= R - W /\ off = W /\ s1 = placed command asize R s).
Proof.
  intros Hhdr Hinv Hsize R W asize.
  assert (Hcap : COMMAND_QUEUE_SIZE = 16777216) by reflexivity.
  destruct Hinv as (HR & HW & _). fold R W in HR, HW.
  destruct (AlignUpPow2_4_bounds size ltac:(rewrite Hcap in *; lia)) as [Hb _].
  fold asize in Hb. unfold AllocateCommand. fold asize.
  destruct (Z_le_gt_dec R W) as [Hle|Hgt].
  - destruct (Z_le_gt_dec (asize + hdr) (COMMAND_QUEUE_SIZE - W)) as [Hfit|Hbig].
    + rewrite allocate_loop_fits by (fold W; rewrite ?Hcap in *; lia).
      intros [= <- <-]. left. repeat split; assumption.
    + rewrite allocate_loop_wraps by (fold W; rewrite ?Hcap in *; lia).
      destruct (Z.eq_dec R 0) as [HR0|HR0].
      * rewrite HR0.
        destruct (Z_le_gt_dec (asize + hdr) COMMAND_QUEUE_SIZE) as [Hfit0|Hbig0].
        -- rewrite allocate_loop_fits by (cbn; rewrite ?Hcap in *; lia).
           intros [= <- <-]. right. left.
           assert (0 < W) by lia.
           repeat split; try assumption; try lia.
        -- rewrite allocate_loop_wraps by (cbn; rewrite ?Hcap in *; lia).
           rewrite allocate_loop_wraps by (cbn; rewrite ?Hcap in *; lia).
           discriminate.
      * destruct (Z_le_gt_dec (asize + 1) R) as [Hroom|Hnoroom].
        -- rewrite allocate_loop_behind by (cbn; rewrite ?Hcap in *; lia).
           intros [= <- <-]. right. left.
           repeat split; try assumption; try lia.
        -- rewrite allocate_loop_blocked; [discriminate|..];
             cbn; rewrite ?Hcap in *; try lia.
           repeat constructor.
  - destruct (Z_le_gt_dec (asize + 1) (R - W)) as [Hroom|Hnoroom].
    + rewrite allocate_loop_behind by (fold W; rewrite ?Hcap in *; lia).
      intros [= <- <-]. right. right. repeat split; try assumption; lia.
    + rewrite allocate_loop_blocked; [discriminate|..];
        fold W; rewrite ?Hcap in *; try lia.
      repeat constructor.
Qed.

Lemma placed_lookup (command : GPUBackendCommandType) (size r : Z) (s : State) :
  command_fifo_data (placed command size r s) !! command_fifo_write_ptr s
  = Some (mkCommand command size
            (default 0 (cmd_params <$> command_fifo_data s !! command_fifo_write_ptr s))).
Proof. unfold placed, store_type_size. cbn. apply lookup_insert_eq. Qed.

(** A producer operation that does not overrun keeps the ring well formed:
    the new slot, and the [Wraparound] slot before it if the tail was too
    short, join the pending slots. *)
Lemma produce_run_inv (hdr : Z) (command : GPUBackendCommandType) (size : Z) (r r' : Run) :
  0 < hdr < 2 ^ 32 ->
  run_inv r ->
  valid_op (Produce command size) ->
  produce hdr command size r = Some r' ->
  overrun r' = false ->
  run_inv r' /\ overrun r = false /\ dispatched r' = dispatched r.
Proof.
  intros Hhdr (consumed & pend & Hwr & Hdi & Hinv) (Hnw & Hns & Hsize) Hprod Hover.
  assert (Hcap : COMMAND_QUEUE_SIZE = 16777216) by reflexivity.
  unfold produce in Hprod.
  destruct (AllocateCommand hdr command size (run_state r) _) as [[off s1]|] eqn:Halloc;
    [|discriminate].
  destruct (AlignUpPow2_4_bounds size ltac:(rewrite Hcap in *; lia)) as [Hb _].
  apply (AllocateCommand_ring hdr _ pend) in Halloc; [|assumption..].
  set (s := run_state r) in *.
  set (R := command_fifo_read_ptr s) in *.
  set (W := command_fifo_write_ptr s) in *.
  set (asize := AlignUpPow2 size 4) in *.
  destruct Hinv as (HR & HW & Hshape). fold R W in HR, HW, Hshape.
  destruct Halloc as [(Hle & Hfit & -> & ->)
                     |[(Hle & Hbig & HW0 & -> & Hroom & ->)
                      |(Hlt & Hroom & -> & ->)]].
  - (* at the write offset *)
    destruct Hshape as [[_ Hlin]|[Hlt _]]; [|lia].
    unfold W in Hprod at 1. rewrite placed_lookup in Hprod. fold W in Hprod.
    set (cmd := mkCommand command asize _) in *.
    rewrite Z.eqb_refl in Hprod. cbn [negb andb] in Hprod.
    injection Hprod as <-. cbn [run_state written dispatched overrun] in Hover |- *. rewrite orb_false_r in Hover.
    split; [|split; [exact Hover|reflexivity]].
    exists consumed, (pend ++ [(W, cmd)]).
    split; [rewrite Hwr, <- app_assoc; reflexivity|]. split; [exact Hdi|].
    unfold ring_inv. cbn [run_state].
    destruct (PushCommand_ring cmd (placed command asize R s)) as (-> & -> & ->).
    cbn. fold W. rewrite u32_small by (rewrite Hcap in *; lia).
    repeat split; try (rewrite ?Hcap in *; lia).
    left. split; [lia|].
    apply (linear_snoc _ R W pend cmd); try assumption; try (cbn; lia).
    + apply linear_frame; [exact Hlin|lia].
    + apply lookup_insert_eq.
  - (* behind a Wraparound slot *)
    destruct Hshape as [[_ Hlin]|[Hlt _]]; [|lia].
    assert (Hdummy : command_fifo_data (placed command asize R (wrapped R s)) !! W
                     = Some (mkCommand Wraparound (COMMAND_QUEUE_SIZE - W) 0)).
    { unfold placed, wrapped, store_type_size, store_dummy. cbn. fold W.
      rewrite lookup_insert_ne by lia. rewrite lookup_insert_eq.
      rewrite u32_small by (rewrite Hcap in *; lia). reflexivity. }
    change 0 with (command_fifo_write_ptr (wrapped R s)) in Hprod at 1.
    rewrite placed_lookup in Hprod.
    set (cmd := mkCommand command asize _) in *.
    fold s W in Hprod. rewrite Hdummy in Hprod.
    destruct (Z.eqb_spec 0 W) as [?|_]; [lia|]. cbn [negb andb] in Hprod.
    injection Hprod as <-. cbn [run_state written dispatched overrun] in Hover |- *.
    apply orb_false_elim in Hover as [Hover HRz]. apply Z.eqb_neq in HRz.
    destruct Hroom as [[HRpos Hroom]|[? _]]; [|lia].
    split; [|split; [exact Hover|reflexivity]].
    exists consumed,
      (pend ++ (W, mkCommand Wraparound (COMMAND_QUEUE_SIZE - W) 0) :: [(0, cmd)]).
    split; [rewrite Hwr, <- app_assoc; reflexivity|]. split; [exact Hdi|].
    unfold ring_inv. cbn [run_state].
    destruct (PushCommand_ring cmd (placed command asize R (wrapped R s)))
      as (-> & -> & ->).
    cbn. rewrite u32_small by (rewrite Hcap in *; lia). fold W.
    repeat split; try (rewrite ?Hcap in *; lia).
    right. split; [lia|].
    exists pend, W, 0, [(0, cmd)].
    split; [reflexivity|]. split.
    { unfold store_type_size, store_dummy.
      apply linear_frame; [|lia]. apply linear_frame; [exact Hlin|lia]. }
    split; [lia|]. split.
    { unfold store_type_size, store_dummy.
      rewrite lookup_insert_ne by lia. rewrite lookup_insert_eq.
      rewrite u32_small by (rewrite Hcap in *; lia). reflexivity. }
    change asize with (0 + cmd_size cmd).
    constructor; try assumption; try (cbn; lia).
    + apply lookup_insert_eq.
    + constructor.
  - (* write pointer behind the read pointer *)
    destruct Hshape as [[Hle _]|[_ (tail & o & p & head & -> & Htail & Ho & Hd & Hhead)]];
      [lia|].
    unfold W in Hprod at 1. rewrite placed_lookup in Hprod. fold W in Hprod.
    set (cmd := mkCommand command asize _) in *.
    rewrite Z.eqb_refl in Hprod. cbn [negb andb] in Hprod.
    injection Hprod as <-. cbn [run_state written dispatched overrun] in Hover |- *. rewrite orb_false_r in Hover.
    split; [|split; [exact Hover|reflexivity]].
    pose proof (linear_le _ _ _ _ Htail) as Hto.
    exists consumed,
      (tail ++ (o, mkCommand Wraparound (COMMAND_QUEUE_SIZE - o) p) :: (head ++ [(W, cmd)])).
    split.
    { rewrite Hwr. rewrite <- !app_assoc. cbn. reflexivity. }
    split; [exact Hdi|].
    unfold ring_inv. cbn [run_state].
    destruct (PushCommand_ring cmd (placed command asize R s)) as (-> & -> & ->).
    cbn. fold W. rewrite u32_small by (rewrite Hcap in *; lia).
    repeat split; try (rewrite ?Hcap in *; lia).
    right. split; [lia|].
    exists tail, o, p, (head ++ [(W, cmd)]).
    split; [reflexivity|]. split.
    { apply linear_frame; [exact Htail|lia]. }
    split; [exact Ho|]. split.
    { unfold store_type_size. rewrite lookup_insert_ne by lia. exact Hd. }
    apply (linear_snoc _ 0 W head cmd); try assumption; try (cbn; lia).
    + apply linear_frame; [exact Hhead|lia].
    + apply lookup_insert_eq.
Qed.

(** A consumer operation always completes on a well-formed ring, and
    leaves it empty with every slot written so far dispatched. *)
Lemma drain_run_inv (r : Run) :
  run_inv r ->
  exists r',
    drain r = Some r'
    /\ run_inv r'
    /\ overrun r' = overrun r
    /\ written r' = written r
    /\ dispatched r' = map dispatch_of (written r')
    /\ command_fifo_read_ptr (run_state r') = command_fifo_write_ptr (run_state r').
Proof.
  intros (consumed & pend & Hwr & Hdi & Hinv).
  assert (Hlen : (length pend <= length (written r))%nat).
  { rewrite Hwr, length_app. lia. }
  unfold drain.
  destruct (drain_batch_ring _ pend _ Hinv Hlen)
    as [(-> & -> & Heq)|(s' & -> & Hinv' & Heq)].
  - exists r. rewrite app_nil_r in Hwr.
    split; [reflexivity|]. split.
    { exists consumed, []. rewrite app_nil_r. auto. }
    rewrite Hwr. auto.
  - eexists. split; [reflexivity|]. cbn.
    assert (Hall : dispatched r ++ map dispatch_of pend = map dispatch_of (written r)).
    { rewrite Hwr, Hdi, map_app. reflexivity. }
    split.
    { exists (written r), []. cbn. rewrite app_nil_r. auto. }
    auto.
Qed.

Lemma produce_overrun_sticky (hdr : Z) (command : GPUBackendCommandType) (size : Z)
    (r r' : Run) :
  produce hdr command size r = Some r' -> overrun r = true -> overrun r' = true.
Proof.
  unfold produce. intros H Ho.
  destruct (AllocateCommand _ _ _ _ _) as [[off s1]|]; [|discriminate].
  destruct (command_fifo_data s1 !! off); [|discriminate].
  injection H as <-. cbn. rewrite Ho. reflexivity.
Qed.

Lemma drain_overrun_sticky (r r' : Run) :
  drain r = Some r' -> overrun r = true -> overrun r' = true.
Proof.
  unfold drain. intros H Ho.
  destruct (drain_batch _ _) as [[[] ds]|]; try discriminate;
    injection H as <-; exact Ho.
Qed.

Lemma run_overrun_sticky (hdr : Z) (ops : list Op) (r r' : Run) :
  run hdr ops r = Some r' -> overrun r = true -> overrun r' = true.
Proof.
  revert r. induction ops as [|o ops IH]; intros r; cbn [run].
  - intros [= <-]. auto.
  - destruct (step hdr o r) as [r1|] eqn:Hstep; [|discriminate].
    intros Hrun Ho. apply (IH r1 Hrun).
    destruct o; cbn in Hstep.
    + eapply produce_overrun_sticky; eassumption.
    + eapply drain_overrun_sticky; eassumption.
Qed.

(** Every run that never overruns keeps the ring well formed. *)
Lemma run_run_inv (hdr : Z) (ops : list Op) (r r' : Run) :
  0 < hdr < 2 ^ 32 ->
  Forall valid_op ops ->
  run_inv r ->
  run hdr ops r = Some r' ->
  overrun r' = false ->
  run_inv r'.
Proof.
  intros Hhdr Hall. revert r. induction Hall as [|o ops Ho Hall IH]; intros r Hinv; cbn [run].
  - intros [= <-] _. exact Hinv.
  - destruct (step hdr o r) as [r1|] eqn:Hstep; [|discriminate].
    intros Hrun Hover.
    assert (Hover1 : overrun r1 = false).
    { destruct (overrun r1) eqn:Ho1; [|reflexivity].
      rewrite (run_overrun_sticky hdr ops r1 r' Hrun Ho1) in Hover. discriminate. }
    apply (IH r1); try assumption.
    destruct o as [command size|]; cbn in Hstep.
    + destruct (produce_run_inv hdr command size r r1 Hhdr Hinv Ho Hstep Hover1) as [H _].
      exact H.
    + destruct (drain_run_inv r Hinv) as (r1' & Hd & Hinv1 & _).
      rewrite Hd in Hstep. injection Hstep as <-. exact Hinv1.
Qed.

Lemma start_run_inv : run_inv start.
Proof.
  exists [], []. cbn. repeat split; try reflexivity.
  unfold ring_inv, COMMAND_QUEUE_SIZE. cbn. repeat split; try lia.
  left. split; [lia|constructor].
Qed.






End RingRun.

(** * Further properties of the code *)

Section TripleRules.

Import GPUThread Notions Triples.
Local Open Scope worker_scope.

Lemma wp_returns {A} (c : M A) (Q : A -> World -> Prop) (w w' : World) (a : A) :
  wp c Q w -> c w = Returns a w' -> Q a w'.
Proof. unfold wp. intros H Heq. rewrite Heq in H. exact H. Qed.

Lemma wp_ret {A} (a : A) (Q : A -> World -> Prop) (w : World) : Q a w -> wp (ret a) Q w.
Proof. intros H. exact H. Qed.

Lemma wp_get (Q : World -> World -> Prop) (w : World) : Q w w -> wp get Q w.
Proof. intros H. exact H. Qed.

Lemma wp_modify (f : World -> World) (Q : unit -> World -> Prop) (w : World) :
  Q tt (f w) -> wp (modify f) Q w.
Proof. intros H. exact H. Qed.

Lemma wp_bind {A B} (c : M A) (k : A -> M B) (Q : B -> World -> Prop) (w : World) :
  wp c (fun a w' => wp (k a) Q w') w -> wp (bind c k) Q w.
Proof.
  unfold wp, bind. destruct (c w) as [a w1|msg w1|what]; intros H; exact H || exact I.
Qed.

Lemma wp_keeps {X A} (f : World -> X) (c : M A) (Q : A -> World -> Prop) (w : World) :
  keeps f c -> (forall a w', f w' = f w -> Q a w') -> wp c Q w.
Proof.
  intros Hk HQ. unfold wp. specialize (Hk w).
  destruct (c w) as [a w1|msg w1|what]; [|exact I|exact I]. apply HQ. exact Hk.
Qed.

Lemma keeps_ret {X A} (f : World -> X) (a : A) : keeps f (ret a).
Proof. intros w. reflexivity. Qed.

Lemma keeps_Panic {X A} (f : World -> X) (msg : string) : keeps f (@Panic A msg).
Proof. intros w. reflexivity. Qed.

Lemma keeps_get {X} (f : World -> X) : keeps f get.
Proof. intros w. reflexivity. Qed.

Lemma keeps_modify {X} (f : World -> X) (g : World -> World) :
  (forall w, f (g w) = f w) -> keeps f (modify g).
Proof. intros Hg w. apply Hg. Qed.

Lemma keeps_deref_device {X} (f : World -> X) : keeps f deref_device.
Proof. intros w. unfold deref_device. destruct (g_gpu_device w); [reflexivity|exact I]. Qed.

Lemma keeps_bind {X A B} (f : World -> X) (c : M A) (k : A -> M B) :
  keeps f c -> (forall a, keeps f (k a)) -> keeps f (bind c k).
Proof.
  intros Hc Hk w. unfold bind. specialize (Hc w).
  destruct (c w) as [a w1|msg w1|what]; [|exact Hc|exact I].
  specialize (Hk a w1).
  destruct (k a w1) as [b w2|msg w2|what]; [| |exact I]; congruence.
Qed.

Lemma keeps_when {X} (f : World -> X) (b : bool) (c : M unit) :
  keeps f c -> keeps f (when b c).
Proof. intros Hc. destruct b; [exact Hc|apply keeps_ret]. Qed.

End TripleRules.

(** One step of a proof that a computation keeps an observation that none
    of its writes touches. *)
Ltac keeps_step :=
  first
    [ apply keeps_ret
    | apply keeps_Panic
    | apply keeps_get
    | apply keeps_deref_device
    | apply keeps_when
    | apply keeps_bind; [|intros]
    | apply keeps_modify; intros; reflexivity
    | match goal with
      | |- Triples.keeps _ (GPUThread.call _) => apply keeps_modify; intros; reflexivity
      | |- Triples.keeps _ (GPUThread.modify_state _) =>
          apply keeps_modify; intros; reflexivity
      | |- Triples.keeps _ (if ?b then _ else _) => destruct b
      | |- Triples.keeps _ (match ?x with _ => _ end) => destruct x
      | |- Triples.keeps _ (let '(_, _) := ?x in _) => destruct x
      | |- Triples.keeps _ (fun _ => GPUThread.Undefined _) => intros ?; exact I
      end ].

Section Keeps.

Import GPUThread Notions Triples.
Local Open Scope worker_scope.

Lemma keeps_request_DestroyGPUBackendOnThread : keeps request_of DestroyGPUBackendOnThread.
Proof. unfold DestroyGPUBackendOnThread. repeat keeps_step. Qed.

Lemma keeps_request_DestroyDeviceOnThread : keeps request_of DestroyDeviceOnThread.
Proof. unfold DestroyDeviceOnThread. repeat keeps_step. Qed.

Lemma keeps_request_CreateDeviceOnThread (e : Externals) (api : RenderAPI) (fs : bool) :
  keeps request_of (CreateDeviceOnThread e api fs).
Proof. unfold CreateDeviceOnThread. repeat keeps_step. Qed.

Lemma keeps_request_CreateGPUBackendOnThread (e : Externals) (r : GPURenderer) (upload : bool) :
  keeps request_of (CreateGPUBackendOnThread e r upload).
Proof. unfold CreateGPUBackendOnThread. repeat keeps_step. Qed.


Ltac keeps_request :=
  repeat first
    [ apply keeps_request_DestroyGPUBackendOnThread
    | apply keeps_request_DestroyDeviceOnThread
    | apply keeps_request_CreateDeviceOnThread
    | apply keeps_request_CreateGPUBackendOnThread
    | keeps_step ].

(** Everything [ReconfigureOnThread] does after storing the request leaves
    the stored request alone, and [cmd->result] is assigned on every path
    but the one that shuts everything down. *)
Lemma ReconfigureOnThread_wp (e : Externals) (cmd : GPUThreadReconfigureCommand) (w : World) :
  let ui := default (requested_fullscreen_ui (s_state w)) (start_fullscreen_ui cmd) in
  wp (ReconfigureOnThread e cmd)
     (fun res w' =>
        request_of w' = (vsync_mode cmd, allow_present_throttle cmd, ui)
        /\ (is_Some (result res) <-> is_Some (renderer cmd) \/ ui = true))
     w.
Proof.
  intros ui. unfold ReconfigureOnThread.
  apply wp_bind, wp_modify. apply wp_bind, wp_modify. apply wp_bind, wp_modify.
  apply wp_bind, wp_get.
  match goal with
  | |- wp _ _ ?w3 =>
      assert (Hreq : request_of w3 = (vsync_mode cmd, allow_present_throttle cmd, ui))
        by reflexivity;
      assert (Hui : requested_fullscreen_ui (s_state w3) = ui) by reflexivity;
      generalize Hreq Hui; generalize w3; clear Hreq Hui; intros w0 Hreq Hui
  end.
  rewrite Hui.
  destruct (negb (bool_decide (is_Some (renderer cmd))) && negb ui) eqn:Hall.
  - (* shutting down everything *)
    apply andb_true_iff in Hall as [Hr Hu].
    apply negb_true_iff in Hr, Hu. apply bool_decide_eq_false in Hr.
    apply wp_bind, (wp_keeps request_of); [keeps_request|]. intros _ w4 H4.
    apply wp_bind, (wp_keeps request_of); [keeps_request|]. intros _ w5 H5.
    apply wp_ret. split; [congruence|].
    split; [intros [x Hx]; discriminate|intros [Hs|Ht]; [contradiction|congruence]].
  - assert (Hwant : is_Some (renderer cmd) \/ ui = true).
    { apply andb_false_iff in Hall as [Hr|Hu].
      - left. apply negb_false_iff, bool_decide_eq_true in Hr. exact Hr.
      - right. apply negb_false_iff in Hu. exact Hu. }
    apply wp_bind, (wp_keeps request_of); [keeps_request|]. intros _ w4 H4.
    apply wp_bind, (wp_keeps request_of); [keeps_request|]. intros _ w5 H5.
    apply wp_bind, (wp_keeps request_of); [keeps_request|]. intros _ w6 H6.
    apply wp_bind, wp_get.
    apply wp_bind, (wp_keeps request_of); [keeps_request|]. intros device_ok w7 H7.
    assert (Hreq7 : request_of w7 = (vsync_mode cmd, allow_present_throttle cmd, ui))
      by congruence.
    destruct (negb (fst device_ok)).
    { apply wp_ret. split; [exact Hreq7|]. split; [intros _; exact Hwant|intros _; eexists; reflexivity]. }
    destruct (renderer cmd) as [r|] eqn:Hrend.
    { apply wp_bind, (wp_keeps request_of); [keeps_request|]. intros b w8 H8.
      apply wp_ret. split; [congruence|].
      split; [intros _; exact Hwant|intros _; eexists; reflexivity]. }
    apply wp_bind, wp_get.
    assert (Hui7 : requested_fullscreen_ui (s_state w7) = ui).
    { unfold request_of in Hreq7. congruence. }
    rewrite Hui7.
    destruct Hwant as [[x Hx]|Hu]; [discriminate|]. rewrite Hu.
    apply wp_bind, (wp_keeps request_of); [keeps_request|]. intros created w8 H8.
    destruct (negb (fst created)).
    { apply wp_ret. split; [congruence|].
      split; [intros _; right; reflexivity|intros _; eexists; reflexivity]. }
    apply wp_bind, (wp_keeps request_of); [keeps_request|]. intros d w9 H9.
    apply wp_bind, (wp_keeps request_of); [keeps_request|]. intros _ w10 H10.
    apply wp_bind, wp_get.
    apply wp_bind, (wp_keeps request_of); [keeps_request|]. intros _ w11 H11.
    apply wp_ret. split; [congruence|].
    split; [intros _; right; reflexivity|intros _; eexists; reflexivity].
Qed.

End Keeps.

Section Handshake.

Import GPUThread GPUThreadEntry.

Lemma testbit_above (x n i : Z) : 0 <= x < 2 ^ n -> n <= i -> Z.testbit x i = false.
Proof.
  intros Hx Hi. destruct (Z.eq_dec x 0) as [->|Hnz]; [apply Z.testbit_0_l|].
  assert (Hlog : Z.log2 x < n) by (apply Z.log2_lt_pow2; lia).
  apply Z.bits_above_log2; lia.
Qed.

Lemma GetThreadWakeCount_flagged (x : Z) :
  0 <= x < 2 ^ 30 ->
  GetThreadWakeCount (Z.lor x THREAD_WAKE_COUNT_CPU_THREAD_IS_WAITING) = x
  /\ Z.land (Z.lor x THREAD_WAKE_COUNT_CPU_THREAD_IS_WAITING)
       THREAD_WAKE_COUNT_CPU_THREAD_IS_WAITING
     = THREAD_WAKE_COUNT_CPU_THREAD_IS_WAITING.
Proof.
  intros Hx. unfold GetThreadWakeCount, THREAD_WAKE_COUNT_CPU_THREAD_IS_WAITING.
  change 0x40000000 with (2 ^ 30).
  split; apply Z.bits_inj'; intros i Hi;
    rewrite ?Z.land_spec, ?Z.lor_spec, ?Z.lnot_spec, ?Z.pow2_bits_eqb by lia;
    destruct (Z.eqb_spec 30 i) as [<-|Hne];
    rewrite ?(testbit_above x 30 30 Hx) by lia;
    try destruct (Z.testbit x i); reflexivity.
Qed.

Lemma GetThreadWakeCount_sign (v : Z) : GetThreadWakeCount v < 0 <-> v < 0.
Proof.
  unfold GetThreadWakeCount. rewrite Z.land_neg.
  change (Z.lnot THREAD_WAKE_COUNT_CPU_THREAD_IS_WAITING) with (-1073741825). lia.
Qed.

Lemma GetThreadWakeCount_small (x : Z) : 0 <= x < 2 ^ 30 -> GetThreadWakeCount x = x.
Proof.
  intros Hx. unfold GetThreadWakeCount, THREAD_WAKE_COUNT_CPU_THREAD_IS_WAITING.
  change 0x40000000 with (2 ^ 30).
  apply Z.bits_inj'; intros i Hi.
  rewrite Z.land_spec, Z.lnot_spec, Z.pow2_bits_eqb by lia.
  destruct (Z.eqb_spec 30 i) as [<-|Hne].
  - rewrite (testbit_above x 30 30 Hx) by lia. reflexivity.
  - apply andb_true_r.
Qed.

(** A CPU thread that pushes a command and syncs is answered with exactly
    one post of [thread_is_done_semaphore], and not before the worker has
    found no more work: [SyncGPUThread] sets the waiting flag and blocks;
    the worker's next [SleepGPUThread] pass acknowledges the work, keeps the
    flag and posts nothing; the pass after that finds no work, posts the
    semaphore once and clears the flag. *)
Theorem SyncGPUThread_is_answered_once_the_worker_runs_dry (cmd : GPUThreadCommand)
    (s : State) (allow_sleep : bool) :
  -1 <= thread_wake_count s < 2 ^ 30 - 2 ->
  exists s2 s3 s4,
    PushCommandAndSync cmd s = SyncWaits s2
    /\ thread_is_done_semaphore s2 = thread_is_done_semaphore s
    /\ sleep_pass allow_sleep s2 = SleepReturns true s3
    /\ thread_wake_count s3 = THREAD_WAKE_COUNT_CPU_THREAD_IS_WAITING
    /\ thread_is_done_semaphore s3 = thread_is_done_semaphore s
    /\ sleep_pass allow_sleep s3
       = (if allow_sleep then SleepParked s4 else SleepReturns false s4)
    /\ thread_is_done_semaphore s4 = thread_is_done_semaphore s + 1
    /\ thread_wake_count s4 = (if allow_sleep then THREAD_WAKE_COUNT_SLEEPING else 0)
    /\ GetThreadWakeCount (thread_wake_count s4) <= 0.
Proof.
  intros Hc.
  set (s1 := WakeGPUThread (publish cmd s)).
  assert (Hc1 : thread_wake_count s1 = thread_wake_count s + 2).
  { subst s1. rewrite WakeGPUThread_count. cbn. apply s32_small. lia. }
  assert (Hd1 : thread_is_done_semaphore s1 = thread_is_done_semaphore s).
  { subst s1. unfold WakeGPUThread. destruct (_ <? 0); reflexivity. }
  destruct (GetThreadWakeCount_flagged (thread_wake_count s + 2) ltac:(lia)) as [Hcount Hflag].
  assert (Hsync : PushCommandAndSync cmd s
                  = SyncWaits (set_thread_wake_count
                                 (Z.lor (thread_wake_count s + 2)
                                    THREAD_WAKE_COUNT_CPU_THREAD_IS_WAITING) s1)).
  { unfold PushCommandAndSync, SyncGPUThread. fold s1. rewrite Hc1.
    destruct (Z.ltb_spec (GetThreadWakeCount (thread_wake_count s + 2)) 0) as [Hneg|_];
      [apply (proj1 (GetThreadWakeCount_sign _)) in Hneg; lia|reflexivity]. }
  destruct allow_sleep; eexists _, _, _; (split; [exact Hsync|]);
    (split; [exact Hd1|]);
    (split;
     [unfold sleep_pass; cbn [thread_wake_count set_thread_wake_count]; rewrite Hcount;
      destruct (Z.gtb_spec (thread_wake_count s + 2) 0) as [_|Hle]; [reflexivity|lia]|]);
    (split; [cbn; exact Hflag|]); (split; [exact Hd1|]);
    (split;
     [unfold sleep_pass; cbn [thread_wake_count set_thread_wake_count]; rewrite Hflag;
      reflexivity|]);
    (split; [cbn; rewrite Hd1; reflexivity|]);
    (split; [reflexivity|]); cbn; discriminate.
Qed.

Lemma SyncGPUThread_is_answered_once_the_worker_runs_dry_witness :
  exists s2 s3 s4,
    PushCommandAndSync (mkCommand Reconfigure 64 0) s_state_init = SyncWaits s2
    /\ thread_is_done_semaphore s2 = thread_is_done_semaphore s_state_init
    /\ sleep_pass true s2 = SleepReturns true s3
    /\ thread_wake_count s3 = THREAD_WAKE_COUNT_CPU_THREAD_IS_WAITING
    /\ thread_is_done_semaphore s3 = thread_is_done_semaphore s_state_init
    /\ sleep_pass true s3 = SleepParked s4
    /\ thread_is_done_semaphore s4 = thread_is_done_semaphore s_state_init + 1
    /\ thread_wake_count s4 = THREAD_WAKE_COUNT_SLEEPING
    /\ GetThreadWakeCount (thread_wake_count s4) <= 0.
Proof.
  apply (SyncGPUThread_is_answered_once_the_worker_runs_dry
           (mkCommand Reconfigure 64 0) s_state_init true).
  cbn. lia.
Defined.

End Handshake.

Section Reconfiguration.

Import GPUThread Notions Triples GPUThreadEntry.
Local Open Scope worker_scope.

(** Switching to the software renderer never replaces the device: whatever
    API the present device has is kept, the old backend (asked for its VRAM
    first when the new one is to upload it) makes way for a software
    backend, and the result is what that backend's initialisation
    returned. *)
Theorem ReconfigureOnThread_software_keeps_the_device (e : Externals)
    (cmd : GPUThreadReconfigureCommand) (w : World) (d : GPUDevice) :
  renderer cmd = Some Software ->
  force_recreate_device cmd = false ->
  g_gpu_device w = Some d ->
  GetRenderAPI d <> API_None ->
  IsSameRenderAPI e (GetRenderAPI d) (GetRenderAPI d) = true ->
  let had := gpu_backend (s_state w) in
  let ok := fst (Backend_Initialize e SoftwareBackend (upload_vram cmd)) in
  let err := snd (Backend_Initialize e SoftwareBackend (upload_vram cmd)) in
  exists w',
    ReconfigureOnThread e cmd w
    = Returns (mkResult (Some ok) (if ok then None else keep_error cmd (Some err))) w'
    /\ calls w'
       = calls w
         ++ (if bool_decide (is_Some had) && upload_vram cmd then [BackendReadVRAM] else [])
         ++ from_option (fun b => [DestroyBackend b]) [] had
         ++ [CreateBackend SoftwareBackend;
             BackendInitialize SoftwareBackend (upload_vram cmd)]
         ++ (if ok then [UpdateDebugWindowConfig] else [])
    /\ gpu_backend (s_state w') = Some SoftwareBackend
    /\ g_gpu_device w'
       = Some (if ok then SetGPUTimingEnabled (g_settings_display_show_gpu_usage w) d else d).
Proof.
  intros Hr Hforce Hd Hapi Hsame had ok err. subst had ok err.
  destruct w as [s dev r1 r2 u last fs ui cs]. cbn in Hd. subst dev.
  destruct s as [wptr rwi rr fd twc tws tds gb rptr spc rif rv rapt rfu].
  destruct cmd as [rend fsc start vs thr force upl errp]. cbn in Hr, Hforce. subst rend force.
  unfold ReconfigureOnThread, CreateGPUBackendOnThread, DestroyGPUBackendOnThread.
  unfold deref_device, bind, get, when, call, modify_state, modify, ret.
  destruct gb as [b|]; destruct upl; destruct errp;
    cbn -[CreateDeviceOnThread DestroyDeviceOnThread];
    rewrite ?(bool_decide_eq_false_2 _ Hapi),
      ?(bool_decide_eq_true_2 (Some Software = Some Software) eq_refl),
      ?(bool_decide_eq_true_2 (Software = Software) eq_refl);
    cbn -[CreateDeviceOnThread DestroyDeviceOnThread];
    rewrite Hsame; cbn -[CreateDeviceOnThread DestroyDeviceOnThread];
    rewrite ?(bool_decide_eq_true_2 (Software = Software) eq_refl);
    cbn -[CreateDeviceOnThread DestroyDeviceOnThread];
    destruct (Backend_Initialize e SoftwareBackend _) as [ok err];
    destruct ok; cbn; eexists; (split; [reflexivity|]); cbn;
    rewrite <- ?app_assoc; repeat split.
Qed.

Lemma ReconfigureOnThread_software_keeps_the_device_witness :
  exists w',
    ReconfigureOnThread (Scenario.host 1 false PresentOK true Scenario.init_ok)
      (mkReconfigure (Some Software) None None VSyncFIFO true false true false)
      Scenario.running
    = Returns (mkResult (Some true) None) w'
    /\ calls w'
       = [BackendReadVRAM; DestroyBackend HardwareBackend; CreateBackend SoftwareBackend;
          BackendInitialize SoftwareBackend true; UpdateDebugWindowConfig]
    /\ gpu_backend (s_state w') = Some SoftwareBackend
    /\ g_gpu_device w' = Some (Scenario.device API_Vulkan).
Proof.
  apply (ReconfigureOnThread_software_keeps_the_device
           (Scenario.host 1 false PresentOK true Scenario.init_ok)
           (mkReconfigure (Some Software) None None VSyncFIFO true false true false)
           Scenario.running (Scenario.device API_Vulkan) eq_refl eq_refl eq_refl).
  - discriminate.
  - reflexivity.
Defined.


(** Whatever [ReconfigureOnThread] goes on to do, and whether it succeeds
    or not, the vsync mode and the throttle flag of the request are what
    the worker has stored when it returns, and the fullscreen-UI flag is the
    requested one, or the old one when the request names none. *)
Theorem ReconfigureOnThread_records_the_request (e : Externals)
    (cmd : GPUThreadReconfigureCommand) (w w' : World) (res : ReconfigureResult) :
  ReconfigureOnThread e cmd w = Returns res w' ->
  requested_vsync (s_state w') = vsync_mode cmd
  /\ requested_allow_present_throttle (s_state w') = allow_present_throttle cmd
  /\ requested_fullscreen_ui (s_state w')
     = default (requested_fullscreen_ui (s_state w)) (start_fullscreen_ui cmd).
Proof.
  intros Hrun.
  destruct (wp_returns _ _ _ _ _ (ReconfigureOnThread_wp e cmd w) Hrun) as [Hreq _].
  unfold request_of in Hreq. injection Hreq as H1 H2 H3. auto.
Qed.

Lemma ReconfigureOnThread_records_the_request_witness :
  exists res w',
    ReconfigureOnThread (Scenario.host 1 false PresentOK false Scenario.init_all_fail)
      (mkReconfigure (Some HardwareOpenGL) None None VSyncFIFO true false true true)
      Scenario.running
    = Returns res w'
    /\ result res = Some false
    /\ requested_vsync (s_state w') = VSyncFIFO
    /\ requested_allow_present_throttle (s_state w') = true
    /\ requested_fullscreen_ui (s_state w') = false.
Proof.
  eexists _, _. split; [vm_compute; reflexivity|]. split; [reflexivity|].
  eapply (ReconfigureOnThread_records_the_request
            (Scenario.host 1 false PresentOK false Scenario.init_all_fail)
            (mkReconfigure (Some HardwareOpenGL) None None VSyncFIFO true false true true)
            Scenario.running).
  vm_compute. reflexivity.
Defined.

(** [cmd->result] is left unassigned exactly when the request names no
    renderer and the fullscreen UI ends up not requested (everything is shut
    down).  The requests of [CreateGPUBackend] and of [StartFullscreenUI],
    the two callers that return the result, always have it assigned. *)
Theorem ReconfigureOnThread_assigns_the_result (e : Externals)
    (cmd : GPUThreadReconfigureCommand) (w w' : World) (res : ReconfigureResult) :
  ReconfigureOnThread e cmd w = Returns res w' ->
  (result res = None
   <-> renderer cmd = None /\ requested_fullscreen_ui (s_state w') = false)
  /\ (forall (vsync : GPUVSyncMode) (throttle : bool) (r : GPURenderer)
             (upload fs force err : bool),
        cmd = Reconfigure_command vsync throttle (Some r) upload
                (if fs then Some true else None) None force err ->
        is_Some (result res))
  /\ (forall (vsync : GPUVSyncMode) (throttle fs err : bool),
        StartFullscreenUI e vsync throttle fs err = ReconfigureRequest cmd ->
        is_Some (result res)).
Proof.
  intros Hrun.
  destruct (wp_returns _ _ _ _ _ (ReconfigureOnThread_wp e cmd w) Hrun) as [Hreq Hres].
  unfold request_of in Hreq. injection Hreq as _ _ Hui. rewrite <- Hui in Hres.
  assert (Hnone : result res = None
                  <-> renderer cmd = None /\ requested_fullscreen_ui (s_state w') = false).
  { rewrite !eq_None_not_Some, <- not_true_iff_false. tauto. }
  split; [exact Hnone|]. split.
  - intros vsync throttle r upload fs force err ->.
    apply Hres. left. eexists. reflexivity.
  - intros vsync throttle fs err Hstart. unfold StartFullscreenUI in Hstart.
    destruct (System_IsValid e); [discriminate|]. injection Hstart as <-.
    apply Hres. right. cbn in Hui. rewrite Hui. reflexivity.
Qed.

Lemma ReconfigureOnThread_assigns_the_result_witness :
  exists res w',
    ReconfigureOnThread (Scenario.host 1 false PresentOK false Scenario.init_ok)
      (mkReconfigure None None (Some false) VSyncDisabled false false false false)
      Scenario.running
    = Returns res w'
    /\ (result res = None
        <-> renderer (mkReconfigure None None (Some false) VSyncDisabled false false
                        false false) = None
            /\ requested_fullscreen_ui (s_state w') = false).
Proof.
  eexists _, _. split; [vm_compute; reflexivity|].
  eapply (ReconfigureOnThread_assigns_the_result
            (Scenario.host 1 false PresentOK false Scenario.init_ok)
            (mkReconfigure None None (Some false) VSyncDisabled false false false false)
            Scenario.running).
  vm_compute. reflexivity.
Defined.


(** [CreateDeviceOnThread] always returns, [true] exactly when it leaves a
    device in [g_gpu_device].  On success the device is the one created,
    the fullscreen UI is up if it was requested, and of the worker's state
    only [render_window_info] is written: the window of the main swap
    chain, or the default one without a swap chain.  On either failure (the
    device could not be created, or the UI layers did not come up) the
    pointer is empty again, the worker's state is as it was, the message
    is stored, and what the attempt had obtained is given back: the device
    object is destroyed if there was one, the window released if it had
    been acquired. *)
Theorem CreateDeviceOnThread_returns_true_iff_a_device_is_left (e : Externals)
    (api : RenderAPI) (fullscreen : bool) (w : World) :
  exists ok err w',
    CreateDeviceOnThread e api fullscreen w = Returns (ok, err) w'
    /\ (ok = true <-> is_Some (g_gpu_device w'))
    /\ (ok = false <-> is_Some err)
    /\ (ok = true ->
        exists d,
          device_create e api fullscreen = Some d
          /\ g_gpu_device w' = Some d
          /\ (requested_fullscreen_ui (s_state w) = true ->
              FullscreenUI_IsInitialized w' = true)
          /\ s_state w'
             = set_render_window_info
                 (if HasMainSwapChain d then GetWindowInfo e d else WindowInfo_default)
                 (s_state w)
          /\ calls w' = calls w ++ [CreateDeviceForAPI api fullscreen])
    /\ (ok = false ->
        s_state w' = s_state w
        /\ err = Some (match device_create e api fullscreen with
                       | Some _ => ui_error_message e
                       | None => create_error_message e api fullscreen
                       end)
        /\ calls w'
           = calls w
             ++ CreateDeviceForAPI api fullscreen
             :: match device_create e api fullscreen with
                | Some _ => [DestroyDevice api; ReleaseRenderWindow]
                | None =>
                    match create_failure e api fullscreen with
                    | NoDeviceObject => []
                    | NoRenderWindow => [DestroyDevice api]
                    | CreateFailed => [DestroyDevice api; ReleaseRenderWindow]
                    end
                end).
Proof.
  destruct w as [s dev r1 r2 u last fs ui cs].
  destruct s as [wptr rwi rr fd twc tws tds gb rptr spc rif rv rapt rfu].
  unfold CreateDeviceOnThread, bind, get, when, call, modify_state, modify, ret.
  destruct (device_create e api fullscreen) as [d|] eqn:Hcreate; cbn.
  - destruct (ImGuiManager_Initialize e); cbn;
      destruct rfu; cbn;
      try destruct (FullscreenUI_Initialize e); cbn;
      eexists _, _, _; (split; [reflexivity|]); cbn;
      (split; [split; intros H; try discriminate; try (eexists; reflexivity);
               destruct H; discriminate|]);
      (split; [split; intros H; try discriminate; try (eexists; reflexivity);
               destruct H; discriminate|]);
      (split; [intros H; try discriminate; exists d; rewrite <- ?app_assoc;
               repeat split; intros; try discriminate; reflexivity
              |intros H; try discriminate; rewrite <- ?app_assoc;
               repeat split; reflexivity]).
  - destruct (create_failure e api fullscreen); cbn;
      eexists _, _, _; (split; [reflexivity|]); cbn;
      (split; [split; intros H; try discriminate; destruct H; discriminate|]);
      (split; [split; intros H; try (eexists; reflexivity); reflexivity|]);
      (split; [intros H; discriminate|intros _]);
      rewrite <- ?app_assoc; repeat split; reflexivity.
Qed.

(** [CreateGPUBackendOnThread] never leaves [s_state.gpu_backend] empty.
    When it returns [true] the backend it holds has been initialised; when
    it returns [false] the software backend whose initialisation failed is
    still installed, and the error is that backend's. *)
Theorem CreateGPUBackendOnThread_leaves_a_backend_installed (e : Externals)
    (renderer : GPURenderer) (upload : bool) (w w' : World) (ok : bool)
    (err : option string) :
  CreateGPUBackendOnThread e renderer upload w = Returns (ok, err) w' ->
  exists b,
    gpu_backend (s_state w') = Some b
    /\ fst (Backend_Initialize e b upload) = ok
    /\ (ok = false ->
        b = SoftwareBackend
        /\ err = Some (snd (Backend_Initialize e SoftwareBackend upload)))
    /\ (b = HardwareBackend -> renderer <> Software /\ ok = true).
Proof.
  destruct w as [s dev r1 r2 u last fs ui cs].
  destruct s as [wptr rwi rr fd twc tws tds gb rptr spc rif rv rapt rfu].
  unfold CreateGPUBackendOnThread, deref_device, bind, get, when, call, modify_state,
    modify, ret.
  destruct (bool_decide (renderer = Software)) eqn:Hsw; cbn.
  - apply bool_decide_eq_true in Hsw.
    destruct (Backend_Initialize e SoftwareBackend upload) as [ok1 err1] eqn:Hinit.
    destruct ok1; cbn; [destruct dev; cbn|]; intros [= <- <- <-];
      exists SoftwareBackend; rewrite Hinit; cbn;
      repeat split; intros; try discriminate; congruence.
  - apply bool_decide_eq_false in Hsw.
    destruct (Backend_Initialize e HardwareBackend upload) as [ok1 err1] eqn:Hinit.
    destruct ok1; cbn.
    + destruct dev; cbn; intros [= <- <- <-].
      exists HardwareBackend. rewrite Hinit. cbn.
      repeat split; intros; try discriminate; congruence.
    + destruct rr as [r0|]; cbn; [|discriminate].
      destruct (Backend_Initialize e SoftwareBackend upload) as [ok2 err2] eqn:Hinit2.
      destruct ok2; cbn; [destruct dev; cbn|]; intros [= <- <- <-];
        exists SoftwareBackend; rewrite Hinit2; cbn;
        repeat split; intros; try discriminate; congruence.
Qed.

Lemma CreateGPUBackendOnThread_leaves_a_backend_installed_witness :
  exists b,
    gpu_backend
      (s_state
         (set_calls [CreateBackend HardwareBackend; BackendInitialize HardwareBackend true;
                     AddIconOSDMessage "GPUBackendCreationFailed";
                     CreateBackend SoftwareBackend; BackendInitialize SoftwareBackend true]
            (set_s_state
               (set_gpu_backend (Some SoftwareBackend)
                  (set_requested_renderer (Some Software) Scenario.running_state))
               Scenario.running))) = Some b
    /\ fst (Scenario.init_all_fail b true) = false
    /\ (false = false ->
        b = SoftwareBackend
        /\ Some "software backend failed"
           = Some (snd (Scenario.init_all_fail SoftwareBackend true)))
    /\ (b = HardwareBackend -> HardwareVulkan <> Software /\ false = true).
Proof.
  apply (CreateGPUBackendOnThread_leaves_a_backend_installed
           (Scenario.host 1 false PresentOK true Scenario.init_all_fail)
           HardwareVulkan true Scenario.running).
  vm_compute. reflexivity.
Defined.

End Reconfiguration.

Section BackendControl.

Import GPUThread Notions Triples GPUThreadEntry WorkerTactics.
Local Open Scope worker_scope.

Ltac worker_words :=
  unfold DestroyGPUBackend, CreateGPUBackend, GPUThread_Reconfigure, Reconfigure_command,
    GetRequestedRenderer, ReconfigureOnThread, CreateGPUBackendOnThread,
    CreateDeviceOnThread, DestroyGPUBackendOnThread, DestroyDeviceOnThread, keep_error,
    deref_device, bind, get, when, call, modify_state, modify, ret.

(** [DestroyGPUBackend] leaves neither a backend nor a requested renderer.
    While the fullscreen UI is not requested the device goes as well; while
    it is, a device whose API is still the expected one is kept, with GPU
    timing switched off, and the fullscreen UI is brought up on it if it
    was not. *)
Theorem DestroyGPUBackend_keeps_the_device_only_for_the_fullscreen_ui (e : Externals)
    (vsync : GPUVSyncMode) (throttle : bool) (w : World) :
  (requested_fullscreen_ui (s_state w) = false ->
   exists w',
     DestroyGPUBackend e vsync throttle w = Returns tt w'
     /\ gpu_backend (s_state w') = None
     /\ GetRequestedRenderer w' = None
     /\ g_gpu_device w' = None
     /\ calls w'
        = calls w
          ++ from_option (fun b => [DestroyBackend b]) [] (gpu_backend (s_state w))
          ++ from_option
               (fun d => DestroyDevice (GetRenderAPI d)
                         :: (if HasMainSwapChain d then [ReleaseRenderWindow] else []))
               [] (g_gpu_device w))
  /\ (requested_fullscreen_ui (s_state w) = true ->
      forall d,
        g_gpu_device w = Some d ->
        IsSameRenderAPI e (GetRenderAPI d)
          (GetRenderAPIForRenderer e
             (default (g_settings_gpu_renderer w) (requested_renderer (s_state w))))
        = true ->
        exists w',
          DestroyGPUBackend e vsync throttle w = Returns tt w'
          /\ gpu_backend (s_state w') = None
          /\ GetRequestedRenderer w' = None
          /\ g_gpu_device w' = Some (SetGPUTimingEnabled false d)
          /\ FullscreenUI_IsInitialized w'
             = FullscreenUI_IsInitialized w || FullscreenUI_Initialize e
          /\ calls w'
             = calls w
               ++ from_option (fun b => [DestroyBackend b]) [] (gpu_backend (s_state w))).
Proof.
  destruct w as [s dev r1 r2 u last fs ui cs].
  destruct s as [wptr rwi rr fd twc tws tds gb rptr spc rif rv rapt rfu].
  split.
  - intros Hui. cbn in Hui. subst rfu. worker_words.
    destruct dev as [d|], gb as [b|]; world_norm; worker_cases;
      eexists; (split; [reflexivity|]); world_norm;
      rewrite <- ?app_assoc, ?app_nil_r; repeat (split; [reflexivity|]); reflexivity.
  - intros Hui d Hd Hsame. cbn in Hui, Hd, Hsame. subst rfu dev. worker_words.
    destruct gb as [b|]; world_norm;
      cbn -[Qle_bool Int.u32 Int.u64];
      rewrite ?(bool_decide_eq_false_2 (None = Some Software)) by discriminate;
      cbn -[Qle_bool Int.u32 Int.u64]; rewrite Hsame;
      cbn -[Qle_bool Int.u32 Int.u64];
      eexists; (split; [reflexivity|]); world_norm;
      rewrite <- ?app_assoc, ?app_nil_r; repeat (split; [reflexivity|]); reflexivity.
Qed.


Lemma DestroyGPUBackend_keeps_the_device_only_for_the_fullscreen_ui_witness :
  (exists w',
     DestroyGPUBackend (Scenario.host 1 false PresentOK false Scenario.init_ok)
       VSyncDisabled false Scenario.running = Returns tt w'
     /\ gpu_backend (s_state w') = None
     /\ GetRequestedRenderer w' = None
     /\ g_gpu_device w' = None
     /\ calls w' = [DestroyBackend HardwareBackend; DestroyDevice API_Vulkan;
                    ReleaseRenderWindow])
  /\ (exists w',
        DestroyGPUBackend (Scenario.host 1 false PresentOK false Scenario.init_ok)
          VSyncDisabled false
          (set_s_state (set_requested_fullscreen_ui true Scenario.running_state)
             Scenario.running) = Returns tt w'
        /\ gpu_backend (s_state w') = None
        /\ GetRequestedRenderer w' = None
        /\ g_gpu_device w' = Some (SetGPUTimingEnabled false (Scenario.device API_Vulkan))
        /\ FullscreenUI_IsInitialized w' = true
        /\ calls w' = [DestroyBackend HardwareBackend]).
Proof.
  split.
  - apply (DestroyGPUBackend_keeps_the_device_only_for_the_fullscreen_ui
             (Scenario.host 1 false PresentOK false Scenario.init_ok)
             VSyncDisabled false Scenario.running).
    reflexivity.
  - apply (proj2 (DestroyGPUBackend_keeps_the_device_only_for_the_fullscreen_ui
                    (Scenario.host 1 false PresentOK false Scenario.init_ok)
                    VSyncDisabled false
                    (set_s_state (set_requested_fullscreen_ui true Scenario.running_state)
                       Scenario.running))
             eq_refl (Scenario.device API_Vulkan) eq_refl eq_refl).
Defined.

(** What [CreateGPUBackendOnThread] guarantees when it returns [true], and
    what it does to the requested renderer. *)
Lemma CreateGPUBackendOnThread_wp (e : Externals) (r : GPURenderer) (upload : bool)
    (w : World) :
  wp (CreateGPUBackendOnThread e r upload)
     (fun res w' =>
        (fst res = true ->
         is_Some (g_gpu_device w') /\ is_Some (gpu_backend (s_state w')))
        /\ (requested_renderer (s_state w') = requested_renderer (s_state w)
            \/ requested_renderer (s_state w') = Some Software))
     w.
Proof.
  destruct w as [s dev r1 r2 u last fs ui cs].
  destruct s as [wptr rwi rr fd twc tws tds gb rptr spc rif rv rapt rfu].
  unfold wp, CreateGPUBackendOnThread, deref_device, bind, get, when, call, modify_state,
    modify, ret.
  destruct (bool_decide (r = Software)); cbn;
    destruct (Backend_Initialize e _ upload) as [ok1 err1]; destruct ok1; cbn;
    try (destruct rr; cbn; [|exact I];
         destruct (Backend_Initialize e SoftwareBackend upload) as [ok2 err2];
         destruct ok2; cbn);
    try (destruct dev; cbn; [|exact I]);
    (split; [intros; try discriminate; split; eexists; reflexivity|]); auto.
Qed.

(** When [CreateGPUBackend] reports success there is a device and a backend,
    and the renderer the CPU thread is told about by [GetRequestedRenderer]
    is the one it asked for or, after a fallback, Software. *)
Theorem CreateGPUBackend_success_means_a_device_and_a_backend (e : Externals)
    (vsync : GPUVSyncMode) (throttle : bool) (renderer : GPURenderer)
    (upload fullscreen force error : bool) (w w' : World) (res : ReconfigureResult) :
  CreateGPUBackend e vsync throttle renderer upload fullscreen force error w
  = Returns res w' ->
  is_Some (result res)
  /\ (result res = Some true ->
      is_Some (g_gpu_device w') /\ is_Some (gpu_backend (s_state w')))
  /\ (GetRequestedRenderer w' = Some renderer \/ GetRequestedRenderer w' = Some Software).
Proof.
  intros Hrun. revert Hrun.
  apply (wp_returns
           (CreateGPUBackend e vsync throttle renderer upload fullscreen force error)
           (fun res w' =>
              is_Some (result res)
              /\ (result res = Some true ->
                  is_Some (g_gpu_device w') /\ is_Some (gpu_backend (s_state w')))
              /\ (GetRequestedRenderer w' = Some renderer
                  \/ GetRequestedRenderer w' = Some Software))).
  set (rr := fun w : World => requested_renderer (s_state w)).
  assert (Hkd : keeps rr DestroyGPUBackendOnThread)
    by (unfold DestroyGPUBackendOnThread; repeat keeps_step).
  assert (Hkv : keeps rr DestroyDeviceOnThread)
    by (unfold DestroyDeviceOnThread; repeat keeps_step).
  assert (Hkc : forall api fs, keeps rr (CreateDeviceOnThread e api fs))
    by (intros; unfold CreateDeviceOnThread; repeat keeps_step).
  unfold CreateGPUBackend, GPUThread_Reconfigure, ReconfigureOnThread, Reconfigure_command.
  cbn [GPUThread.renderer vsync_mode allow_present_throttle start_fullscreen_ui
       upload_vram force_recreate_device GPUThread.fullscreen].
  apply wp_bind, wp_modify.
  apply wp_bind, wp_modify. apply wp_bind, wp_modify. apply wp_bind, wp_modify.
  apply wp_bind, wp_get.
  match goal with
  | |- wp _ _ ?w3 =>
      assert (Hreq : rr w3 = Some renderer) by reflexivity;
      generalize Hreq; generalize w3; clear Hreq; intros w0 Hreq
  end.
  rewrite (bool_decide_eq_true_2 (is_Some (Some renderer))) by (eexists; reflexivity).
  cbn [negb andb].
  apply wp_bind, (wp_keeps rr); [repeat keeps_step|]. intros _ w4 H4.
  apply wp_bind, (wp_keeps rr); [repeat keeps_step|]. intros _ w5 H5.
  apply wp_bind, (wp_keeps rr); [exact Hkd|]. intros _ w6 H6.
  apply wp_bind, wp_get.
  apply wp_bind, (wp_keeps rr);
    [repeat first [ exact Hkv | apply Hkc | keeps_step ]|].
  intros device_ok w7 H7.
  destruct (negb (fst device_ok)).
  { apply wp_ret. split; [eexists; reflexivity|]. split; [discriminate|].
    left. unfold GetRequestedRenderer. change (rr w7 = Some renderer). congruence. }
  apply wp_bind.
  pose proof (CreateGPUBackendOnThread_wp e renderer upload w7) as Hb.
  unfold wp in Hb |- *.
  destruct (CreateGPUBackendOnThread e renderer upload w7) as [b w8|msg w8|what];
    [|exact I|exact I].
  destruct Hb as [Hok Hrr]. cbn. split; [eexists; reflexivity|]. split.
  - intros [= Hb]. apply Hok. exact Hb.
  - unfold GetRequestedRenderer. fold (rr w8).
    destruct Hrr as [Hsame|Hsw]; [left|right; exact Hsw].
    change (rr w8 = rr w7) in Hsame. congruence.
Qed.

Lemma CreateGPUBackend_success_means_a_device_and_a_backend_witness :
  exists res w',
    CreateGPUBackend (Scenario.host 1 false PresentOK false Scenario.init_hw_fails)
      VSyncFIFO false HardwareOpenGL false false false true
      (set_g_gpu_device None (set_s_state s_state_init Scenario.running))
    = Returns res w'
    /\ result res = Some true
    /\ is_Some (g_gpu_device w') /\ is_Some (gpu_backend (s_state w'))
    /\ GetRequestedRenderer w' = Some Software.
Proof.
  eexists _, _. split; [vm_compute; reflexivity|]. split; [reflexivity|].
  destruct (CreateGPUBackend_success_means_a_device_and_a_backend
              (Scenario.host 1 false PresentOK false Scenario.init_hw_fails)
              VSyncFIFO false HardwareOpenGL false false false true
              (set_g_gpu_device None (set_s_state s_state_init Scenario.running))
              _ _ ltac:(vm_compute; reflexivity)) as (_ & Hok & _).
  destruct (Hok eq_refl) as [Hd Hb]. split; [exact Hd|]. split; [exact Hb|]. reflexivity.
Defined.

End BackendControl.

Section FullscreenUIStart.

Import GPUThread Notions Triples GPUThreadEntry WorkerTactics.
Local Open Scope worker_scope.

(** Without a system, [StartFullscreenUI] reconfigures the worker: on a
    worker that has neither device nor backend a device is created for the
    API of the configured renderer, in the fullscreen state asked for, and
    the fullscreen UI is brought up on it with GPU timing off.  If the
    device cannot be created the request fails, the device pointer stays
    empty, and what is stored through a non-null [error] is the message of
    [CreateDeviceOnThread]. *)
Theorem StartFullscreenUI_without_system_creates_a_device (e : Externals)
    (vsync : GPUVSyncMode) (throttle fullscreen error : bool) (w : World) :
  System_IsValid e = false ->
  g_gpu_device w = None ->
  gpu_backend (s_state w) = None ->
  let api := GetRenderAPIForRenderer e
               (default (g_settings_gpu_renderer w) (requested_renderer (s_state w))) in
  let request := StartFullscreenUI e vsync throttle fullscreen error in
  (forall d,
     device_create e api fullscreen = Some d ->
     ImGuiManager_Initialize e = true ->
     FullscreenUI_Initialize e = true ->
     exists w',
       execute e request w = Returns tt w'
       /\ requested_fullscreen_ui (s_state w') = true
       /\ g_gpu_device w' = Some (SetGPUTimingEnabled false d)
       /\ FullscreenUI_IsInitialized w' = true
       /\ gpu_backend (s_state w') = None
       /\ calls w' = calls w ++ [CreateDeviceForAPI api fullscreen])
  /\ (device_create e api fullscreen = None ->
      exists cmd res w',
        request = ReconfigureRequest cmd
        /\ ReconfigureOnThread e cmd w = Returns res w'
        /\ result res = Some false
        /\ error_stored res
           = (if error then Some (create_error_message e api fullscreen) else None)
        /\ g_gpu_device w' = None).
Proof.
  intros Hvalid Hd Hb api request. subst api request.
  destruct w as [s dev r1 r2 u last fs ui cs].
  destruct s as [wptr rwi rr fd twc tws tds gb rptr spc rif rv rapt rfu].
  cbn in Hd, Hb. subst dev gb.
  unfold StartFullscreenUI, execute. rewrite Hvalid.
  split.
  - intros d Hcreate Himgui Hfsui. cbn in Hcreate.
    unfold Reconfigure_command, ReconfigureOnThread, CreateGPUBackendOnThread,
      CreateDeviceOnThread, DestroyGPUBackendOnThread, DestroyDeviceOnThread, keep_error,
      deref_device, bind, get, when, call, modify_state, modify, ret.
    destruct (IsSameRenderAPI e API_None (GetRenderAPIForRenderer e (default r1 rr)))
      eqn:Hsame;
      repeat (progress (cbn -[Qle_bool Int.u32 Int.u64];
                        rewrite ?(bool_decide_eq_false_2 (None = Some Software))
                          by discriminate;
                        rewrite ?Hsame, ?Hcreate, ?Himgui, ?Hfsui));
      eexists; (split; [reflexivity|]); cbn;
      rewrite <- ?app_assoc, ?app_nil_r; repeat (split; [reflexivity|]); reflexivity.
  - intros Hcreate. cbn in Hcreate.
    destruct (IsSameRenderAPI e API_None (GetRenderAPIForRenderer e (default r1 rr)))
      eqn:Hsame;
      destruct (create_failure e (GetRenderAPIForRenderer e (default r1 rr)) fullscreen)
        eqn:Hfail;
      eexists _, _, _; (split; [reflexivity|]);
      unfold Reconfigure_command, ReconfigureOnThread, CreateGPUBackendOnThread,
        CreateDeviceOnThread, DestroyGPUBackendOnThread, DestroyDeviceOnThread, keep_error,
        deref_device, bind, get, when, call, modify_state, modify, ret;
      repeat (progress (cbn -[Qle_bool Int.u32 Int.u64];
                        rewrite ?(bool_decide_eq_false_2 (None = Some Software))
                          by discriminate;
                        rewrite ?(bool_decide_eq_true_2 (API_None = API_None))
                          by reflexivity;
                        rewrite ?Hsame, ?Hcreate, ?Hfail));
      (split; [reflexivity|]); cbn;
      destruct error; repeat (split; [reflexivity|]); reflexivity.
Qed.


Lemma StartFullscreenUI_without_system_creates_a_device_witness :
  exists w',
    execute (Scenario.host 1 false PresentOK false Scenario.init_ok)
      (StartFullscreenUI (Scenario.host 1 false PresentOK false Scenario.init_ok)
         VSyncFIFO false true true)
      (set_g_gpu_device None (set_s_state s_state_init Scenario.running))
    = Returns tt w'
    /\ requested_fullscreen_ui (s_state w') = true
    /\ g_gpu_device w' = Some (SetGPUTimingEnabled false (Scenario.device API_Vulkan))
    /\ FullscreenUI_IsInitialized w' = true
    /\ gpu_backend (s_state w') = None
    /\ calls w' = [CreateDeviceForAPI API_Vulkan true].
Proof.
  apply (proj1 (StartFullscreenUI_without_system_creates_a_device
                  (Scenario.host 1 false PresentOK false Scenario.init_ok)
                  VSyncFIFO false true true
                  (set_g_gpu_device None (set_s_state s_state_init Scenario.running))
                  eq_refl eq_refl eq_refl)
           (Scenario.device API_Vulkan) eq_refl eq_refl eq_refl).
Defined.


(* The two ways [CreateDeviceOnThread] ends, as equations. *)
Lemma CreateDeviceOnThread_fails (e : Externals) (api : RenderAPI) (fullscreen : bool)
    (w : World) :
  device_create e api fullscreen = None ->
  CreateDeviceOnThread e api fullscreen w
  = Returns (false, Some (create_error_message e api fullscreen))
      (set_calls
         (calls w
          ++ CreateDeviceForAPI api fullscreen
          :: match create_failure e api fullscreen with
             | NoDeviceObject => []
             | NoRenderWindow => [DestroyDevice api]
             | CreateFailed => [DestroyDevice api; ReleaseRenderWindow]
             end)
         (set_g_gpu_device None w)).
Proof.
  intros Hnone. destruct w as [s dev r1 r2 u last fs ui cs].
  unfold CreateDeviceOnThread, bind, get, when, call, modify_state, modify, ret.
  cbn. rewrite Hnone.
  destruct (create_failure e api fullscreen);
    repeat (case_bool_decide; try congruence); cbn; rewrite <- ?app_assoc; reflexivity.
Qed.

Lemma CreateDeviceOnThread_succeeds (e : Externals) (api : RenderAPI) (fullscreen : bool)
    (w : World) (d : GPUDevice) :
  device_create e api fullscreen = Some d ->
  ImGuiManager_Initialize e = true ->
  FullscreenUI_Initialize e = true ->
  CreateDeviceOnThread e api fullscreen w
  = Returns (true, None)
      (set_s_state
         (set_render_window_info
            (if HasMainSwapChain d then GetWindowInfo e d else WindowInfo_default)
            (s_state w))
         (set_FullscreenUI_IsInitialized
            (requested_fullscreen_ui (s_state w) || FullscreenUI_IsInitialized w)
            (set_g_gpu_device (Some d)
               (set_calls (calls w ++ [CreateDeviceForAPI api fullscreen]) w)))).
Proof.
  intros Hsome Himgui Hfsui. destruct w as [s dev r1 r2 u last fs ui cs].
  unfold CreateDeviceOnThread, bind, get, when, call, modify_state, modify, ret.
  cbn. rewrite Hsome. cbn. rewrite Himgui, Hfsui. cbn.
  destruct (requested_fullscreen_ui s); cbn; reflexivity.
Qed.
(** When the device for the new renderer cannot be created, the worker goes
    back to the API of the device it had.  The failed attempt first cleans
    up after itself, according to how far it got: nothing if no device
    object was made, the device object destroyed if the render window could
    not be acquired, and the device destroyed and the render window released
    if the device's own creation failed.  Then the failure is shown on
    screen, the render window is released (a second time in the last case),
    a device of the old API is created again in the same fullscreen state,
    its window is recorded, and the backend asked for is brought up on that
    device. *)
Theorem ReconfigureOnThread_reverts_to_the_old_device_api (e : Externals)
    (cmd : GPUThreadReconfigureCommand) (w : World) (d d2 : GPUDevice) (r : GPURenderer) :
  renderer cmd = Some r ->
  r <> Software ->
  g_gpu_device w = Some d ->
  GetRenderAPI d <> API_None ->
  let had := gpu_backend (s_state w) in
  let old_api := GetRenderAPI d in
  let new_api := GetRenderAPIForRenderer e
                   (default (g_settings_gpu_renderer w) (requested_renderer (s_state w))) in
  let fs := default (Host_IsFullscreen w) (fullscreen cmd) in
  IsSameRenderAPI e old_api new_api = false ->
  device_create e new_api fs = None ->
  device_create e old_api fs = Some d2 ->
  ImGuiManager_Initialize e = true ->
  FullscreenUI_Initialize e = true ->
  fst (Backend_Initialize e HardwareBackend (upload_vram cmd)) = true ->
  exists w',
    ReconfigureOnThread e cmd w = Returns (mkResult (Some true) None) w'
    /\ g_gpu_device w'
       = Some (SetGPUTimingEnabled (g_settings_display_show_gpu_usage w) d2)
    /\ gpu_backend (s_state w') = Some HardwareBackend
    /\ render_window_info (s_state w')
       = (if HasMainSwapChain d2 then GetWindowInfo e d2 else WindowInfo_default)
    /\ calls w'
       = calls w
         ++ (if bool_decide (is_Some had) && upload_vram cmd then [BackendReadVRAM] else [])
         ++ from_option (fun b => [DestroyBackend b]) [] had
         ++ DestroyDevice old_api
         :: (if HasMainSwapChain d then [ReleaseRenderWindow] else [])
         ++ CreateDeviceForAPI new_api fs
         :: match create_failure e new_api fs with
            | NoDeviceObject => []
            | NoRenderWindow => [DestroyDevice new_api]
            | CreateFailed => [DestroyDevice new_api; ReleaseRenderWindow]
            end
         ++ [AddIconOSDMessage "DeviceSwitchFailed";
             ReleaseRenderWindow; CreateDeviceForAPI old_api fs;
             CreateBackend HardwareBackend;
             BackendInitialize HardwareBackend (upload_vram cmd);
             UpdateDebugWindowConfig].
Proof.
  intros Hr Hhw Hd Hapi had old_api new_api fs0 Hsame Hnew Hold Himgui Hfsui Hinit.
  subst had old_api new_api fs0.
  destruct w as [s dev r1 r2 u last fs ui cs].
  destruct s as [wptr rwi rr fd twc tws tds gb rptr spc rif rv rapt rfu].
  destruct cmd as [rend fsc start vs thr force upl errp].
  cbn in Hr, Hd, Hsame, Hnew, Hold, Hinit. subst rend dev.
  unfold ReconfigureOnThread, CreateGPUBackendOnThread,
    DestroyGPUBackendOnThread, DestroyDeviceOnThread, keep_error,
    deref_device, bind, get, when, call, modify_state, modify, ret.
  destruct (Backend_Initialize e HardwareBackend upl) as [ok err] eqn:Hbi.
  cbn in Hinit. subst ok.
  assert (Hsw : bool_decide (Some r = Some Software) = false)
    by (apply bool_decide_eq_false_2; congruence).
  assert (Hsw2 : bool_decide (r = Software) = false)
    by (apply bool_decide_eq_false_2; congruence).
  destruct (HasMainSwapChain d) eqn:Hwin; destruct force; destruct errp;
    destruct gb as [b|]; destruct upl;
    repeat (progress (cbn -[Qle_bool Int.u32 Int.u64 CreateDeviceOnThread];
                      rewrite ?Hsw, ?Hsw2, ?(bool_decide_eq_false_2 _ Hapi);
                      rewrite ?Hwin, ?Hsame, ?Hbi;
                      rewrite ?(CreateDeviceOnThread_fails _ _ _ _ Hnew);
                      rewrite ?(CreateDeviceOnThread_succeeds _ _ _ _ _ Hold Himgui Hfsui)));
    eexists; (split; [reflexivity|]); cbn;
    rewrite <- ?app_assoc, ?app_nil_r; cbn; repeat (split; [reflexivity|]); reflexivity.
Qed.


Lemma ReconfigureOnThread_reverts_to_the_old_device_api_witness :
  let e := Cases.host_lacking API_D3D12 in
  let cmd := mkReconfigure (Some HardwareD3D12) None None VSyncDisabled false false true
               true in
  let w := set_s_state (set_requested_renderer (Some HardwareD3D12) Scenario.running_state)
             Scenario.running in
  exists w',
    ReconfigureOnThread e cmd w = Returns (mkResult (Some true) None) w'
    /\ g_gpu_device w' = Some (SetGPUTimingEnabled false (Scenario.device API_Vulkan))
    /\ gpu_backend (s_state w') = Some HardwareBackend
    /\ render_window_info (s_state w') = WindowInfo_of 1
    /\ calls w'
       = [BackendReadVRAM; DestroyBackend HardwareBackend; DestroyDevice API_Vulkan;
          ReleaseRenderWindow; CreateDeviceForAPI API_D3D12 false;
          DestroyDevice API_D3D12; ReleaseRenderWindow;
          AddIconOSDMessage "DeviceSwitchFailed"; ReleaseRenderWindow;
          CreateDeviceForAPI API_Vulkan false; CreateBackend HardwareBackend;
          BackendInitialize HardwareBackend true; UpdateDebugWindowConfig].
Proof.
  cbv zeta.
  apply (ReconfigureOnThread_reverts_to_the_old_device_api
           (Cases.host_lacking API_D3D12)
           (mkReconfigure (Some HardwareD3D12) None None VSyncDisabled false false true true)
           (set_s_state (set_requested_renderer (Some HardwareD3D12) Scenario.running_state)
              Scenario.running)
           (Scenario.device API_Vulkan) (Scenario.device API_Vulkan) HardwareD3D12);
    try reflexivity; discriminate.
Defined.

End FullscreenUIStart.

Section DeviceLoss.

Import GPUThread Notions Triples GPUThreadEntry WorkerTactics.
Local Open Scope worker_scope.

(** The minimum interval is measured from the last recovery and is
    inclusive at its end: a loss that comes 15 seconds or more after the
    previous recovery is recovered from like the first one, and the time of
    this recovery is what the next loss is measured against. *)
Theorem HandleGPUDeviceLost_recovers_again_after_the_interval (e : Externals) (w : World)
    (d d' : GPUDevice) (b : Backend) (r : GPURenderer) :
  s_last_gpu_reset_time w <> 0 ->
  (15 <= ConvertValueToSeconds e (Int.u64 (GetCurrentValue e - s_last_gpu_reset_time w)))%Q ->
  g_gpu_device w = Some d ->
  gpu_backend (s_state w) = Some b ->
  requested_renderer (s_state w) = Some r ->
  device_create e (GetRenderAPIForRenderer e r) (Host_IsFullscreen w) = Some d' ->
  ImGuiManager_Initialize e = true ->
  FullscreenUI_Initialize e = true ->
  let b' := backend_of (negb (bool_decide (r = Software))) in
  fst (Backend_Initialize e b' true) = true ->
  exists w',
    HandleGPUDeviceLost e w = Returns tt w'
    /\ s_last_gpu_reset_time w' = GetCurrentValue e
    /\ gpu_backend (s_state w') = Some b'
    /\ g_gpu_device w'
       = Some (SetGPUTimingEnabled (g_settings_display_show_gpu_usage w) d')
    /\ calls w' = calls w ++ recovery_calls e w d b b' r.
Proof.
  intros Hlast Hlate Hd Hb Hreq Hcreate Himgui Hfsui b' Hinit.
  exists (recovered e w d d' b b' r). split.
  - apply HandleGPUDeviceLost_recovers; auto.
  - repeat split.
Qed.

Lemma HandleGPUDeviceLost_recovers_again_after_the_interval_witness :
  let e := Scenario.host 16000000000 false DeviceLost true Scenario.init_ok in
  let w := set_s_last_gpu_reset_time 1000000000 Scenario.running in
  exists w',
    HandleGPUDeviceLost e w = Returns tt w'
    /\ s_last_gpu_reset_time w' = 16000000000
    /\ gpu_backend (s_state w') = Some HardwareBackend
    /\ g_gpu_device w' = Some (SetGPUTimingEnabled false (Scenario.device API_Vulkan))
    /\ calls w'
       = [DestroyBackend HardwareBackend; DestroyDevice API_Vulkan; ReleaseRenderWindow;
          CreateDeviceForAPI API_Vulkan false; CreateBackend HardwareBackend;
          BackendInitialize HardwareBackend true; UpdateDebugWindowConfig;
          AddIconOSDWarning "HostGPUDeviceLost"].
Proof.
  cbv zeta.
  apply (HandleGPUDeviceLost_recovers_again_after_the_interval
           (Scenario.host 16000000000 false DeviceLost true Scenario.init_ok)
           (set_s_last_gpu_reset_time 1000000000 Scenario.running)
           (Scenario.device API_Vulkan) (Scenario.device API_Vulkan)
           HardwareBackend HardwareVulkan);
    try reflexivity; try discriminate.
Defined.

(** A recovery that cannot bring the device back is fatal: outside the
    15-second window, when no device can be created for the requested
    renderer the handler aborts the process, having destroyed the backend
    and the device it had. *)
Theorem HandleGPUDeviceLost_is_fatal_when_no_device_can_be_created (e : Externals)
    (w : World) :
  s_last_gpu_reset_time w = 0
  \/ (15 <= ConvertValueToSeconds e (Int.u64 (GetCurrentValue e - s_last_gpu_reset_time w)))%Q ->
  device_create e
    (GetRenderAPIForRenderer e
       (default (g_gpu_settings_gpu_renderer w) (requested_renderer (s_state w))))
    (Host_IsFullscreen w) = None ->
  exists w',
    HandleGPUDeviceLost e w = Panics "Failed to recreate GPU device after loss." w'
    /\ g_gpu_device w' = None
    /\ gpu_backend (s_state w') = None
    /\ s_last_gpu_reset_time w' = GetCurrentValue e.
Proof.
  intros Hwin Hcreate.
  destruct w as [s dev r1 r2 u last fs ui cs].
  destruct s as [wptr rwi rr fd twc tws tds gb rptr spc rif rv rapt rfu].
  cbn in Hwin, Hcreate.
  assert (Hgate : negb (last =? 0)
                  && negb (Qle_bool MIN_TIME_BETWEEN_RESETS
                             (ConvertValueToSeconds e (Int.u64 (GetCurrentValue e - last))))
                  = false).
  { destruct Hwin as [->|Hle]; [reflexivity|].
    unfold MIN_TIME_BETWEEN_RESETS. rewrite (Qle_bool_true_of_le _ _ Hle).
    apply andb_false_r. }
  unfold HandleGPUDeviceLost, CreateGPUBackendOnThread, CreateDeviceOnThread,
    DestroyGPUBackendOnThread, DestroyDeviceOnThread,
    deref_device, bind, get, when, call, modify_state, modify, ret, Panic.
  cbn [s_last_gpu_reset_time]. rewrite Hgate.
  worker_path ltac:(rewrite ?Hcreate);
    eexists; (split; [reflexivity|]); cbn; repeat (split; [reflexivity|]); reflexivity.
Qed.

Lemma HandleGPUDeviceLost_is_fatal_when_no_device_can_be_created_witness :
  exists w',
    HandleGPUDeviceLost (Cases.host_lacking API_Vulkan) Scenario.running
    = Panics "Failed to recreate GPU device after loss." w'
    /\ g_gpu_device w' = None
    /\ gpu_backend (s_state w') = None
    /\ s_last_gpu_reset_time w' = 1.
Proof.
  apply (HandleGPUDeviceLost_is_fatal_when_no_device_can_be_created
           (Cases.host_lacking API_Vulkan) Scenario.running).
  - left. reflexivity.
  - reflexivity.
Defined.

End DeviceLoss.

Section PresentPaths.

Import GPUThread Notions Triples GPUThreadEntry WorkerTactics.
Local Open Scope worker_scope.

(** A frame that is presented at a scheduled time waits for that time
    exactly once: on a device with explicit (and no timed) present the
    frame is ended first and submitted after the wait; otherwise the
    commands are flushed and the wait comes before the frame is ended, the
    time being passed on only to a device with timed present.  A frame with
    no scheduled time neither flushes, waits nor submits. *)
Theorem PresentFrame_waits_once_for_a_scheduled_present (e : Externals) (allow : bool)
    (t : Z) (w : World) (d : GPUDevice) :
  g_gpu_device w = Some d ->
  skip_present_of e allow d (s_state w) = false ->
  present_result e = PresentOK ->
  let explicit := explicit_present d && negb (timed_present d) in
  let timing := if IsGPUTimingEnabled d then [AccumulateGPUTime] else [] in
  let present :=
    if t =? 0 then EndPresent false 0 :: timing
    else if explicit then
      EndPresent true 0 :: timing ++ [SleepUntilPresentTime t; SubmitPresent]
    else
      [FlushCommands; SleepUntilPresentTime t;
       EndPresent false (if timed_present d then t else 0)] ++ timing in
  exists w',
    PresentFrame e allow t w = Returns tt w'
    /\ calls w'
       = calls w
         ++ [RenderUI (has_backend w && System_IsValid e)
                      (has_backend w && System_IsRunning e);
             present_call (has_backend w); RenderImGui]
         ++ present
         ++ ImGuiNewFrame :: (if has_backend w then [RestoreDeviceContext] else [])
    /\ length (List.filter is_wait present) = (if t =? 0 then 0%nat else 1%nat)
    /\ skipped_present_count (s_state w') = 0.
Proof.
  intros Hd Hskip Hok explicit timing present. subst explicit timing present.
  unfold has_backend, present_call.
  destruct w as [s dev r1 r2 u last fs ui cs]. cbn in Hd, Hskip. subst dev.
  unfold PresentFrame. worker_eval. rewrite Hskip. worker_cbn.
  destruct (bool_decide (is_Some (gpu_backend s))) eqn:Hb; worker_cbn; rewrite Hok;
    unfold PresentFrame_finish; worker_eval;
    destruct (Z.eqb_spec t 0) as [->|Hne]; cbn [negb];
    destruct (explicit_present d), (timed_present d), (IsGPUTimingEnabled d);
    worker_cbn; rewrite ?Hb; worker_cbn;
    eexists; (split; [reflexivity|]); cbn;
    rewrite <- ?app_assoc; repeat (split; [reflexivity|]); reflexivity.
Qed.


Lemma PresentFrame_waits_once_for_a_scheduled_present_witness :
  let e := Scenario.host 1 false PresentOK true Scenario.init_ok in
  let w := set_g_gpu_device (Some (mkDevice API_Vulkan true true false true))
             Scenario.running in
  exists w',
    PresentFrame e true 5000 w = Returns tt w'
    /\ calls w'
       = [RenderUI true true; PresentDisplay; RenderImGui; EndPresent true 0;
          AccumulateGPUTime; SleepUntilPresentTime 5000; SubmitPresent; ImGuiNewFrame;
          RestoreDeviceContext].
Proof.
  cbv zeta.
  destruct (PresentFrame_waits_once_for_a_scheduled_present
              (Scenario.host 1 false PresentOK true Scenario.init_ok) true 5000
              (set_g_gpu_device (Some (mkDevice API_Vulkan true true false true))
                 Scenario.running)
              (mkDevice API_Vulkan true true false true) eq_refl eq_refl eq_refl)
    as (w' & Hrun & Hcalls & _).
  exists w'. split; [exact Hrun|exact Hcalls].
Defined.

(** A present that fails without the device being lost: the failure is
    counted; when exclusive fullscreen was lost the host is asked to leave
    fullscreen, otherwise the commands recorded so far are flushed; and the
    ImGui frame is ended and a new one begun, as after every frame. *)
Theorem PresentFrame_counts_a_failed_present (e : Externals) (allow : bool) (t : Z)
    (w : World) (d : GPUDevice) (lost : bool) :
  g_gpu_device w = Some d ->
  skip_present_of e allow d (s_state w) = false ->
  present_result e = (if lost then ExclusiveFullscreenLost else SkipPresent) ->
  exists w',
    PresentFrame e allow t w = Returns tt w'
    /\ skipped_present_count (s_state w')
       = Int.u32 (skipped_present_count (s_state w) + 1)
    /\ Host_IsFullscreen w' = (if lost then false else Host_IsFullscreen w)
    /\ calls w'
       = calls w
         ++ [RenderUI (has_backend w && System_IsValid e)
                      (has_backend w && System_IsRunning e);
             present_call (has_backend w);
             if lost then HostSetFullscreen false else FlushCommands;
             ImGuiEndFrame; ImGuiNewFrame]
         ++ (if has_backend w then [RestoreDeviceContext] else []).
Proof.
  intros Hd Hskip Hres. unfold has_backend, present_call.
  destruct w as [s dev r1 r2 u last fs ui cs]. cbn in Hd, Hskip. subst dev.
  unfold PresentFrame. worker_eval. rewrite Hskip. worker_cbn.
  destruct (bool_decide (is_Some (gpu_backend s))) eqn:Hb; worker_cbn;
    unfold PresentFrame_finish, HandleExclusiveFullscreenLost; worker_eval;
    rewrite Hres; destruct lost; worker_cbn; rewrite ?Hb; worker_cbn;
    eexists; (split; [reflexivity|]); cbn;
    rewrite <- ?app_assoc; repeat (split; [reflexivity|]); reflexivity.
Qed.

Lemma PresentFrame_counts_a_failed_present_witness :
  let e := Scenario.host 1 false ExclusiveFullscreenLost true Scenario.init_ok in
  let w := set_Host_IsFullscreen true Scenario.running in
  exists w',
    PresentFrame e false 0 w = Returns tt w'
    /\ skipped_present_count (s_state w') = 1
    /\ Host_IsFullscreen w' = false
    /\ calls w'
       = [RenderUI true true; PresentDisplay; HostSetFullscreen false; ImGuiEndFrame;
          ImGuiNewFrame; RestoreDeviceContext].
Proof.
  cbv zeta.
  apply (PresentFrame_counts_a_failed_present
           (Scenario.host 1 false ExclusiveFullscreenLost true Scenario.init_ok) false 0
           (set_Host_IsFullscreen true Scenario.running) (Scenario.device API_Vulkan)
           true eq_refl eq_refl eq_refl).
Defined.

(** With the FIFO empty and no wake pending, a worker that runs idle does
    not sleep: it presents one frame, never skipping it for the swap
    chain's sake, and then throttles unless the vsync mode blocks.  A worker
    that does not run idle parks instead and presents nothing, and a pending
    wake is acknowledged without presenting. *)
Theorem GPUThreadEntryPoint_idle_presents_only_when_running_idle (e : Externals)
    (blocking : bool) (w : World) (d : GPUDevice) :
  g_gpu_device w = Some d ->
  HasMainSwapChain d = true ->
  present_result e = PresentOK ->
  0 <= thread_wake_count (s_state w) < 2 ^ 30 ->
  let s := s_state w in
  let idle := run_idle_flag s in
  (0 < thread_wake_count s ->
   GPUThreadEntryPoint_idle e blocking w
   = Returns Woken (set_s_state (set_thread_wake_count 0 s) w))
  /\ (thread_wake_count s = 0 -> idle = false ->
      GPUThreadEntryPoint_idle e blocking w
      = Returns Parked (set_s_state (set_thread_wake_count THREAD_WAKE_COUNT_SLEEPING s) w))
  /\ (thread_wake_count s = 0 -> idle = true ->
      exists w',
        GPUThreadEntryPoint_idle e blocking w = Returns (IdleFrame (negb blocking)) w'
        /\ PresentFrame e false 0 w = Returns tt w'
        /\ exists rest,
             calls w'
             = calls w
               ++ RenderUI (has_backend w && System_IsValid e)
                           (has_backend w && System_IsRunning e)
               :: present_call (has_backend w) :: RenderImGui :: rest).
Proof.
  intros Hd Hwin Hok Hc s idle. subst s idle.
  assert (Hget : GetThreadWakeCount (thread_wake_count (s_state w))
                 = thread_wake_count (s_state w))
    by (apply GetThreadWakeCount_small; exact Hc).
  assert (Hflag : Z.land (thread_wake_count (s_state w))
                    THREAD_WAKE_COUNT_CPU_THREAD_IS_WAITING = 0).
  { apply Z.bits_inj'; intros i Hi. rewrite Z.land_spec, Z.testbit_0_l.
    unfold THREAD_WAKE_COUNT_CPU_THREAD_IS_WAITING. change 0x40000000 with (2 ^ 30).
    rewrite Z.pow2_bits_eqb by lia.
    destruct (Z.eqb_spec 30 i) as [<-|Hne]; [|apply andb_false_r].
    rewrite (testbit_above _ 30 30 Hc) by lia. reflexivity. }
  split; [|split].
  - intros Hwork. unfold GPUThreadEntryPoint_idle, sleep_pass, bind, get, modify, ret.
    rewrite Hget, Hflag.
    destruct (Z.gtb_spec (thread_wake_count (s_state w)) 0) as [_|Hle]; [|lia].
    reflexivity.
  - intros Hzero Hidle. unfold GPUThreadEntryPoint_idle, sleep_pass, bind, get, modify, ret.
    rewrite Hget, Hflag, Hzero, Hidle. reflexivity.
  - intros Hzero Hidle.
    assert (Hskip : skip_present_of e false d (s_state w) = false).
    { unfold skip_present_of. rewrite Hwin. reflexivity. }
    destruct (PresentFrame_presented_ok e false 0 w d Hd Hskip Hok)
      as (w' & rest & Hrun & Hcount & Hcalls).
    assert (Hsame : set_s_state (set_thread_wake_count 0 (s_state w)) w = w).
    { destruct w as [s dev r1 r2 u last fs ui cs].
      destruct s as [wptr rwi rr fd twc tws tds gb rptr spc rif rv rapt rfu].
      cbn in Hzero. subst twc. reflexivity. }
    assert (Hdev : exists d', g_gpu_device w' = Some d' /\ HasMainSwapChain d' = true).
    { exists d. split; [|exact Hwin].
      revert Hrun. unfold PresentFrame.
      destruct w as [s dev r1 r2 u last fs ui cs]. cbn in Hd, Hskip. subst dev.
      worker_eval. rewrite Hskip. worker_cbn.
      destruct (bool_decide (is_Some (gpu_backend s))) eqn:Hb; worker_cbn; rewrite Hok;
        unfold PresentFrame_finish; worker_eval;
        destruct (explicit_present d), (timed_present d), (IsGPUTimingEnabled d);
        worker_cbn; rewrite ?Hb; worker_cbn; intros [= <-]; reflexivity. }
    destruct Hdev as (d' & Hd' & Hwin').
    exists w'. split; [|split; [exact Hrun|exists rest; exact Hcalls]].
    unfold GPUThreadEntryPoint_idle, sleep_pass, bind, get, modify, ret.
    rewrite Hget, Hflag, Hzero, Hidle. cbn [negb Z.gtb Z.compare Z.eqb].
    rewrite ?Hsame, Hrun. unfold deref_device. rewrite Hd', Hwin'. reflexivity.
Qed.

Lemma GPUThreadEntryPoint_idle_presents_only_when_running_idle_witness :
  let e := Scenario.host 1 false PresentOK true Scenario.init_ok in
  let w := set_s_state (set_run_idle_flag true Scenario.running_state) Scenario.running in
  exists w',
    GPUThreadEntryPoint_idle e false w = Returns (IdleFrame true) w'
    /\ PresentFrame e false 0 w = Returns tt w'
    /\ exists rest, calls w' = RenderUI true true :: PresentDisplay :: RenderImGui :: rest.
Proof.
  cbv zeta.
  destruct (GPUThreadEntryPoint_idle_presents_only_when_running_idle
              (Scenario.host 1 false PresentOK true Scenario.init_ok) false
              (set_s_state (set_run_idle_flag true Scenario.running_state) Scenario.running)
              (Scenario.device API_Vulkan) eq_refl eq_refl eq_refl)
    as (_ & _ & Hidle).
  - cbn. lia.
  - apply Hidle; reflexivity.
Defined.

End PresentPaths.

Section RingTraffic.

Import GPUThread Ring Traffic.

Lemma linear_slots (d : gmap Z GPUThreadCommand) (a b : Z) (l : list Slot) :
  linear d a b l ->
  Forall (fun sl : Slot =>
            a <= fst sl /\ fst sl < fst sl + cmd_size (snd sl) <= b
            /\ d !! fst sl = Some (snd sl)) l.
Proof.
  induction 1 as [a|a b cmd l Hcmd Hsz Hw Hs Hrest IH]; constructor.
  - pose proof (linear_le _ _ _ _ Hrest). cbn. repeat split; try lia. exact Hcmd.
  - eapply Forall_impl; [exact IH|]. cbn. intros sl (? & ? & ?). repeat split; try lia.
    assumption.
Qed.

Lemma commands_app (l1 l2 : list Slot) : commands (l1 ++ l2) = commands l1 ++ commands l2.
Proof. unfold commands. apply omap_app. Qed.

(** What a producer operation adds to the slots written: the command, with
    its size rounded up, behind a [Wraparound] slot or not. *)
Lemma produce_commands (hdr : Z) (command : GPUBackendCommandType) (size : Z) (r r' : Run) :
  0 < hdr < 2 ^ 32 ->
  run_inv r ->
  valid_op (Produce command size) ->
  produce hdr command size r = Some r' ->
  commands (written r') = commands (written r) ++ [(command, AlignUpPow2 size 4)].
Proof.
  intros Hhdr (consumed & pend & Hwr & Hdi & Hinv) (Hnw & Hns & Hsize) Hprod.
  assert (Hcap : COMMAND_QUEUE_SIZE = 16777216) by reflexivity.
  unfold produce in Hprod.
  destruct (AllocateCommand hdr command size (run_state r) _) as [[off s1]|] eqn:Halloc;
    [|discriminate].
  apply (AllocateCommand_ring hdr _ pend) in Halloc; [|assumption..].
  set (s := run_state r) in *.
  set (R := command_fifo_read_ptr s) in *.
  set (W := command_fifo_write_ptr s) in *.
  set (asize := AlignUpPow2 size 4) in *.
  destruct Hinv as (HR & HW & Hshape). fold R W in HR, HW, Hshape.
  destruct Halloc as [(Hle & Hfit & -> & ->)
                     |[(Hle & Hbig & HW0 & -> & Hroom & ->)
                      |(Hlt & Hroom & -> & ->)]].
  - unfold W in Hprod at 1. rewrite placed_lookup in Hprod. fold W in Hprod.
    rewrite Z.eqb_refl in Hprod. cbn [negb andb] in Hprod.
    injection Hprod as <-. cbn [written]. rewrite commands_app. f_equal.
    unfold commands. cbn.
    rewrite ?(bool_decide_eq_true_2 (Wraparound = Wraparound)) by reflexivity.
    rewrite (bool_decide_eq_false_2 (command = Wraparound)) by exact Hnw. reflexivity.
  - assert (Hdummy : command_fifo_data (placed command asize R (wrapped R s)) !! W
                     = Some (mkCommand Wraparound (COMMAND_QUEUE_SIZE - W) 0)).
    { unfold placed, wrapped, store_type_size, store_dummy. cbn. fold W.
      rewrite lookup_insert_ne by lia. rewrite lookup_insert_eq.
      rewrite u32_small by (rewrite Hcap in *; lia). reflexivity. }
    change 0 with (command_fifo_write_ptr (wrapped R s)) in Hprod at 1.
    rewrite placed_lookup in Hprod.
    fold s W in Hprod. rewrite Hdummy in Hprod.
    destruct (Z.eqb_spec 0 W) as [?|_]; [lia|]. cbn [negb andb] in Hprod.
    injection Hprod as <-. cbn [written]. rewrite commands_app. f_equal.
    unfold commands. cbn.
    rewrite ?(bool_decide_eq_true_2 (Wraparound = Wraparound)) by reflexivity.
    rewrite (bool_decide_eq_false_2 (command = Wraparound)) by exact Hnw. reflexivity.
  - unfold W in Hprod at 1. rewrite placed_lookup in Hprod. fold W in Hprod.
    rewrite Z.eqb_refl in Hprod. cbn [negb andb] in Hprod.
    injection Hprod as <-. cbn [written]. rewrite commands_app. f_equal.
    unfold commands. cbn.
    rewrite ?(bool_decide_eq_true_2 (Wraparound = Wraparound)) by reflexivity.
    rewrite (bool_decide_eq_false_2 (command = Wraparound)) by exact Hnw. reflexivity.
Qed.

Lemma drain_written (r r' : Run) : drain r = Some r' -> written r' = written r.
Proof.
  unfold drain. destruct (drain_batch _ _) as [[[] ds]|]; try discriminate;
    intros [= <-]; reflexivity.
Qed.

Lemma run_commands (hdr : Z) (ops : list Op) (r r' : Run) :
  0 < hdr < 2 ^ 32 ->
  Forall valid_op ops ->
  run_inv r ->
  run hdr ops r = Some r' ->
  overrun r' = false ->
  commands (written r') = commands (written r) ++ requests ops.
Proof.
  intros Hhdr Hall. revert r. induction Hall as [|o ops Ho Hall IH]; intros r Hinv; cbn [run].
  - intros [= <-] _. unfold requests. cbn. rewrite app_nil_r. reflexivity.
  - destruct (step hdr o r) as [r1|] eqn:Hstep; [|discriminate].
    intros Hrun Hover.
    assert (Hover1 : overrun r1 = false).
    { destruct (overrun r1) eqn:Ho1; [|reflexivity].
      rewrite (run_overrun_sticky hdr ops r1 r' Hrun Ho1) in Hover. discriminate. }
    destruct o as [command size|]; cbn in Hstep.
    + destruct (produce_run_inv hdr command size r r1 Hhdr Hinv Ho Hstep Hover1) as [H1 _].
      rewrite (IH r1 H1 Hrun Hover).
      rewrite (produce_commands hdr command size r r1 Hhdr Hinv Ho Hstep).
      rewrite <- app_assoc. reflexivity.
    + destruct (drain_run_inv r Hinv) as (r1' & Hd & Hinv1 & _).
      rewrite Hd in Hstep. injection Hstep as <-.
      rewrite (IH r1' Hinv1 Hrun Hover), (drain_written r r1' Hd). reflexivity.
Qed.

(** The ring delivers what was allocated: in every run of producer and
    consumer operations that does not overrun, once the worker has drained
    the ring it has dispatched every slot written, each once and in the
    order written, and the slots other than [Wraparound] ones are the
    commands allocated, in the order of allocation, each with its type and
    its size rounded up to a multiple of 4. *)
Theorem commands_are_dispatched_in_the_order_allocated (hdr : Z) (ops : list Op) (r : Run) :
  0 < hdr < 2 ^ 32 ->
  Forall valid_op ops ->
  run hdr ops start = Some r ->
  overrun r = false ->
  exists r',
    drain r = Some r'
    /\ dispatched r' = map dispatch_of (written r)
    /\ commands (written r) = requests ops
    /\ command_fifo_read_ptr (run_state r') = command_fifo_write_ptr (run_state r').
Proof.
  intros Hhdr Hall Hrun Hover.
  pose proof (run_run_inv hdr ops start r Hhdr Hall start_run_inv Hrun Hover) as Hinv.
  destruct (drain_run_inv r Hinv) as (r' & Hd & _ & _ & Hwr & Hdi & Hempty).
  exists r'. split; [exact Hd|]. split; [rewrite Hdi, Hwr; reflexivity|].
  split; [|exact Hempty].
  apply (run_commands hdr ops start r Hhdr Hall start_run_inv Hrun Hover).
Qed.

Lemma commands_are_dispatched_in_the_order_allocated_witness :
  exists r r',
    run 8 wrapping_run start = Some r
    /\ drain r = Some r'
    /\ dispatched r' = map dispatch_of (written r)
    /\ commands (written r)
       = [(DrawPolygon, 8000000); (DrawPolygon, 8000000); (DrawPolygon, 1000000)].
Proof.
  assert (Hvalid : Forall valid_op wrapping_run).
  { unfold wrapping_run, COMMAND_QUEUE_SIZE.
    repeat constructor; try discriminate; cbn; lia. }
  destruct (run 8 wrapping_run start) as [r|] eqn:Hr; [|vm_compute in Hr; discriminate].
  assert (Hover : overrun r = false).
  { vm_compute in Hr. injection Hr as <-. reflexivity. }
  destruct (commands_are_dispatched_in_the_order_allocated 8 wrapping_run r
              ltac:(lia) Hvalid Hr Hover) as (r' & Hd & Hdi & Hcmds & _).
  exists r, r'. split; [reflexivity|]. split; [exact Hd|]. split; [exact Hdi|].
  rewrite Hcmds. vm_compute. reflexivity.
Defined.

(** The slot [AllocateCommand] hands out is free space: it lies inside the
    buffer and ends before its last byte, it shares no byte with a slot
    that is still unread, every unread header is left as it was, and the
    write pointer that results from publishing it differs from the read
    pointer, so that the ring is not taken for empty.  (The one exception
    is the wrap with the read pointer at 0.) *)
Theorem AllocateCommand_hands_out_free_space (hdr : Z) (s : State) (pend : list Slot)
    (command : GPUBackendCommandType) (size off : Z) (s1 : State) :
  0 < hdr < 2 ^ 32 ->
  ring_inv s pend ->
  1 <= size <= COMMAND_QUEUE_SIZE ->
  let R := command_fifo_read_ptr s in
  let W := command_fifo_write_ptr s in
  let asize := AlignUpPow2 size 4 in
  AllocateCommand hdr command size s [R; R; R] = Some (off, s1) ->
  (R = 0 -> off = W) ->
  0 <= off /\ off + asize < COMMAND_QUEUE_SIZE
  /\ Forall (apart off asize) pend
  /\ Forall (fun sl : Slot => command_fifo_data s1 !! fst sl = Some (snd sl)) pend
  /\ off + asize <> R.
Proof.
  intros Hhdr Hinv Hsize R W asize Halloc Hsafe.
  assert (Hcap : COMMAND_QUEUE_SIZE = 16777216) by reflexivity.
  destruct (AlignUpPow2_4_bounds size ltac:(rewrite Hcap in *; lia)) as [Hb _].
  fold asize in Hb.
  apply (AllocateCommand_ring hdr _ pend) in Halloc; [|assumption..].
  fold R W asize in Halloc.
  destruct Hinv as (HR & HW & Hshape). fold R W in HR, HW, Hshape.
  destruct Halloc as [(Hle & Hfit & -> & ->)
                     |[(Hle & Hbig & HW0 & -> & Hroom & ->)
                      |(Hlt & Hroom & -> & ->)]].
  - destruct Hshape as [[_ Hlin]|[Hlt _]]; [|lia].
    apply linear_slots in Hlin.
    repeat split; try lia.
    + eapply Forall_impl; [exact Hlin|]. unfold apart. cbn. intros sl (? & ? & _). lia.
    + eapply Forall_impl; [exact Hlin|]. cbn. intros sl (? & ? & Hd).
      unfold store_type_size. fold W. rewrite lookup_insert_ne by lia. exact Hd.
  - destruct Hshape as [[_ Hlin]|[Hlt _]]; [|lia].
    apply linear_slots in Hlin.
    destruct Hroom as [[HRpos Hroom]|[HR0 _]]; [|specialize (Hsafe HR0); lia].
    repeat split; try lia.
    + eapply Forall_impl; [exact Hlin|]. unfold apart. cbn. intros sl (? & ? & _). lia.
    + eapply Forall_impl; [exact Hlin|]. cbn. intros sl (? & ? & Hd).
      unfold store_type_size, store_dummy. fold W.
      rewrite !lookup_insert_ne by lia. exact Hd.
  - destruct Hshape as [[Hle _]|[_ (tail & o & p & head & -> & Htail & Ho & Hd & Hhead)]];
      [lia|].
    pose proof (linear_le _ _ _ _ Htail) as Hto.
    apply linear_slots in Htail. apply linear_slots in Hhead.
    repeat split; try lia.
    + apply Forall_app. split; [|constructor].
      * eapply Forall_impl; [exact Htail|]. unfold apart. cbn. intros sl (? & ? & _). lia.
      * unfold apart. cbn. lia.
      * eapply Forall_impl; [exact Hhead|]. unfold apart. cbn. intros sl (? & ? & _). lia.
    + apply Forall_app. split; [|constructor].
      * eapply Forall_impl; [exact Htail|]. cbn. intros sl (? & ? & Hd').
        unfold store_type_size. fold W. rewrite lookup_insert_ne by lia. exact Hd'.
      * cbn. unfold store_type_size. fold W. rewrite lookup_insert_ne by lia. exact Hd.
      * eapply Forall_impl; [exact Hhead|]. cbn. intros sl (? & ? & Hd').
        unfold store_type_size. fold W. rewrite lookup_insert_ne by lia. exact Hd'.
Qed.


Lemma AllocateCommand_hands_out_free_space_witness :
  let cmd := mkCommand DrawPolygon 8000000 0 in
  let s := set_command_fifo_data (<[0 := cmd]> ∅) (Scenario.ring_at 8000000 0) in
  exists s1,
    AllocateCommand 8 DrawLine 100 s [0; 0; 0] = Some (8000000, s1)
    /\ Forall (apart 8000000 100) [(0, cmd)]
    /\ command_fifo_data s1 !! 0 = Some cmd.
Proof.
  cbv zeta. eexists. split; [vm_compute; reflexivity|].
  set (cmd := mkCommand DrawPolygon 8000000 0).
  set (s := set_command_fifo_data (<[0 := cmd]> ∅) (Scenario.ring_at 8000000 0)).
  assert (Hinv : ring_inv s [(0, cmd)]).
  { unfold ring_inv, COMMAND_QUEUE_SIZE. cbn. repeat split; try lia.
    left. split; [lia|].
    apply (linear_cons _ 0 8000000 cmd []); try reflexivity; try discriminate.
    constructor. }
  destruct (AllocateCommand_hands_out_free_space 8 s [(0, cmd)] DrawLine 100 8000000
              (set_command_fifo_data
                 (store_type_size 8000000 DrawLine 100 (command_fifo_data s)) s)
              ltac:(lia) Hinv ltac:(unfold COMMAND_QUEUE_SIZE; lia) eq_refl
              (fun _ => eq_refl))
    as (_ & _ & Hapart & Hkept & _).
  split; [exact Hapart|].
  apply (Forall_inv Hkept).
Defined.

Lemma process_commands_shutdown (fuel : nat) (read_ptr write_ptr : Z) (s : State)
    (cmd : GPUThreadCommand) :
  read_ptr < write_ptr ->
  command_fifo_data s !! read_ptr = Some cmd ->
  cmd_type cmd = Shutdown ->
  process_commands (S fuel) read_ptr write_ptr s
  = (ThreadExit (set_command_fifo_read_ptr (Int.u32 (read_ptr + cmd_size cmd)) s),
     [ShutdownSeen read_ptr]).
Proof.
  intros Hlt Hcmd Ht. cbn [process_commands]; unfold process_command.
  destruct (Z.ltb_spec read_ptr write_ptr); [|lia].
  rewrite Hcmd, Ht. reflexivity.
Qed.

Lemma PushCommandAndWakeThread_ring (cmd : GPUThreadCommand) (s : State) :
  command_fifo_write_ptr (PushCommandAndWakeThread cmd s)
  = Int.u32 (command_fifo_write_ptr s + cmd_size cmd)
  /\ command_fifo_read_ptr (PushCommandAndWakeThread cmd s) = command_fifo_read_ptr s
  /\ command_fifo_data (PushCommandAndWakeThread cmd s) = command_fifo_data s
  /\ thread_wake_count (PushCommandAndWakeThread cmd s) = Int.s32 (thread_wake_count s + 2).
Proof.
  unfold PushCommandAndWakeThread.
  destruct (WakeGPUThread_pointers (publish cmd s)) as (-> & -> & ->).
  rewrite WakeGPUThread_count. repeat split.
Qed.

(** The [Shutdown] command that [RequestShutdown] pushes is the last thing
    the worker sees: in its next batch it dispatches every slot that was
    still unread, in order, skips the [Wraparound] slot if the allocation
    wrapped, meets [Shutdown] and returns from its entry point with the
    read pointer published at the write pointer.  The push has woken it. *)
Theorem RequestShutdown_ends_the_worker_after_the_pending_commands
    (hdr size : Z) (s : State) (pend : list Slot) (off : Z) (s1 : State) :
  0 < hdr < 2 ^ 32 ->
  1 <= size <= COMMAND_QUEUE_SIZE ->
  ring_inv s pend ->
  let R := command_fifo_read_ptr s in
  let W := command_fifo_write_ptr s in
  RequestShutdown_push hdr size s [R; R; R] = Some (off, s1) ->
  (R = 0 -> off = W) ->
  thread_wake_count s1 = Int.s32 (thread_wake_count s + 2)
  /\ exists s',
       drain_batch (length pend + 3) s1
       = Some (ThreadExit s',
               map dispatch_of pend
               ++ (if off =? W then [] else [WraparoundSkipped W (COMMAND_QUEUE_SIZE - W)])
               ++ [ShutdownSeen off])
       /\ command_fifo_read_ptr s' = command_fifo_write_ptr s'.
Proof.
  intros Hhdr Hsize Hinv R W Hpush Hsafe.
  assert (Hcap : COMMAND_QUEUE_SIZE = 16777216) by reflexivity.
  unfold RequestShutdown_push in Hpush.
  destruct (AllocateCommand hdr Shutdown size s _) as [[off0 s0]|] eqn:Halloc;
    [|discriminate].
  destruct (AlignUpPow2_4_bounds size ltac:(rewrite Hcap in *; lia)) as [Hb _].
  apply (AllocateCommand_ring hdr _ pend) in Halloc; [|assumption..].
  fold R W in Halloc.
  set (asize := AlignUpPow2 size 4) in *.
  destruct Hinv as (HR & HW & Hshape). fold R W in HR, HW, Hshape.
  destruct Halloc as [(Hle & Hfit & -> & ->)
                     |[(Hle & Hbig & HW0 & -> & Hroom & ->)
                      |(Hlt & Hroom & -> & ->)]].
  - (* at the write offset *)
    destruct Hshape as [[_ Hlin]|[Hlt _]]; [|lia].
    unfold W in Hpush at 1. rewrite placed_lookup in Hpush. fold W in Hpush.
    set (cmd := mkCommand Shutdown asize _) in *.
    cbv beta iota in Hpush. injection Hpush as <- <-. rewrite Z.eqb_refl. cbn [app].
    destruct (PushCommandAndWakeThread_ring cmd (placed Shutdown asize R s))
      as (Hw1 & Hr1 & Hd1 & Hc1).
    cbn in Hw1, Hr1, Hd1, Hc1. fold W in Hw1, Hd1. fold R in Hr1.
    rewrite u32_small in Hw1 by (rewrite Hcap in *; lia).
    split; [exact Hc1|].
    eexists. split.
    + unfold drain_batch. rewrite Hw1, Hr1.
      destruct (Z.eqb_spec R (W + asize)); [lia|].
      destruct (Z.ltb_spec (W + asize) R); [lia|].
      rewrite (process_commands_linear _ W) by
        (rewrite ?Hd1; try (apply linear_frame; [exact Hlin|]); rewrite ?Hcap in *; lia).
      rewrite (process_commands_shutdown 2 W (W + asize) _ cmd);
        [reflexivity|lia| |reflexivity].
      rewrite Hd1. apply lookup_insert_eq.
    + cbn. rewrite Hw1. apply u32_small. rewrite Hcap in *. lia.
  - (* behind a Wraparound slot *)
    destruct Hshape as [[_ Hlin]|[Hlt _]]; [|lia].
    change 0 with (command_fifo_write_ptr (wrapped R s)) in Hpush at 1.
    rewrite placed_lookup in Hpush.
    set (cmd := mkCommand Shutdown asize _) in *.
    cbv beta iota in Hpush. injection Hpush as <- <-.
    destruct Hroom as [[HRpos Hroom]|[HR0 _]]; [|specialize (Hsafe HR0); lia].
    destruct (Z.eqb_spec 0 W) as [?|_]; [lia|].
    destruct (PushCommandAndWakeThread_ring cmd (placed Shutdown asize R (wrapped R s)))
      as (Hw1 & Hr1 & Hd1 & Hc1).
    cbn in Hw1, Hr1, Hd1, Hc1. fold W in Hd1. fold R in Hr1.
    rewrite Z.add_0_l, u32_small in Hw1 by (rewrite Hcap in *; lia).
    rewrite u32_small in Hd1 by (rewrite Hcap in *; lia).
    split; [exact Hc1|].
    eexists. split.
    + unfold drain_batch. rewrite Hw1, Hr1.
      destruct (Z.eqb_spec R asize); [lia|].
      destruct (Z.ltb_spec asize R); [|lia].
      rewrite (process_commands_linear _ W) by
        (rewrite ?Hd1; unfold store_type_size, store_dummy;
         try (apply linear_frame; [apply linear_frame; [exact Hlin|]|]);
         rewrite ?Hcap in *; lia).
      rewrite (process_commands_wraparound 2 W COMMAND_QUEUE_SIZE _
                 (mkCommand Wraparound (COMMAND_QUEUE_SIZE - W) 0));
        [|lia| |reflexivity].
      2:{ rewrite Hd1. unfold store_type_size, store_dummy.
          rewrite lookup_insert_ne by lia. apply lookup_insert_eq. }
      rewrite Hw1.
      erewrite (process_commands_shutdown 1 0 asize);
        [reflexivity|lia|cbn; rewrite Hd1; apply lookup_insert_eq|reflexivity].
    + cbn. rewrite Hw1. apply u32_small. rewrite Hcap in *. lia.
  - (* write pointer behind the read pointer *)
    destruct Hshape as [[Hle _]|[_ (tail & o & p & head & -> & Htail & Ho & Hd & Hhead)]];
      [lia|].
    pose proof (linear_le _ _ _ _ Htail) as Hto.
    pose proof (linear_le _ _ _ _ Hhead) as Hhw.
    unfold W in Hpush at 1. rewrite placed_lookup in Hpush. fold W in Hpush.
    set (cmd := mkCommand Shutdown asize _) in *.
    cbv beta iota in Hpush. injection Hpush as <- <-. rewrite Z.eqb_refl. cbn [app].
    destruct (PushCommandAndWakeThread_ring cmd (placed Shutdown asize R s))
      as (Hw1 & Hr1 & Hd1 & Hc1).
    cbn in Hw1, Hr1, Hd1, Hc1. fold W in Hw1, Hd1. fold R in Hr1.
    rewrite u32_small in Hw1 by (rewrite Hcap in *; lia).
    split; [exact Hc1|].
    eexists. split.
    + unfold drain_batch. rewrite Hw1, Hr1.
      destruct (Z.eqb_spec R (W + asize)); [lia|].
      destruct (Z.ltb_spec (W + asize) R); [|lia].
      rewrite length_app. cbn [length].
      replace (length tail + S (length head) + 3)%nat
        with (length tail + S (length head + 3))%nat by lia.
      rewrite (process_commands_linear _ o) by
        (rewrite ?Hd1; unfold store_type_size;
         try (apply linear_frame; [exact Htail|]); rewrite ?Hcap in *; lia).
      rewrite (process_commands_wraparound _ o COMMAND_QUEUE_SIZE _
                 (mkCommand Wraparound (COMMAND_QUEUE_SIZE - o) p));
        [|lia| |reflexivity].
      2:{ rewrite Hd1. unfold store_type_size. rewrite lookup_insert_ne by lia. exact Hd. }
      rewrite Hw1.
      rewrite (process_commands_linear _ W) by
        (cbn; rewrite ?Hd1; unfold store_type_size;
         try (apply linear_frame; [exact Hhead|]); rewrite ?Hcap in *; lia).
      rewrite (process_commands_shutdown 2 W (W + asize) _ cmd); [|lia| |reflexivity].
      2:{ cbn. rewrite Hd1. apply lookup_insert_eq. }
      cbn. rewrite map_app. cbn. rewrite <- !app_assoc. reflexivity.
    + cbn. rewrite Hw1. apply u32_small. rewrite Hcap in *. lia.
Qed.

Lemma RequestShutdown_ends_the_worker_after_the_pending_commands_witness :
  let cmd := mkCommand DrawPolygon 8000000 0 in
  let s := set_command_fifo_data (<[0 := cmd]> ∅) (Scenario.ring_at 8000000 0) in
  exists s1 s',
    RequestShutdown_push 8 8 s [0; 0; 0] = Some (8000000, s1)
    /\ thread_wake_count s1 = 2
    /\ drain_batch 4 s1
       = Some (ThreadExit s', [HandleCommand 0 cmd; ShutdownSeen 8000000])
    /\ command_fifo_read_ptr s' = command_fifo_write_ptr s'.
Proof.
  cbv zeta.
  set (cmd := mkCommand DrawPolygon 8000000 0).
  set (s := set_command_fifo_data (<[0 := cmd]> ∅) (Scenario.ring_at 8000000 0)).
  assert (Hinv : ring_inv s [(0, cmd)]).
  { unfold ring_inv, COMMAND_QUEUE_SIZE. cbn. repeat split; try lia.
    left. split; [lia|].
    apply (linear_cons _ 0 8000000 cmd []); try reflexivity; try discriminate.
    constructor. }
  destruct (RequestShutdown_push 8 8 s [0; 0; 0]) as [[off s1]|] eqn:Hpush;
    [|vm_compute in Hpush; discriminate].
  assert (Hoff : off = 8000000).
  { vm_compute in Hpush. injection Hpush as <- _. reflexivity. }
  subst off.
  destruct (RequestShutdown_ends_the_worker_after_the_pending_commands 8 8 s [(0, cmd)]
              8000000 s1 ltac:(lia) ltac:(unfold COMMAND_QUEUE_SIZE; lia) Hinv Hpush
              (fun _ => eq_refl))
    as (Hcount & s' & Hdrain & Hptr).
  exists s1, s'. split; [reflexivity|]. split; [exact Hcount|]. split; [exact Hdrain|exact Hptr].
Defined.

End RingTraffic.

Section RingPending.

Import GPUThread Ring Traffic.

Lemma linear_sizes (d : gmap Z GPUThreadCommand) (a b : Z) (l : list Slot) :
  linear d a b l -> foldr Z.add 0 (map (fun sl : Slot => cmd_size (snd sl)) l) = b - a.
Proof.
  induction 1 as [a|a b cmd l Hcmd Hsz Hw Hs Hrest IH]; cbn [map foldr snd].
  - lia.
  - rewrite IH. lia.
Qed.

(** On a well-formed ring [GetPendingCommandSize] is the number of bytes
    not yet consumed: the sizes of the unread slots, the [Wraparound] slot
    among them, add up to it.  It is 0 exactly when nothing is unread. *)
Theorem GetPendingCommandSize_counts_the_unread_bytes (s : State) (pend : list Slot) :
  ring_inv s pend ->
  GetPendingCommandSize s = foldr Z.add 0 (map (fun sl : Slot => cmd_size (snd sl)) pend)
  /\ (GetPendingCommandSize s = 0 <-> pend = []).
Proof.
  unfold ring_inv, COMMAND_QUEUE_SIZE. cbv zeta.
  intros (HR & HW & [[Hle Hlin]|[Hlt (tail & o & p & head & -> & Htail & Ho & Hd & Hhead)]]).
  - assert (Hsize : GetPendingCommandSize s
                    = command_fifo_write_ptr s - command_fifo_read_ptr s).
    { unfold GetPendingCommandSize.
      destruct (Z.geb_spec (command_fifo_write_ptr s) (command_fifo_read_ptr s)); [|lia].
      apply u32_small. lia. }
    rewrite Hsize, (linear_sizes _ _ _ _ Hlin). split; [reflexivity|]. split.
    + intros Heq. assert (Hsame : command_fifo_read_ptr s = command_fifo_write_ptr s) by lia.
      rewrite Hsame in Hlin. apply (linear_empty _ _ _ Hlin).
    + intros ->. inversion Hlin. lia.
  - pose proof (linear_le _ _ _ _ Htail) as Hto.
    pose proof (linear_le _ _ _ _ Hhead) as Hhw.
    assert (Hsize : GetPendingCommandSize s
                    = 16 * 1024 * 1024 - command_fifo_read_ptr s + command_fifo_write_ptr s).
    { unfold GetPendingCommandSize, COMMAND_QUEUE_SIZE.
      destruct (Z.geb_spec (command_fifo_write_ptr s) (command_fifo_read_ptr s)); [lia|].
      apply u32_small. lia. }
    rewrite Hsize. split.
    + pose proof (linear_sizes _ _ _ _ Hhead) as Hsh.
      pose proof (linear_sizes _ _ _ _ Htail) as Hst.
      assert (Hfold : forall (l : list Z) (z : Z), foldr Z.add z l = foldr Z.add 0 l + z).
      { induction l as [|x l IH]; intros z; cbn [foldr]; [lia|]. rewrite IH. lia. }
      unfold Slot in *.
      rewrite map_app, foldr_app. cbn [map foldr snd cmd_size].
      rewrite Hsh, Hfold, Hst. lia.
    + split; [lia|]. intros Heq. destruct tail; discriminate.
Qed.

Lemma GetPendingCommandSize_counts_the_unread_bytes_witness :
  let cmd := mkCommand DrawPolygon 8000000 0 in
  let s := set_command_fifo_data (<[0 := cmd]> ∅) (Scenario.ring_at 8000000 0) in
  GetPendingCommandSize s = 8000000 + 0.
Proof.
  cbv zeta.
  set (cmd := mkCommand DrawPolygon 8000000 0).
  set (s := set_command_fifo_data (<[0 := cmd]> ∅) (Scenario.ring_at 8000000 0)).
  assert (Hinv : ring_inv s [(0, cmd)]).
  { unfold ring_inv, COMMAND_QUEUE_SIZE. cbn. repeat split; try lia.
    left. split; [lia|].
    apply (linear_cons _ 0 8000000 cmd []); try reflexivity; try discriminate.
    constructor. }
  apply (proj1 (GetPendingCommandSize_counts_the_unread_bytes s [(0, cmd)] Hinv)).
Defined.

End RingPending.

Section ReadoutPixels15.

Import GPU_SW.

Lemma land_mask (v m : Z) : 0 <= m -> 0 <= Z.land v m <= m.
Proof.
  intros Hm. split.
  - apply Z.land_nonneg. right. exact Hm.
  - rewrite Z.land_comm. apply land_le. exact Hm.
Qed.

Lemma lor_below (a b n : Z) :
  0 <= n -> 0 <= a < 2 ^ n -> 0 <= b < 2 ^ n -> 0 <= Z.lor a b < 2 ^ n.
Proof.
  intros Hn Ha Hb.
  assert (H0 : 0 <= Z.lor a b) by (apply Z.lor_nonneg; lia).
  split; [exact H0|].
  destruct (Z.eq_dec (Z.lor a b) 0) as [->|Hnz]; [apply Z.pow_pos_nonneg; lia|].
  apply Z.log2_lt_pow2; [lia|].
  rewrite Z.log2_lor by lia.
  destruct (Z.eq_dec a 0) as [->|Ha0]; destruct (Z.eq_dec b 0) as [->|Hb0];
    cbn [Z.log2]; try (rewrite Z.lor_0_l in Hnz); try (rewrite Z.lor_0_r in Hnz);
    try lia.
  - rewrite Z.max_r by apply Z.log2_nonneg. apply Z.log2_lt_pow2; lia.
  - rewrite Z.max_l by apply Z.log2_nonneg. apply Z.log2_lt_pow2; lia.
  - apply Z.max_lub_lt; apply Z.log2_lt_pow2; lia.
Qed.

Lemma u16_small (x : Z) : 0 <= x < 2 ^ 16 -> Int.u16 x = x.
Proof. intros H. unfold Int.u16. apply Z.mod_small. exact H. Qed.

(** The eight-lane loops of [CopyOutRow16] compute in every lane what
    [VRAM16ToOutput] computes for one word. *)
Lemma CopyOutRow16_lane_scalar (f : Format) (value : Z) :
  CopyOutRow16_lane f value = VRAM16ToOutput f value.
Proof.
  destruct f; try reflexivity; unfold CopyOutRow16_lane, VRAM16ToOutput.
  - pose proof (land_mask value 0x3E0 ltac:(lia)) as Ha.
    pose proof (land_mask (Z.shiftr value 10) 0x1F ltac:(lia)) as Hb.
    pose proof (land_mask value 0x1F ltac:(lia)) as Hc.
    rewrite (u16_small (Z.shiftl _ 10)) by (rewrite Z.shiftl_mul_pow2 by lia; lia).
    symmetry. apply u16_small.
    apply lor_below; [lia| |rewrite Z.shiftl_mul_pow2 by lia; lia].
    apply lor_below; lia.
  - pose proof (land_mask value 0x3E0 ltac:(lia)) as Ha.
    pose proof (land_mask value 0x20 ltac:(lia)) as Hb.
    pose proof (land_mask (Z.shiftr value 10) 0x1F ltac:(lia)) as Hc.
    pose proof (land_mask value 0x1F ltac:(lia)) as Hd.
    rewrite !(u16_small (Z.shiftl _ _)) by (rewrite Z.shiftl_mul_pow2 by lia; lia).
    symmetry. apply u16_small.
    repeat (apply lor_below; [lia| |]); try lia;
      rewrite Z.shiftl_mul_pow2 by lia; lia.
Qed.

Lemma seqZ_shift (p n : Z) : seqZ p n = map (Z.add p) (seqZ 0 n).
Proof.
  pose proof (fmap_add_seqZ p 0 n) as H. rewrite Z.add_0_r in H. symmetry. exact H.
Qed.

Lemma vram_load_word (g_vram : VRAM) (i : Z) :
  0 <= i < VRAM_WIDTH * VRAM_HEIGHT -> vram_load g_vram i = Some (Int.u16 (g_vram i)).
Proof.
  intros Hi. unfold vram_load.
  destruct (Z.leb_spec 0 i); [|lia].
  destruct (Z.ltb_spec i (VRAM_WIDTH * VRAM_HEIGHT)); [|lia]. reflexivity.
Qed.

Lemma load_words_words (g_vram : VRAM) (n : nat) (p : Z) :
  0 <= p -> p + Z.of_nat n <= VRAM_WIDTH * VRAM_HEIGHT ->
  load_words g_vram p n
  = Some (map (fun k => Int.u16 (g_vram k)) (seqZ p (Z.of_nat n))).
Proof.
  revert p. induction n as [|n IH]; intros p Hp Hn.
  - reflexivity.
  - cbn [load_words]. rewrite vram_load_word by lia. cbn [mbind option_bind].
    rewrite IH by lia. cbn [mbind option_bind].
    rewrite (seqZ_cons p (Z.of_nat (S n))) by lia.
    replace (Z.pred (Z.of_nat (S n))) with (Z.of_nat n) by lia.
    reflexivity.
Qed.

Lemma CopyOutRow16_words (f : Format) (g_vram : VRAM) (src_ptr width : Z) :
  0 <= src_ptr -> 0 <= width -> src_ptr + width <= VRAM_WIDTH * VRAM_HEIGHT ->
  CopyOutRow16 f g_vram src_ptr width
  = Some (map (fun k => VRAM16ToOutput f (Int.u16 (g_vram k))) (seqZ src_ptr width)).
Proof.
  intros Hp Hw Hend. unfold CopyOutRow16.
  set (aligned_width := match f with
                        | RGBA5551 | RGB565 => AlignDownPow2 width 8
                        | _ => 0
                        end).
  assert (Ha : 0 <= aligned_width <= width).
  { subst aligned_width.
    destruct f; try lia; split;
      (apply AlignDownPow2_nonneg || apply AlignDownPow2_le); lia. }
  rewrite !load_words_words by lia. cbn [mbind option_bind].
  rewrite !Z2Nat.id by lia.
  assert (Hsplit : seqZ src_ptr width
                   = seqZ src_ptr aligned_width
                     ++ seqZ (src_ptr + aligned_width) (width - aligned_width)).
  { rewrite <- seqZ_app by lia. f_equal. lia. }
  rewrite Hsplit, map_app, !map_map. f_equal. f_equal.
  apply map_ext. intros k. apply CopyOutRow16_lane_scalar.
Qed.

Lemma CopyOut15Bit_fast_rows_words (f : Format) (g_vram : VRAM) (src_step width : Z)
    (rows : nat) (src_ptr : Z) :
  0 <= src_ptr -> 0 <= src_step -> 0 <= width ->
  (rows = O
   \/ src_ptr + (Z.of_nat rows - 1) * src_step + width <= VRAM_WIDTH * VRAM_HEIGHT) ->
  CopyOut15Bit_fast_rows f g_vram src_ptr src_step width rows
  = Some (map (fun p => map (fun k => VRAM16ToOutput f (Int.u16 (g_vram k)))
                          (seqZ p width))
              (map (fun i => src_ptr + i * src_step) (seqZ 0 (Z.of_nat rows)))).
Proof.
  intros Hp Hs Hw. revert src_ptr Hp. induction rows as [|rows IH]; intros src_ptr Hp Hlast.
  - reflexivity.
  - destruct Hlast as [Hlast|Hlast]; [discriminate|].
    cbn [CopyOut15Bit_fast_rows].
    rewrite CopyOutRow16_words by nia. cbn [mbind option_bind].
    rewrite IH; [|lia|destruct rows as [|rows]; [left; reflexivity|right; nia]].
    cbn [mbind option_bind].
    rewrite (seqZ_cons 0 (Z.of_nat (S rows))) by lia.
    replace (Z.pred (Z.of_nat (S rows))) with (Z.of_nat rows) by lia.
    cbn [map]. rewrite Z.mul_0_l, Z.add_0_r. do 3 f_equal.
    change (Z.succ 0) with (1 + 0). rewrite <- fmap_add_seqZ.
    rewrite <- list_fmap_compose. apply map_ext. intros i. cbn. lia.
Qed.

Lemma CopyOut15Bit_wrap_cols_words (f : Format) (g_vram : VRAM) (src_y : Z)
    (cols : nat) (col : Z) :
  0 <= col -> col + Z.of_nat cols <= 2 ^ 32 ->
  CopyOut15Bit_wrap_cols f g_vram ((src_y mod VRAM_HEIGHT) * VRAM_WIDTH) col cols
  = Some (map (fun c => VRAM16ToOutput f
                          (Int.u16 (g_vram ((src_y mod VRAM_HEIGHT) * VRAM_WIDTH
                                            + c mod VRAM_WIDTH))))
              (seqZ col (Z.of_nat cols))).
Proof.
  revert col. induction cols as [|cols IH]; intros col Hc Hend.
  - reflexivity.
  - cbn [CopyOut15Bit_wrap_cols].
    rewrite vram_load_word.
    2:{ unfold VRAM_WIDTH, VRAM_HEIGHT.
        pose proof (Z.mod_pos_bound src_y 512). pose proof (Z.mod_pos_bound col 1024). lia. }
    cbn [mbind option_bind].
    destruct cols as [|cols'].
    + reflexivity.
    + rewrite u32_small by lia. rewrite IH by lia. cbn [mbind option_bind].
      rewrite (seqZ_cons col (Z.of_nat (S (S cols')))) by lia.
      replace (Z.pred (Z.of_nat (S (S cols')))) with (Z.of_nat (S cols')) by lia.
      reflexivity.
Qed.

Lemma CopyOut15Bit_wrap_rows_words (f : Format) (g_vram : VRAM) (src_x end_x y_step : Z)
    (rows : nat) (src_y y : Z) :
  0 <= src_x -> src_x <= end_x <= 2 ^ 32 ->
  src_y mod VRAM_HEIGHT = y mod VRAM_HEIGHT ->
  CopyOut15Bit_wrap_rows f g_vram src_x end_x src_y y_step rows
  = Some (map (fun i =>
                 map (fun c => VRAM16ToOutput f
                                 (Int.u16 (g_vram (((y + i * y_step) mod VRAM_HEIGHT)
                                                   * VRAM_WIDTH + c mod VRAM_WIDTH))))
                     (seqZ src_x (end_x - src_x)))
              (seqZ 0 (Z.of_nat rows))).
Proof.
  intros Hx Hend. revert src_y y. induction rows as [|rows IH]; intros src_y y Hy.
  - reflexivity.
  - cbn [CopyOut15Bit_wrap_rows].
    rewrite CopyOut15Bit_wrap_cols_words by lia. cbn [mbind option_bind].
    rewrite (IH _ (y + y_step)).
    2:{ rewrite u32_mod_VRAM_HEIGHT.
        rewrite (Z.add_mod src_y), (Z.add_mod y), Hy by (unfold VRAM_HEIGHT; lia).
        reflexivity. }
    cbn [mbind option_bind].
    rewrite (seqZ_cons 0 (Z.of_nat (S rows))) by lia.
    replace (Z.pred (Z.of_nat (S rows))) with (Z.of_nat rows) by lia.
    cbn [map]. rewrite Z.mul_0_l, Z.add_0_r, Hy, Z2Nat.id by lia. do 2 f_equal.
    change (Z.succ 0) with (1 + 0). rewrite <- fmap_add_seqZ.
    rewrite <- list_fmap_compose. apply map_ext. intros i. cbn.
    replace (y + y_step + i * y_step) with (y + (1 + i) * y_step) by lia. reflexivity.
Qed.

Lemma CopyOut15Bit_rectangle (f : Format) (g_vram : VRAM)
    (src_x src_y width height line_skip : Z) :
  0 <= src_x -> 0 <= src_y -> 0 <= width -> 0 <= height -> 0 <= line_skip <= 1 ->
  src_x + width < 2 ^ 32 -> src_y + height < 2 ^ 32 ->
  (src_x + width <= VRAM_WIDTH -> src_y + height <= VRAM_HEIGHT ->
   src_y + (height - 1) * 2 ^ line_skip < VRAM_HEIGHT) ->
  CopyOut15Bit f g_vram src_x src_y width height line_skip
  = Some (map (fun i =>
                 map (fun j =>
                        VRAM16ToOutput f
                          (Int.u16 (g_vram (((src_y + i * 2 ^ line_skip) mod VRAM_HEIGHT)
                                            * VRAM_WIDTH
                                            + (src_x + j) mod VRAM_WIDTH))))
                     (seqZ 0 width))
              (seqZ 0 height)).
Proof.
  intros Hx Hy Hw Hh Hskip Hxw Hyh Hlast.
  assert (Hpow : 2 ^ line_skip = 1 /\ line_skip = 0 \/ 2 ^ line_skip = 2 /\ line_skip = 1).
  { assert (Hl : line_skip = 0 \/ line_skip = 1) by lia.
    destruct Hl as [-> | ->]; [left|right]; split; reflexivity. }
  unfold CopyOut15Bit. rewrite !(u32_small (_ + _)) by lia.
  destruct ((src_x + width <=? VRAM_WIDTH) && (src_y + height <=? VRAM_HEIGHT)) eqn:Hguard.
  - apply andb_true_iff in Hguard as [Hgx Hgy].
    apply Z.leb_le in Hgx, Hgy. specialize (Hlast Hgx Hgy).
    unfold VRAM_WIDTH, VRAM_HEIGHT in *.
    assert (Hstep : Int.u32 (Z.shiftl 1024 line_skip) = 1024 * 2 ^ line_skip).
    { destruct Hpow as [[_ ->]|[_ ->]]; reflexivity. }
    rewrite Hstep, (u32_small (src_y * 1024 + src_x)) by lia.
    rewrite CopyOut15Bit_fast_rows_words; [|lia|lia|lia|].
    2:{ destruct (Z.eq_dec height 0) as [->|Hnz]; [left; reflexivity|right].
        unfold VRAM_WIDTH, VRAM_HEIGHT. rewrite Z2Nat.id by lia. nia. }
    rewrite Z2Nat.id by lia. rewrite map_map. f_equal.
    apply map_ext_in. intros i Hi.
    apply list_elem_of_In, elem_of_seqZ in Hi.
    rewrite (seqZ_shift _ width), map_map.
    apply map_ext_in. intros j Hj.
    apply list_elem_of_In, elem_of_seqZ in Hj.
    rewrite (Z.mod_small (src_y + i * 2 ^ line_skip)) by nia.
    rewrite (Z.mod_small (src_x + j)) by lia.
    do 3 f_equal. lia.
  - assert (Hstep : Int.u32 (Z.shiftl 1 line_skip) = 2 ^ line_skip).
    { destruct Hpow as [[_ ->]|[_ ->]]; reflexivity. }
    rewrite Hstep.
    rewrite (CopyOut15Bit_wrap_rows_words f g_vram src_x (src_x + width) _ _ src_y src_y)
      by (lia || reflexivity).
    rewrite Z2Nat.id by lia. f_equal.
    apply map_ext. intros i.
    replace (src_x + width - src_x) with width by lia.
    rewrite (seqZ_shift src_x width), map_map. reflexivity.
Qed.

(** What [CopyOut15Bit] reads, on either path: the output has [height]
    rows of [width] pixels, and pixel [j] of row [i] is the conversion of
    the VRAM word in row [src_y + i * 2^line_skip] and column [src_x + j],
    both taken modulo the dimensions of VRAM.  The fast path needs its last
    row to lie inside VRAM for that. *)
Theorem CopyOut15Bit_reads_the_rectangle (f : Format) (g_vram : VRAM)
    (src_x src_y width height line_skip : Z) :
  0 <= src_x -> 0 <= src_y -> 0 <= width -> 0 <= height -> 0 <= line_skip <= 1 ->
  src_x + width < 2 ^ 32 -> src_y + height < 2 ^ 32 ->
  (src_x + width <= VRAM_WIDTH -> src_y + height <= VRAM_HEIGHT ->
   src_y + (height - 1) * 2 ^ line_skip < VRAM_HEIGHT) ->
  exists rows,
    CopyOut15Bit f g_vram src_x src_y width height line_skip = Some rows
    /\ length rows = Z.to_nat height
    /\ Forall (fun row => length row = Z.to_nat width) rows
    /\ forall i j : nat,
         (i < Z.to_nat height)%nat -> (j < Z.to_nat width)%nat ->
         rows !! i ≫= (fun row => row !! j)
         = Some (VRAM16ToOutput f
                   (Int.u16 (g_vram (((src_y + Z.of_nat i * 2 ^ line_skip) mod VRAM_HEIGHT)
                                     * VRAM_WIDTH
                                     + (src_x + Z.of_nat j) mod VRAM_WIDTH)))).
Proof.
  intros Hx Hy Hw Hh Hskip Hxw Hyh Hlast.
  eexists. split; [apply CopyOut15Bit_rectangle; assumption|].
  split; [rewrite length_map; apply length_seqZ|]. split.
  - apply Forall_forall. intros row Hrow.
    apply list_elem_of_In, in_map_iff in Hrow as (i & <- & _).
    rewrite length_map. apply length_seqZ.
  - intros i j Hi Hj.
    change (map ?g ?l) with (g <$> l).
    rewrite list_lookup_fmap, lookup_seqZ_lt by lia. cbn [fmap option_fmap option_map mbind option_bind].
    rewrite list_lookup_fmap, lookup_seqZ_lt by lia. reflexivity.
Qed.

Lemma CopyOut15Bit_reads_the_rectangle_witness :
  exists rows,
    CopyOut15Bit RGBA8 Scenario.byte_ramp 1022 511 3 2 0 = Some rows
    /\ rows !! 1%nat ≫= (fun row => row !! 2%nat)
       = Some (VRAM16ToOutput RGBA8 (Int.u16 (Scenario.byte_ramp 0))).
Proof.
  destruct (CopyOut15Bit_reads_the_rectangle RGBA8 Scenario.byte_ramp 1022 511 3 2 0)
    as (rows & Hrun & _ & _ & Hpix); unfold VRAM_WIDTH, VRAM_HEIGHT; try lia.
  exists rows. split; [exact Hrun|].
  apply (Hpix 1%nat 2%nat); lia.
Defined.

Lemma load_words_app (g_vram : VRAM) (n m : nat) (p : Z) :
  load_words g_vram p (n + m)
  = head ← load_words g_vram p n;
    tail ← load_words g_vram (p + Z.of_nat n) m;
    Some (head ++ tail).
Proof.
  revert p. induction n as [|n IH]; intros p.
  - cbn [Nat.add load_words mbind option_bind]. rewrite Z.add_0_r.
    destruct (load_words g_vram p m); reflexivity.
  - cbn [Nat.add load_words].
    destruct (vram_load g_vram p) as [v|]; [|reflexivity]. cbn [mbind option_bind].
    rewrite IH. replace (p + 1 + Z.of_nat n) with (p + Z.of_nat (S n)) by lia.
    destruct (load_words g_vram (p + 1) n) as [head|]; [|reflexivity].
    cbn [mbind option_bind].
    destruct (load_words g_vram (p + Z.of_nat (S n)) m); reflexivity.
Qed.

(** [CopyOutRow16] converts every word of the row as [VRAM16ToOutput]
    does, in the eight-lane part and in the remainder alike, for each of
    the four formats; the row has no value exactly when one of its words
    lies outside VRAM. *)
Theorem CopyOutRow16_converts_each_word_with_VRAM16ToOutput (f : Format) (g_vram : VRAM)
    (src_ptr width : Z) :
  0 <= width ->
  CopyOutRow16 f g_vram src_ptr width
  = map (VRAM16ToOutput f) <$> load_words g_vram src_ptr (Z.to_nat width).
Proof.
  intros Hw. unfold CopyOutRow16.
  set (aligned_width := match f with
                        | RGBA5551 | RGB565 => AlignDownPow2 width 8
                        | _ => 0
                        end).
  assert (Ha : 0 <= aligned_width <= width).
  { subst aligned_width.
    destruct f; try lia; split;
      (apply AlignDownPow2_nonneg || apply AlignDownPow2_le); lia. }
  replace (Z.to_nat width)
    with (Z.to_nat aligned_width + Z.to_nat (width - aligned_width))%nat by lia.
  rewrite load_words_app, Z2Nat.id by lia.
  destruct (load_words g_vram src_ptr (Z.to_nat aligned_width)) as [head|]; [|reflexivity].
  cbn [mbind option_bind].
  destruct (load_words g_vram (src_ptr + aligned_width) _) as [tail|]; [|reflexivity].
  cbn [mbind option_bind fmap option_fmap option_map].
  rewrite map_app. do 2 f_equal.
  apply map_ext. intros v. apply CopyOutRow16_lane_scalar.
Qed.

Lemma CopyOutRow16_converts_each_word_with_VRAM16ToOutput_witness :
  CopyOutRow16 RGB565 Scenario.byte_ramp 1000 21
  = map (VRAM16ToOutput RGB565) <$> load_words Scenario.byte_ramp 1000 (Z.to_nat 21).
Proof.
  apply CopyOutRow16_converts_each_word_with_VRAM16ToOutput. lia.
Defined.

(** When a rectangle does not pass the guard of the fast path, the loops
    reduce every row and column modulo the dimensions of VRAM: whatever the
    arguments, none of their reads leaves the array. *)
Lemma CopyOut15Bit_wrap_rows_length (f : Format) (g_vram : VRAM)
    (src_x src_y width height line_skip : Z) :
  (Int.u32 (src_x + width) <=? VRAM_WIDTH) && (Int.u32 (src_y + height) <=? VRAM_HEIGHT)
  = false ->
  exists rows,
    CopyOut15Bit f g_vram src_x src_y width height line_skip = Some rows
    /\ length rows = Z.to_nat height.
Proof.
  intros Hguard. unfold CopyOut15Bit. rewrite Hguard.
  generalize (Int.u32 (Z.shiftl 1 line_skip)) as y_step.
  generalize (Int.u32 (src_x + width)) as end_x.
  intros end_x y_step. generalize (Z.to_nat height) as rows. clear Hguard.
  intros rows. revert src_y. induction rows as [|rows IH]; intros src_y.
  - exists []. split; reflexivity.
  - cbn [CopyOut15Bit_wrap_rows].
    destruct (CopyOut15Bit_wrap_cols_in_bounds f g_vram src_y (Z.to_nat (end_x - src_x)) src_x)
      as [row ->].
    destruct (IH (Int.u32 (src_y + y_step))) as (rest & -> & Hlen).
    exists (row :: rest). split; [reflexivity|]. cbn. rewrite Hlen. reflexivity.
Qed.

End ReadoutPixels15.

Section ReadoutPixels24.

Import GPU_SW.

Lemma vram_load_u8_byte (g_vram : VRAM) (row off : Z) :
  0 <= off < VRAM_WIDTH * 2 ->
  row_byte g_vram (row * VRAM_WIDTH) off
  = vram_load_u8 g_vram (row * (VRAM_WIDTH * 2) + off).
Proof.
  intros Hoff. unfold row_byte. rewrite Z.mod_small by exact Hoff.
  f_equal. lia.
Qed.

Lemma CopyOut24Bit_fast_cols_packed (f : Format) (g_vram : VRAM) (row src_x skip_x : Z)
    (cols : nat) (col : Z) :
  0 <= src_x -> 0 <= skip_x -> 0 <= col ->
  src_x * 2 + (skip_x + col + Z.of_nat cols) * 3 <= VRAM_WIDTH * 2 ->
  CopyOut24Bit_fast_cols f g_vram
    (row * (VRAM_WIDTH * 2) + src_x * 2 + (skip_x + col) * 3) cols
  = naive_24bit_cols f g_vram (row * VRAM_WIDTH) src_x skip_x col cols.
Proof.
  intros Hx Hs. revert col. induction cols as [|cols IH]; intros col Hc Hend.
  - reflexivity.
  - cbn [CopyOut24Bit_fast_cols naive_24bit_cols]. unfold naive_24bit_pixel.
    rewrite !vram_load_u8_byte by lia.
    replace (row * (VRAM_WIDTH * 2) + (src_x * 2 + (skip_x + col) * 3))
      with (row * (VRAM_WIDTH * 2) + src_x * 2 + (skip_x + col) * 3) by lia.
    replace (row * (VRAM_WIDTH * 2) + (src_x * 2 + (skip_x + col) * 3 + 1))
      with (row * (VRAM_WIDTH * 2) + src_x * 2 + (skip_x + col) * 3 + 1) by lia.
    replace (row * (VRAM_WIDTH * 2) + (src_x * 2 + (skip_x + col) * 3 + 2))
      with (row * (VRAM_WIDTH * 2) + src_x * 2 + (skip_x + col) * 3 + 2) by lia.
    replace (row * (VRAM_WIDTH * 2) + src_x * 2 + (skip_x + col) * 3 + 3)
      with (row * (VRAM_WIDTH * 2) + src_x * 2 + (skip_x + (col + 1)) * 3) by lia.
    rewrite IH by lia.
    repeat match goal with
           | |- context [vram_load_u8 ?g ?i] =>
               destruct (vram_load_u8 g i); cbn [mbind option_bind]; try reflexivity
           end.
Qed.

Lemma CopyOut24Bit_fast_rows_packed (f : Format) (g_vram : VRAM)
    (src_x skip_x width y_step : Z) (rows : nat) (src_y : Z) :
  0 <= src_x -> 0 <= skip_x -> 0 <= width -> 0 < y_step -> 0 <= src_y ->
  src_x * 2 + (skip_x + width) * 3 <= VRAM_WIDTH * 2 ->
  src_y + Z.of_nat rows * y_step <= VRAM_HEIGHT ->
  CopyOut24Bit_fast_rows f g_vram
    ((src_y * VRAM_WIDTH + src_x) * 2 + skip_x * 3) (VRAM_WIDTH * y_step * 2) width rows
  = naive_24bit_rows f g_vram src_x src_y skip_x width y_step rows.
Proof.
  intros Hx Hs Hw Hstep. revert src_y.
  induction rows as [|rows IH]; intros src_y Hy Hrow Hlast.
  - reflexivity.
  - cbn [CopyOut24Bit_fast_rows naive_24bit_rows].
    assert (Hin : src_y < VRAM_HEIGHT) by nia.
    rewrite (Z.mod_small src_y) by lia.
    replace ((src_y * VRAM_WIDTH + src_x) * 2 + skip_x * 3)
      with (src_y * (VRAM_WIDTH * 2) + src_x * 2 + (skip_x + 0) * 3) by lia.
    rewrite CopyOut24Bit_fast_cols_packed by (rewrite ?Z2Nat.id by lia; lia).
    destruct (naive_24bit_cols _ _ _ _ _ _ _) as [row|]; [|reflexivity].
    cbn [mbind option_bind].
    replace (src_y * (VRAM_WIDTH * 2) + src_x * 2 + (skip_x + 0) * 3
             + VRAM_WIDTH * y_step * 2)
      with (((src_y + y_step) * VRAM_WIDTH + src_x) * 2 + skip_x * 3) by lia.
    rewrite IH by nia. reflexivity.
Qed.

(** The fast path of [CopyOut24Bit] reads packed 24-bit pixels: when the
    rectangle lies inside VRAM and the bytes of a row do not run past the
    end of the VRAM row, every pixel is the conversion of the three bytes at
    byte offset [src_x*2 + (skip_x+col)*3] of its row, for each of the four
    formats. *)
Theorem CopyOut24Bit_fast_path_reads_packed_pixels (f : Format) (g_vram : VRAM)
    (src_x src_y skip_x width height line_skip : Z) :
  0 <= src_x -> 0 <= src_y -> 0 <= skip_x -> 0 <= width -> 0 <= height ->
  0 <= line_skip <= 1 ->
  src_x * 2 + (skip_x + width) * 3 <= VRAM_WIDTH * 2 ->
  src_y + height * 2 ^ line_skip <= VRAM_HEIGHT ->
  CopyOut24Bit f g_vram src_x src_y skip_x width height line_skip
  = naive_24bit f g_vram src_x src_y skip_x width height line_skip.
Proof.
  intros Hx Hy Hs Hw Hh Hskip Hbytes Hrows.
  assert (Hpow : 2 ^ line_skip = 1 /\ line_skip = 0 \/ 2 ^ line_skip = 2 /\ line_skip = 1).
  { assert (Hl : line_skip = 0 \/ line_skip = 1) by lia.
    destruct Hl as [-> | ->]; [left|right]; split; reflexivity. }
  unfold CopyOut24Bit, naive_24bit. unfold VRAM_WIDTH, VRAM_HEIGHT in *.
  assert (Hshift : Z.shiftl height line_skip = height * 2 ^ line_skip).
  { rewrite Z.shiftl_mul_pow2 by lia. reflexivity. }
  assert (Hstep : Int.u32 (Z.shiftl 1024 line_skip) = 1024 * Z.shiftl 1 line_skip).
  { destruct Hpow as [[_ ->]|[_ ->]]; reflexivity. }
  assert (Hone : Z.shiftl 1 line_skip = 2 ^ line_skip).
  { rewrite Z.shiftl_mul_pow2 by lia. lia. }
  rewrite Hshift, Hstep.
  rewrite (u32_small (src_x + width)), (u32_small (height * _)),
    (u32_small (src_y + _)), (u32_small (src_y * 1024 + src_x)), (u32_small (skip_x * 3))
    by nia.
  destruct (Z.leb_spec (src_x + width) 1024); [|lia].
  destruct (Z.leb_spec (src_y + height * 2 ^ line_skip) 512); [|lia].
  cbn [andb].
  apply (CopyOut24Bit_fast_rows_packed f g_vram src_x skip_x width (Z.shiftl 1 line_skip)
           (Z.to_nat height) src_y); unfold VRAM_WIDTH, VRAM_HEIGHT;
    rewrite ?Hone, ?Z2Nat.id by lia; lia.
Qed.

Lemma CopyOut24Bit_fast_path_reads_packed_pixels_witness :
  CopyOut24Bit RGB565 Scenario.byte_ramp 0 16 2 640 240 1
  = naive_24bit RGB565 Scenario.byte_ramp 0 16 2 640 240 1.
Proof.
  apply CopyOut24Bit_fast_path_reads_packed_pixels; unfold VRAM_WIDTH, VRAM_HEIGHT; lia.
Defined.

End ReadoutPixels24.

Section ReadoutMember.

Import GPU_SW DisplayFormat DisplayUpload.

(* The readout as a whole, given what its loops produce. *)
Lemma CopyOut15Bit_member (h : Host) (f : Format) (g_vram : VRAM)
    (src_x src_y width height line_skip : Z) (m : GPU_SW_State) (rows : list (list Z)) :
  GPU_SW.CopyOut15Bit f g_vram src_x src_y width height line_skip = Some rows ->
  let kept := texture_matches (m_upload_texture m) width height f in
  let fetched := FetchTexture_succeeds h width height f in
  DisplayUpload.CopyOut15Bit h f g_vram src_x src_y width height line_skip m
  = Some (kept || fetched,
          mkGPU_SW (members m)
            (if kept || fetched then Some (mkTexture width height f rows) else None)
            (calls m
             ++ (if kept then []
                 else [ClearDisplayTexture; RecycleTexture (m_upload_texture m);
                       FetchTexture width height f])
             ++ (if kept || fetched
                 then [Texture_Map width height;
                       if Map_succeeds h then Texture_Unmap
                       else Texture_Update width height
                              (Int.u32 (width * sizeof_OutputPixelType f))]
                 else []))).
Proof.
  intros Hrows kept fetched. subst kept fetched.
  destruct m as [mem tex cs].
  unfold DisplayUpload.CopyOut15Bit, GetDisplayTexture, unmap_or_update, call,
    set_m_upload_texture.
  cbn [m_upload_texture members calls].
  destruct (texture_matches tex width height f) eqn:Hkept; cbn [negb orb].
  - destruct tex as [[w0 h0 f0 old]|]; [|discriminate].
    cbn in Hkept. apply andb_true_iff in Hkept as [Hwh Hf].
    apply andb_true_iff in Hwh as [Hw Hh].
    apply Z.eqb_eq in Hw, Hh. apply bool_decide_eq_true_1 in Hf. subst w0 h0 f0.
    rewrite Hrows. cbn [mbind option_bind GetWidth GetHeight GetFormat].
    destruct (Map_succeeds h); cbn [m_upload_texture members calls app];
      rewrite ?app_nil_r, <- ?app_assoc; reflexivity.
  - cbn [m_upload_texture members calls].
    destruct (FetchTexture_succeeds h width height f).
    + rewrite Hrows. cbn [mbind option_bind GetWidth GetHeight GetFormat].
      destruct (Map_succeeds h); cbn [m_upload_texture members calls app];
        rewrite <- ?app_assoc; reflexivity.
    + cbn [m_upload_texture members calls app]. rewrite <- ?app_assoc, ?app_nil_r.
      reflexivity.
Qed.

(** [CopyOut15Bit] on a rectangle that does not pass the guard of the fast
    path.  It returns false, having read nothing of VRAM, exactly when no
    display texture is to be had: the upload texture does not match and
    fetching a new one fails.  Otherwise every row and column is reduced
    modulo the dimensions of VRAM, so whatever the arguments none of the
    reads leaves the array, and the upload texture holds [height] rows
    afterwards. *)
Theorem CopyOut15Bit_wrapping_path_stays_inside_vram (h : Host) (f : Format)
    (g_vram : VRAM) (src_x src_y width height line_skip : Z) (m : GPU_SW_State) :
  (Int.u32 (src_x + width) <=? VRAM_WIDTH) && (Int.u32 (src_y + height) <=? VRAM_HEIGHT)
  = false ->
  let kept := texture_matches (m_upload_texture m) width height f in
  let fetched := FetchTexture_succeeds h width height f in
  exists copied m',
    DisplayUpload.CopyOut15Bit h f g_vram src_x src_y width height line_skip m
    = Some (copied, m')
    /\ copied = kept || fetched
    /\ members m' = members m
    /\ (copied = true ->
        exists rows,
          GPU_SW.CopyOut15Bit f g_vram src_x src_y width height line_skip = Some rows
          /\ length rows = Z.to_nat height
          /\ m_upload_texture m' = Some (mkTexture width height f rows))
    /\ (copied = false ->
        m_upload_texture m' = None
        /\ calls m'
           = calls m ++ [ClearDisplayTexture; RecycleTexture (m_upload_texture m);
                         FetchTexture width height f]).
Proof.
  intros Hguard kept fetched.
  destruct (CopyOut15Bit_wrap_rows_length f g_vram src_x src_y width height line_skip Hguard)
    as (rows & Hrows & Hlen).
  rewrite (CopyOut15Bit_member h f g_vram src_x src_y width height line_skip m rows Hrows).
  fold kept. fold fetched.
  eexists _, _. split; [reflexivity|]. split; [reflexivity|]. split; [reflexivity|].
  cbn [m_upload_texture calls]. split.
  - intros ->. exists rows. repeat split; assumption.
  - intros Hnone. rewrite Hnone.
    apply orb_false_iff in Hnone as [-> _]. rewrite app_nil_r. split; reflexivity.
Qed.

Lemma CopyOut15Bit_wrapping_path_stays_inside_vram_witness :
  exists copied m',
    DisplayUpload.CopyOut15Bit generous RGB565 Scenario.byte_ramp 1000 500 64 240 1 fresh
    = Some (copied, m')
    /\ copied = true
    /\ members m' = constructed
    /\ (copied = true ->
        exists rows,
          GPU_SW.CopyOut15Bit RGB565 Scenario.byte_ramp 1000 500 64 240 1 = Some rows
          /\ length rows = 240%nat
          /\ m_upload_texture m' = Some (mkTexture 64 240 RGB565 rows))
    /\ (copied = false ->
        m_upload_texture m' = None
        /\ calls m' = [ClearDisplayTexture; RecycleTexture None; FetchTexture 64 240 RGB565]).
Proof.
  apply (CopyOut15Bit_wrapping_path_stays_inside_vram generous RGB565 Scenario.byte_ramp
           1000 500 64 240 1 fresh).
  reflexivity.
Defined.

(** With [show_vram] set, [UpdateDisplay] ignores the command and reads the
    whole of VRAM.  When the display texture is to be had (the upload
    texture is a 1024x512 texture of the 16-bit display format already, or
    such a texture can be fetched), it holds 512 rows of 1024 pixels
    afterwards, each the conversion of the word at the same place, and is
    handed to [SetDisplayTexture].  When it is not, the display has been
    cleared and nothing is shown. *)
Theorem UpdateDisplay_show_vram_displays_all_of_vram (h : Host) (g_vram : VRAM)
    (cmd : GPUBackendUpdateDisplayCommand) (m : GPU_SW_State) :
  g_settings_debugging_show_vram h = true ->
  let m16 := m_16bit_display_format (members m) in
  let kept := texture_matches (m_upload_texture m) VRAM_WIDTH VRAM_HEIGHT m16 in
  let fetched := FetchTexture_succeeds h VRAM_WIDTH VRAM_HEIGHT m16 in
  let vram :=
    mkTexture VRAM_WIDTH VRAM_HEIGHT m16
      (map (fun i =>
              map (fun j => VRAM16ToOutput m16 (Int.u16 (g_vram (i * VRAM_WIDTH + j))))
                  (seqZ 0 VRAM_WIDTH))
           (seqZ 0 VRAM_HEIGHT)) in
  exists m',
    DisplayUpload.UpdateDisplay h g_vram cmd m = Some m'
    /\ members m' = members m
    /\ m_upload_texture m' = (if kept || fetched then Some vram else None)
    /\ calls m'
       = calls m
         ++ (if kept then []
             else [ClearDisplayTexture; RecycleTexture (m_upload_texture m);
                   FetchTexture VRAM_WIDTH VRAM_HEIGHT m16])
         ++ (if kept || fetched
             then [Texture_Map VRAM_WIDTH VRAM_HEIGHT;
                   if Map_succeeds h then Texture_Unmap
                   else Texture_Update VRAM_WIDTH VRAM_HEIGHT
                          (Int.u32 (VRAM_WIDTH * sizeof_OutputPixelType m16));
                   SetDisplayTexture (Some vram) 0 0 VRAM_WIDTH VRAM_HEIGHT]
             else []).
Proof.
  intros Hshow m16 kept fetched vram.
  unfold DisplayUpload.UpdateDisplay, DisplayUpload.CopyOut. rewrite Hshow. cbn [negb].
  fold m16.
  erewrite CopyOut15Bit_member.
  2:{ apply CopyOut15Bit_rectangle; unfold VRAM_WIDTH, VRAM_HEIGHT; lia. }
  fold kept. fold fetched. cbn [mbind option_bind].
  assert (Hrows :
    map (fun i =>
           map (fun j =>
                  VRAM16ToOutput m16
                    (Int.u16 (g_vram (((0 + i * 2 ^ 0) mod VRAM_HEIGHT) * VRAM_WIDTH
                                      + (0 + j) mod VRAM_WIDTH))))
               (seqZ 0 VRAM_WIDTH))
        (seqZ 0 VRAM_HEIGHT)
    = texels vram).
  { subst vram. cbn [texels].
    apply map_ext_in. intros i Hi. apply list_elem_of_In, elem_of_seqZ in Hi.
    apply map_ext_in. intros j Hj. apply list_elem_of_In, elem_of_seqZ in Hj.
    unfold VRAM_WIDTH, VRAM_HEIGHT in *.
    rewrite Z.add_0_l, Z.mul_1_r, Z.add_0_l, !Z.mod_small by lia. reflexivity. }
  rewrite Hrows. change (mkTexture VRAM_WIDTH VRAM_HEIGHT m16 (texels vram)) with vram.
  generalize vram as t. intros t.
  destruct (kept || fetched); unfold call; cbn [m_upload_texture members calls].
  - eexists. split; [reflexivity|]. cbn [m_upload_texture members calls].
    repeat split. rewrite <- !app_assoc. reflexivity.
  - eexists. split; [reflexivity|]. cbn [m_upload_texture members calls].
    repeat split.
Qed.

Lemma UpdateDisplay_show_vram_displays_all_of_vram_witness :
  let h := mkHost (fun _ _ _ => true) false true true false in
  let vram :=
    mkTexture VRAM_WIDTH VRAM_HEIGHT RGB565
      (map (fun i =>
              map (fun j =>
                     VRAM16ToOutput RGB565 (Int.u16 (Scenario.byte_ramp (i * VRAM_WIDTH + j))))
                  (seqZ 0 VRAM_WIDTH))
           (seqZ 0 VRAM_HEIGHT)) in
  exists m',
    DisplayUpload.UpdateDisplay h Scenario.byte_ramp
      (mkUpdateDisplay true false false 0 false 0 0 0 0 0) fresh = Some m'
    /\ members m' = constructed
    /\ m_upload_texture m' = Some vram
    /\ calls m'
       = [ClearDisplayTexture; RecycleTexture None; FetchTexture VRAM_WIDTH VRAM_HEIGHT RGB565;
          Texture_Map VRAM_WIDTH VRAM_HEIGHT;
          Texture_Update VRAM_WIDTH VRAM_HEIGHT 2048;
          SetDisplayTexture (Some vram) 0 0 VRAM_WIDTH VRAM_HEIGHT].
Proof.
  cbv zeta.
  apply (UpdateDisplay_show_vram_displays_all_of_vram
           (mkHost (fun _ _ _ => true) false true true false) Scenario.byte_ramp
           (mkUpdateDisplay true false false 0 false 0 0 0 0 0) fresh).
  reflexivity.
Defined.

(** A 15-bit display area: [UpdateDisplay] reads [display_vram_width]
    columns from [display_vram_left]; a progressive display takes every row
    from [display_vram_top], an interlaced one half as many rows, and an
    interleaved one every other row starting at the row of the current
    field.  Rows and columns wrap around VRAM.  When the display texture is
    to be had, it holds these pixels afterwards and is handed to
    [SetDisplayTexture], and on an interlaced display [Deinterlace] is
    called for the current field after that.  When it is not, the display
    has been cleared and nothing is shown. *)
Theorem UpdateDisplay_shows_the_15bit_display_area (h : Host) (g_vram : VRAM)
    (cmd : GPUBackendUpdateDisplayCommand) (m : GPU_SW_State) :
  g_settings_debugging_show_vram h = false ->
  display_disabled cmd = false ->
  display_24bit cmd = false ->
  let m16 := m_16bit_display_format (members m) in
  let interlaced := interlaced_display_enabled cmd in
  let interleaved := interlaced && interlaced_display_interleaved cmd in
  let first_row :=
    display_vram_top cmd + (if interleaved then interlaced_display_field cmd else 0) in
  let row_step := if interleaved then 2 else 1 in
  let rows := if interlaced then display_vram_height cmd / 2 else display_vram_height cmd in
  let width := display_vram_width cmd in
  0 <= display_vram_left cmd -> 0 <= display_vram_top cmd ->
  0 <= display_vram_width cmd -> 0 <= display_vram_height cmd ->
  0 <= interlaced_display_field cmd <= 1 ->
  display_vram_left cmd + display_vram_width cmd < 2 ^ 32 ->
  first_row + rows < 2 ^ 32 ->
  (display_vram_left cmd + display_vram_width cmd <= VRAM_WIDTH ->
   first_row + rows <= VRAM_HEIGHT ->
   first_row + (rows - 1) * row_step < VRAM_HEIGHT) ->
  let kept := texture_matches (m_upload_texture m) width rows m16 in
  let fetched := FetchTexture_succeeds h width rows m16 in
  let area :=
    mkTexture width rows m16
      (map (fun i =>
              map (fun j =>
                     VRAM16ToOutput m16
                       (Int.u16 (g_vram (((first_row + i * row_step) mod VRAM_HEIGHT)
                                         * VRAM_WIDTH
                                         + (display_vram_left cmd + j) mod VRAM_WIDTH))))
                  (seqZ 0 width))
           (seqZ 0 rows)) in
  exists m',
    DisplayUpload.UpdateDisplay h g_vram cmd m = Some m'
    /\ members m' = members m
    /\ m_upload_texture m' = (if kept || fetched then Some area else None)
    /\ calls m'
       = calls m
         ++ (if kept then []
             else [ClearDisplayTexture; RecycleTexture (m_upload_texture m);
                   FetchTexture width rows m16])
         ++ (if kept || fetched
             then [Texture_Map width rows;
                   if Map_succeeds h then Texture_Unmap
                   else Texture_Update width rows
                          (Int.u32 (width * sizeof_OutputPixelType m16));
                   SetDisplayTexture (Some area) 0 0 width rows]
                  ++ (if interlaced then [Deinterlace (interlaced_display_field cmd) 0]
                      else [])
             else []).
Proof.
  intros Hshow Hdis H24 m16 interlaced interleaved first_row row_step rows width
    Hl Ht Hw Hh Hf Hlw Hfr Hlast kept fetched area.
  assert (Hrows : 0 <= rows).
  { subst rows. destruct interlaced; [apply Z.div_pos; lia|lia]. }
  assert (Hfirst : 0 <= first_row).
  { subst first_row. destruct interleaved; lia. }
  assert (Hcopy : forall line_skip,
            line_skip = (if interlaced
                         then (if interlaced_display_interleaved cmd then 1 else 0)
                         else 0) ->
            DisplayUpload.CopyOut h g_vram (display_vram_left cmd) (Int.u32 first_row) 0
              width rows line_skip false m
            = Some (kept || fetched,
                    mkGPU_SW (members m)
                      (if kept || fetched then Some area else None)
                      (calls m
                       ++ (if kept then []
                           else [ClearDisplayTexture; RecycleTexture (m_upload_texture m);
                                 FetchTexture width rows m16])
                       ++ (if kept || fetched
                           then [Texture_Map width rows;
                                 if Map_succeeds h then Texture_Unmap
                                 else Texture_Update width rows
                                        (Int.u32 (width * sizeof_OutputPixelType m16))]
                           else [])))).
  { intros line_skip Hskip.
    assert (Hstep : row_step = 2 ^ line_skip).
    { subst row_step interleaved line_skip.
      destruct interlaced, (interlaced_display_interleaved cmd); reflexivity. }
    unfold DisplayUpload.CopyOut. cbn [negb]. fold m16.
    rewrite (u32_small first_row) by lia.
    erewrite CopyOut15Bit_member.
    2:{ apply CopyOut15Bit_rectangle; try lia.
        subst line_skip. destruct interlaced, (interlaced_display_interleaved cmd); lia. }
    rewrite <- Hstep. reflexivity. }
  unfold DisplayUpload.UpdateDisplay. rewrite Hshow, Hdis, H24. cbn [negb andb].
  fold interlaced. fold interleaved. fold first_row. fold rows. fold width.
  generalize dependent area. intros area Hcopy.
  destruct interlaced eqn:Hint.
  - rewrite (Hcopy _ eq_refl). cbn [mbind option_bind].
    destruct (kept || fetched); unfold call; cbn [m_upload_texture members calls];
      eexists; (split; [reflexivity|]); cbn [m_upload_texture members calls];
      repeat split; rewrite <- ?app_assoc; reflexivity.
  - rewrite (Hcopy _ eq_refl). cbn [mbind option_bind].
    destruct (kept || fetched); unfold call; cbn [m_upload_texture members calls];
      eexists; (split; [reflexivity|]); cbn [m_upload_texture members calls];
      repeat split; rewrite <- ?app_assoc, ?app_nil_r; reflexivity.
Qed.

Lemma UpdateDisplay_shows_the_15bit_display_area_witness :
  let area :=
    mkTexture 8 3 RGB565
      (map (fun i =>
              map (fun j =>
                     VRAM16ToOutput RGB565
                       (Int.u16 (Scenario.byte_ramp
                                   (((511 + i * 2) mod VRAM_HEIGHT) * VRAM_WIDTH
                                    + (1020 + j) mod VRAM_WIDTH))))
                  (seqZ 0 8))
           (seqZ 0 3)) in
  exists m',
    DisplayUpload.UpdateDisplay generous Scenario.byte_ramp
      (mkUpdateDisplay false false true 1 true 0 1020 510 8 6) fresh = Some m'
    /\ members m' = constructed
    /\ m_upload_texture m' = Some area
    /\ calls m'
       = [ClearDisplayTexture; RecycleTexture None; FetchTexture 8 3 RGB565;
          Texture_Map 8 3; Texture_Unmap; SetDisplayTexture (Some area) 0 0 8 3;
          Deinterlace 1 0].
Proof.
  cbv zeta.
  apply (UpdateDisplay_shows_the_15bit_display_area generous Scenario.byte_ramp
           (mkUpdateDisplay false false true 1 true 0 1020 510 8 6) fresh);
    try reflexivity; cbn; unfold VRAM_WIDTH, VRAM_HEIGHT; lia.
Defined.


(** The member function reads VRAM only with a display texture in hand,
    and then exactly what its loops read: it leaves the array when they
    do. *)
Lemma CopyOut15Bit_member_leaves_vram (h : Host) (f : Format) (g_vram : VRAM)
    (src_x src_y width height line_skip : Z) (m : GPU_SW_State) :
  texture_matches (m_upload_texture m) width height f
  || FetchTexture_succeeds h width height f = true ->
  GPU_SW.CopyOut15Bit f g_vram src_x src_y width height line_skip = None ->
  DisplayUpload.CopyOut15Bit h f g_vram src_x src_y width height line_skip m = None.
Proof.
  intros Hav Hnone. destruct m as [mem tex cs].
  unfold DisplayUpload.CopyOut15Bit, GetDisplayTexture, call, set_m_upload_texture.
  cbn [m_upload_texture members calls] in *.
  destruct (texture_matches tex width height f) eqn:Hkept; cbn [negb orb] in *.
  - destruct tex as [t|]; [|discriminate]. rewrite Hnone. reflexivity.
  - rewrite Hav. cbn [m_upload_texture]. rewrite Hnone. reflexivity.
Qed.

(** The interleaved field of 320x240 from row 256 leaves VRAM in
    [UpdateDisplay] as a whole, once the texture for it is there. *)
Lemma UpdateDisplay_member_reads_past_vram (h : Host) (g_vram : VRAM) (m : GPU_SW_State) :
  g_settings_debugging_show_vram h = false ->
  texture_matches (m_upload_texture m) 320 240 (m_16bit_display_format (members m))
  || FetchTexture_succeeds h 320 240 (m_16bit_display_format (members m)) = true ->
  DisplayUpload.UpdateDisplay h g_vram
    (mkUpdateDisplay false false true 0 true 0 0 256 320 480) m = None.
Proof.
  intros Hshow Hav.
  unfold DisplayUpload.UpdateDisplay, DisplayUpload.CopyOut. rewrite Hshow.
  cbn [negb display_disabled display_24bit
    interlaced_display_enabled interlaced_display_field interlaced_display_interleaved
    X display_vram_left display_vram_top display_vram_width display_vram_height andb].
  change (Int.u32 (256 + 0)) with 256. change (480 / 2) with 240.
  rewrite CopyOut15Bit_member_leaves_vram; [reflexivity|exact Hav|].
  apply CopyOut15Bit_interleaved_out_of_bounds; unfold VRAM_WIDTH, VRAM_HEIGHT; lia.
Qed.

End ReadoutMember.

Section DisplayFormats.

Import GPU_SW DisplayFormat.

(** The display formats a software backend ends up with: when the device
    supports any of the four formats, both chosen formats are supported;
    the format for 15-bit output is a 16-bit one whenever the device
    supports a 16-bit one, and the format for 24-bit output a 32-bit one
    whenever it supports a 32-bit one; and a device that supports none
    leaves the members as they were. *)
Theorem SetDisplayTextureFormat_prefers_the_matching_depth
    (SupportsTextureFormat : Format -> bool) (m : Members) :
  let m' := SetDisplayTextureFormat SupportsTextureFormat m in
  ((exists f, SupportsTextureFormat f = true) ->
   SupportsTextureFormat (m_16bit_display_format m') = true
   /\ SupportsTextureFormat (m_24bit_display_format m') = true)
  /\ ((exists f, SupportsTextureFormat f = true /\ is_16bit f = true) ->
      is_16bit (m_16bit_display_format m') = true)
  /\ ((exists f, SupportsTextureFormat f = true /\ is_16bit f = false) ->
      is_16bit (m_24bit_display_format m') = false)
  /\ ((forall f, SupportsTextureFormat f = false) -> m' = m).
Proof.
  cbv zeta. unfold SetDisplayTextureFormat, formats_for_16bit, formats_for_24bit.
  cbn [first_supported m_16bit_display_format m_24bit_display_format].
  split; [|split; [|split]].
  - intros [f Hf].
    destruct (SupportsTextureFormat RGB565) eqn:H565,
      (SupportsTextureFormat RGBA5551) eqn:H5551,
      (SupportsTextureFormat RGBA8) eqn:H8,
      (SupportsTextureFormat BGRA8) eqn:HB;
      try (split; assumption); destruct f; congruence.
  - intros [f [Hf H16]].
    destruct (SupportsTextureFormat RGB565) eqn:H565; [reflexivity|].
    destruct (SupportsTextureFormat RGBA5551) eqn:H5551; [reflexivity|].
    destruct f; cbn in H16; congruence.
  - intros [f [Hf H16]].
    destruct (SupportsTextureFormat RGBA8) eqn:H8; [reflexivity|].
    destruct (SupportsTextureFormat BGRA8) eqn:HB; [reflexivity|].
    destruct f; cbn in H16; congruence.
  - intros Hnone. rewrite !Hnone. destruct m; reflexivity.
Qed.

Lemma SetDisplayTextureFormat_prefers_the_matching_depth_witness :
  let supports := fun f => match f with RGBA5551 | BGRA8 => true | _ => false end in
  is_16bit (m_16bit_display_format (SetDisplayTextureFormat supports constructed)) = true
  /\ is_16bit (m_24bit_display_format (SetDisplayTextureFormat supports constructed)) = false.
Proof.
  cbv zeta.
  destruct (SetDisplayTextureFormat_prefers_the_matching_depth
              (fun f => match f with RGBA5551 | BGRA8 => true | _ => false end) constructed)
    as (_ & H16 & H32 & _).
  split.
  - apply H16. exists RGBA5551. split; reflexivity.
  - apply H32. exists BGRA8. split; reflexivity.
Defined.

End DisplayFormats.
